(** * Context tracking for the just-in-time engine

    A shallow embedding of [src/jit/lib/setupTrackingContext.js] (build
    mode, one-shot polling) and of its watch-mode sibling
    [setupWatchingContext.js], both found in the same source unit.

    The JavaScript is effectful: it stats and reads files, loads modules
    through [require], keeps module-level caches and mutates context
    objects.  The embedding threads one explicit [world] through a small
    state-and-exception monad [M]; every filesystem access leaves an event
    in the world's [trace], so that statements of the form "the file is
    not read again" are statements about that trace. *)

From stdpp Require Import gmap strings list fin_maps.

Open Scope Z_scope.

(** ** JavaScript values that occur in the code *)

(** [mtimeMs] values, taken as whole milliseconds, and the [-Infinity]
    default of an absent entry. *)
Inductive jsnum :=
  | NegInfinity
  | Num (z : Z).

Definition num_gt (a b : jsnum) : bool :=
  match a, b with
  | NegInfinity, _ => false
  | Num _, NegInfinity => true
  | Num x, Num y => bool_decide (y < x)
  end.

Definition num_le (a b : jsnum) : bool :=
  match a, b with
  | NegInfinity, _ => true
  | Num _, NegInfinity => false
  | Num x, Num y => bool_decide (x ≤ y)
  end.

(** A value used where a path is expected: a string, [null] or
    [undefined]. *)
Inductive jsval :=
  | JUndefined
  | JNull
  | JStr (s : string).

Global Instance jsval_eq_dec : EqDecision jsval.
Proof. solve_decision. Defined.

Global Instance jsval_countable : Countable jsval.
Proof.
  refine (inj_countable'
    (λ v, match v with
          | JUndefined => inl false
          | JNull => inl true
          | JStr s => inr s
          end)
    (λ x, match x with
          | inl false => JUndefined
          | inl true => JNull
          | inr s => JStr s
          end) _).
  by intros [].
Defined.

(** [null] for an absent path, as [resolveConfigPath] returns it. *)
Definition path_val (p : option string) : jsval :=
  match p with
  | Some s => JStr s
  | None => JNull
  end.

(** ** Configuration values *)

(** An entry of the configuration's content list: a path or glob, an
    object with a string [raw] property (and maybe an [extension]), or
    any other object. *)
Inductive content_item :=
  | ItemString (s : string)
  | ItemRaw (raw : string) (extension : option string)
  | ItemObject.

(** [purge] is either an array or an object with a [content] array. *)
Inductive purge_option :=
  | PurgeArray (items : list content_item)
  | PurgeObject (content : list content_item).

(** The part of a configuration the tracking code looks at, and the rest
    of it as an opaque payload. *)
Record config_value := ConfigValue {
  purge : purge_option;
  payload : string
}.

(** A resolved configuration object.  [oid] is the identity of the
    JavaScript object: [resolveConfig] allocates a new one on every call,
    and [===] on objects compares identities. *)
Record config := Config {
  oid : nat;
  value : config_value
}.

(** What the user hands to [resolveConfig]: a module's exports or an
    inline object; a string when the plugin was given a file name. *)
Inductive user_config :=
  | UserString (s : string)
  | UserObject (v : config_value).

(** The plugin argument: [Plain u] is a value without a [config]
    property, [WithConfig c] is an object whose [config] property is [c]. *)
Inductive config_or_path :=
  | Plain (u : user_config)
  | WithConfig (c : user_config).

Global Instance content_item_eq_dec : EqDecision content_item.
Proof. solve_decision. Defined.
Global Instance purge_option_eq_dec : EqDecision purge_option.
Proof. solve_decision. Defined.
Global Instance config_value_eq_dec : EqDecision config_value.
Proof. solve_decision. Defined.
Global Instance config_eq_dec : EqDecision config.
Proof. solve_decision. Defined.

(** An element of [context.changedContent]. *)
Record changed := Changed {
  content : string;
  extension : option string
}.

(** A module found by [getModuleDependencies]. *)
Record module_dep := ModuleDep {
  file : string;
  requires : list string
}.

(** A PostCSS message and the part of the PostCSS result that is read. *)
Record message := Message {
  type : string;
  msg_file : jsval
}.

Record postcss_result := PostcssResult {
  opts_from : jsval;
  messages : list message
}.

(** ** The filesystem and the effects on it *)

Record fnode := FNode {
  mtimeMs : Z;
  data : string
}.

Inductive event :=
  | EvStat (p : string)
  | EvReadFile (p : string)
  | EvLoadModule (p : string)
  | EvUtimes (p : string)
  | EvOpenW (p : string)
  | EvWatch (ctx : nat) (paths : list string)
  | EvWatcherClose (ctx : nat)
  | EvRegister (p : jsval) (kind : option string).

Global Instance event_eq_dec : EqDecision event.
Proof. solve_decision. Defined.

Inductive error :=
  | ENOENT (p : string)
  | TypeError
  | ModuleNotFound (p : string).

(** ** The functions imported from elsewhere

    Node's [path] module, the npm packages and the sibling modules of the
    repository that are called but not defined in this source unit.  They
    are parameters of the development; those that look at the disk take
    the current file table. *)
Class Externals := {
  (** [util/resolveConfigPath] *)
  resolveConfigPath : gmap string fnode → config_or_path → option string;
  (** [lib/getModuleDependencies]: the module and the files it imports *)
  getModuleDependencies : gmap string fnode → string → list module_dep;
  (** what running the module at a path exports, [None] if it throws *)
  load_module : gmap string fnode → string → option user_config;
  (** [resolveConfig], up to the identity of the object it returns *)
  resolveConfig : user_config → config_value;
  (** [util/hashConfig] *)
  hash : config_value → string;
  (** [fast-glob]'s [sync] *)
  fastGlob_sync : gmap string fnode → list string → list string;
  isGlob : string → bool;
  globParent : string → string;
  normalizePath : string → string;
  path_resolve : list string → string;
  path_dirname : string → string;
  path_extname : string → string;
  path_join : list string → string;
  process_cwd : string;
  process_pid : string;
  (** [os.homedir() || os.tmpdir()] *)
  os_dir : string;
  (** byte [i] of [crypto.randomBytes], by the number of earlier calls *)
  crypto_randomBytes : nat → nat → nat;
  (** [sharedState.env] *)
  env_DEBUG : bool;
  env_ROLLUP_WATCH : option string;
  env_TAILWIND_MODE : option string;
  env_NODE_ENV : option string;
  env_TAILWIND_TOUCH_DIR : option string
}.

(** ** [quick-lru]

    The configuration caches are [new LRU({ maxSize: 100 })].  The package
    keeps two generations: when the young one has received [maxSize] new
    keys it becomes the old one, and a hit in the old generation moves the
    entry back to the young one. *)
Record lru (V : Type) := LRU {
  cache : gmap string V;
  oldCache : gmap string V;
  lru_size : nat
}.
Arguments LRU {V}.
Arguments cache {V}.
Arguments oldCache {V}.
Arguments lru_size {V}.

Definition maxSize : nat := 100.

Definition lru_new {V} : lru V := LRU ∅ ∅ 0%nat.

Definition lru__set {V} (key : string) (v : V) (c : lru V) : lru V :=
  if bool_decide (maxSize ≤ S (lru_size c))%nat
  then LRU ∅ (<[key:=v]> (cache c)) 0%nat
  else LRU (<[key:=v]> (cache c)) (oldCache c) (S (lru_size c)).

Definition lru_get {V} (key : string) (c : lru V) : option V * lru V :=
  match cache c !! key with
  | Some v => (Some v, c)
  | None =>
      match oldCache c !! key with
      | Some v =>
          (Some v,
           lru__set key v (LRU (cache c) (delete key (oldCache c)) (lru_size c)))
      | None => (None, c)
      end
  end.

Definition lru_set {V} (key : string) (v : V) (c : lru V) : lru V :=
  match cache c !! key with
  | Some _ => LRU (<[key:=v]> (cache c)) (oldCache c) (lru_size c)
  | None => lru__set key v c
  end.

(** ** The world *)

(** Node's own state: the disk, the clock, the module cache of [require],
    the allocator of object identities, the number of random draws made,
    and the trace of effects, most recent first. *)
Record node_state := NodeState {
  files : gmap string fnode;
  clock : Z;
  require_cache : gmap string user_config;
  next_oid : nat;
  rand_calls : nat;
  trace : list event
}.

(** The one kind of callback pushed on [context.disposables]: close the
    watcher of the context being dropped. *)
Inductive disposable :=
  | CloseWatcher.

(** The two facets of a context this code touches, and the configuration
    it was made for. *)
Record context_obj := Context {
  tailwindConfig : option config;
  changedContent : list changed;
  disposables : list disposable
}.

(** What a context is cached under. *)
Definition identity : Type :=
  jsval * gset string * option string * gset jsval.

(** State of [setupContextUtils]: the context objects by identity of the
    object, the context cache, and the per-context [fileModifiedMap]. *)
Record utils_state := UtilsState {
  contexts : gmap nat context_obj;
  contextCache : list (identity * nat);
  fileModifiedMapCache : gmap nat (gmap string Z)
}.

(** Module-level state of the build-mode file. *)
Record tracking_state := TrackingState {
  t_configPathCache :
    lru (config * string * list string * gmap string Z);
  t_candidateFilesCache : gmap nat (list string)
}.

(** A chokidar watcher together with what its three handlers close over.
    The handlers share the context's set of configuration dependencies
    with later requests, so the watcher holds a reference to that set (the
    context that owns it); the set itself stays in
    [configDependenciesCache] and is looked up when an event arrives. *)
Record watcher := Watcher {
  w_context : nat;
  w_configPath : option string;
  w_configDependencies : nat;
  w_touchFile : string;
  w_paths : list string;
  w_closed : bool
}.

(** The continuation given to [Promise.resolve(...).then] in
    [rebootWatcher]; it runs after the current request. *)
Record pending_watch := PendingWatch {
  p_context : nat;
  p_configPath : option string;
  p_configDependencies : nat;
  p_touchFile : string;
  p_candidateFiles : list string
}.

(** Module-level state of the watch-mode file. *)
Record watching_state := WatchingState {
  watchers : gmap nat watcher;
  touchFiles : gmap nat string;
  configPaths : gmap nat (option string);
  w_configPathCache : lru (config * Z * string);
  configDependenciesCache : gmap nat (list string);
  w_candidateFilesCache : gmap nat (list string);
  scannedContentCache : gset nat;
  pending : list pending_watch
}.

Record world := World {
  node : node_state;
  utils : utils_state;
  tracking : tracking_state;
  watching : watching_state
}.

Definition on_node (f : node_state → node_state) (w : world) : world :=
  World (f (node w)) (utils w) (tracking w) (watching w).
Definition on_utils (f : utils_state → utils_state) (w : world) : world :=
  World (node w) (f (utils w)) (tracking w) (watching w).
Definition on_tracking (f : tracking_state → tracking_state) (w : world)
  : world :=
  World (node w) (utils w) (f (tracking w)) (watching w).
Definition on_watching (f : watching_state → watching_state) (w : world)
  : world :=
  World (node w) (utils w) (tracking w) (f (watching w)).

Definition set_files (fs : gmap string fnode) (n : node_state) :=
  NodeState fs (clock n) (require_cache n) (next_oid n) (rand_calls n)
    (trace n).
Definition set_require_cache (c : gmap string user_config)
  (n : node_state) :=
  NodeState (files n) (clock n) c (next_oid n) (rand_calls n) (trace n).
Definition set_next_oid (i : nat) (n : node_state) :=
  NodeState (files n) (clock n) (require_cache n) i (rand_calls n)
    (trace n).
Definition set_rand_calls (i : nat) (n : node_state) :=
  NodeState (files n) (clock n) (require_cache n) (next_oid n) i (trace n).
Definition emit (e : event) (n : node_state) :=
  NodeState (files n) (clock n) (require_cache n) (next_oid n)
    (rand_calls n) (e :: trace n).

Definition set_contexts (c : gmap nat context_obj) (u : utils_state) :=
  UtilsState c (contextCache u) (fileModifiedMapCache u).
Definition set_contextCache (c : list (identity * nat)) (u : utils_state) :=
  UtilsState (contexts u) c (fileModifiedMapCache u).
Definition set_fileModifiedMapCache (c : gmap nat (gmap string Z))
  (u : utils_state) :=
  UtilsState (contexts u) (contextCache u) c.

Definition set_t_configPathCache
  (c : lru (config * string * list string * gmap string Z))
  (t : tracking_state) :=
  TrackingState c (t_candidateFilesCache t).
Definition set_t_candidateFilesCache (c : gmap nat (list string))
  (t : tracking_state) :=
  TrackingState (t_configPathCache t) c.

Definition set_watchers (x : gmap nat watcher) (s : watching_state) :=
  WatchingState x (touchFiles s) (configPaths s) (w_configPathCache s)
    (configDependenciesCache s) (w_candidateFilesCache s)
    (scannedContentCache s) (pending s).
Definition set_touchFiles (x : gmap nat string) (s : watching_state) :=
  WatchingState (watchers s) x (configPaths s) (w_configPathCache s)
    (configDependenciesCache s) (w_candidateFilesCache s)
    (scannedContentCache s) (pending s).
Definition set_configPaths (x : gmap nat (option string))
  (s : watching_state) :=
  WatchingState (watchers s) (touchFiles s) x (w_configPathCache s)
    (configDependenciesCache s) (w_candidateFilesCache s)
    (scannedContentCache s) (pending s).
Definition set_w_configPathCache (x : lru (config * Z * string))
  (s : watching_state) :=
  WatchingState (watchers s) (touchFiles s) (configPaths s) x
    (configDependenciesCache s) (w_candidateFilesCache s)
    (scannedContentCache s) (pending s).
Definition set_configDependenciesCache (x : gmap nat (list string))
  (s : watching_state) :=
  WatchingState (watchers s) (touchFiles s) (configPaths s)
    (w_configPathCache s) x (w_candidateFilesCache s)
    (scannedContentCache s) (pending s).
Definition set_w_candidateFilesCache (x : gmap nat (list string))
  (s : watching_state) :=
  WatchingState (watchers s) (touchFiles s) (configPaths s)
    (w_configPathCache s) (configDependenciesCache s) x
    (scannedContentCache s) (pending s).
Definition set_scannedContentCache (x : gset nat) (s : watching_state) :=
  WatchingState (watchers s) (touchFiles s) (configPaths s)
    (w_configPathCache s) (configDependenciesCache s)
    (w_candidateFilesCache s) x (pending s).
Definition set_pending (x : list pending_watch) (s : watching_state) :=
  WatchingState (watchers s) (touchFiles s) (configPaths s)
    (w_configPathCache s) (configDependenciesCache s)
    (w_candidateFilesCache s) (scannedContentCache s) x.

(** ** The monad: state and exceptions *)

Inductive outcome (A : Type) :=
  | Ok (a : A) (w : world)
  | Throw (e : error) (w : world).
Arguments Ok {A}.
Arguments Throw {A}.

Definition M (A : Type) : Type := world → outcome A.

Global Instance M_ret : MRet M := λ A a w, Ok a w.
Global Instance M_bind : MBind M := λ A B k m w,
  match m w with
  | Ok a w' => k a w'
  | Throw e w' => Throw e w'
  end.

Definition get_world : M world := λ w, Ok w w.
Definition modify (f : world → world) : M unit := λ w, Ok tt (f w).
Definition throw {A} (e : error) : M A := λ w, Throw e w.

(** [try { m } catch (err) { h }] *)
Definition try_catch {A} (m : M A) (h : error → M A) : M A := λ w,
  match m w with
  | Ok a w' => Ok a w'
  | Throw e w' => h e w'
  end.

(** [for (let x of l) body(x)] *)
Fixpoint for_of {A} (l : list A) (body : A → M unit) : M unit :=
  match l with
  | [] => mret tt
  | x :: l' => _ ← body x; for_of l' body
  end.

(** A JavaScript [Set] that is iterated: its elements in insertion
    order. *)
Definition set_add {A} `{EqDecision A} (x : A) (s : list A) : list A :=
  if decide (x ∈ s) then s else s ++ [x].

Definition set_of_list {A} `{EqDecision A} (l : list A) : list A :=
  foldl (λ s x, set_add x s) [] l.

(** A loop that carries local variables [s] through its iterations. *)
Fixpoint fold_of {A S} (l : list A) (s : S) (body : S → A → M S) : M S :=
  match l with
  | [] => mret s
  | x :: l' => s' ← body s x; fold_of l' s' body
  end.

(** Reading a value that must be an object: [undefined.purge] and
    iterating [undefined] are [TypeError]s. *)
Definition defined {A} (o : option A) : M A :=
  match o with
  | Some a => mret a
  | None => throw TypeError
  end.

(** [s.slice(1)] *)
Definition slice1 (s : string) : string :=
  match s with
  | EmptyString => EmptyString
  | String _ r => r
  end.

(** ** Node primitives and the parts shared by the two modes *)
Section Shared.
Context `{Externals}.

(** [fs.statSync(p).mtimeMs] *)
Definition fs_statSync (p : string) : M Z := λ w,
  match files (node w) !! p with
  | Some f => Ok (mtimeMs f) (on_node (emit (EvStat p)) w)
  | None => Throw (ENOENT p) w
  end.

(** [fs.readFileSync(p, 'utf8')] *)
Definition fs_readFileSync (p : string) : M string := λ w,
  match files (node w) !! p with
  | Some f => Ok (data f) (on_node (emit (EvReadFile p)) w)
  | None => Throw (ENOENT p) w
  end.

(** [fs.utimesSync(p, now, now)] with [now = new Date()] *)
Definition fs_utimesSync (p : string) : M unit := λ w,
  match files (node w) !! p with
  | Some f =>
      Ok tt (on_node (λ n,
        emit (EvUtimes p)
          (set_files (<[p := FNode (clock n) (data f)]> (files n)) n)) w)
  | None => Throw (ENOENT p) w
  end.

(** [fs.closeSync(fs.openSync(p, 'w'))]: creates the file, or empties
    it. *)
Definition fs_openSync_w (p : string) : M unit :=
  modify (on_node (λ n,
    emit (EvOpenW p)
      (set_files (<[p := FNode (clock n) EmptyString]> (files n)) n))).

(** [require(p)]: served from [require.cache] when the module is there,
    otherwise the module is run and cached.  Only the cache slot of [p]
    itself is followed, not those of the modules [p] requires. *)
Definition require (p : string) : M user_config := λ w,
  match require_cache (node w) !! p with
  | Some u => Ok u w
  | None =>
      match load_module (files (node w)) p with
      | Some u =>
          Ok u (on_node (λ n,
            emit (EvLoadModule p)
              (set_require_cache (<[p := u]> (require_cache n)) n)) w)
      | None => Throw (ModuleNotFound p) w
      end
  end.

(** [delete require.cache[p]] *)
Definition uncache (p : string) : M unit :=
  modify (on_node (λ n,
    set_require_cache (delete p (require_cache n)) n)).

(** [require.resolve(p)] of an absolute file name: the name itself when
    the file is there. *)
Definition require_resolve (p : string) : M string := λ w,
  match files (node w) !! p with
  | Some _ => Ok p w
  | None => Throw (ModuleNotFound p) w
  end.

(** [resolveConfig(u)]: a new object every time. *)
Definition resolveConfig_new (u : user_config) : M config := λ w,
  Ok (Config (next_oid (node w)) (resolveConfig u))
     (on_node (λ n, set_next_oid (S (next_oid n)) n) w).

(** The host's callback; its calls are recorded in the trace. *)
Definition registerDependency (p : jsval) (kind : option string) : M unit :=
  modify (on_node (emit (EvRegister p kind))).

Definition read_context (context : nat) : M context_obj :=
  w ← get_world; defined (contexts (utils w) !! context).

(** [context.changedContent.push(c)] *)
Definition push_changedContent (context : nat) (c : changed) : M unit :=
  modify (on_utils (λ u,
    set_contexts
      (alter (λ x, Context (tailwindConfig x) (changedContent x ++ [c])
                     (disposables x)) context (contexts u)) u)).

(** [context.disposables.push(d)] *)
Definition push_disposable (context : nat) (d : disposable) : M unit :=
  modify (on_utils (λ u,
    set_contexts
      (alter (λ x, Context (tailwindConfig x) (changedContent x)
                     (disposables x ++ [d])) context (contexts u)) u)).

(** [Array.isArray(c.purge) ? c.purge : c.purge.content] *)
Definition purge_content (c : config_value) : list content_item :=
  match purge c with
  | PurgeArray items => items
  | PurgeObject items => items
  end.

(** [.filter((item) => typeof item.raw === 'string')
     .map(({ raw, extension }) => ({ content: raw, extension }))] *)
Definition raw_content (items : list content_item) : list changed :=
  omap (λ item,
    match item with
    | ItemRaw raw extension => Some (Changed raw extension)
    | ItemString _ | ItemObject => None
    end) items.

(** The set of context dependencies, written the same way in both entry
    points: the configuration dependencies and, when the source has
    directives, the source file and the files of its dependency
    messages. *)
Definition contextDependencies (configDependencies : list jsval)
    (tailwindDirectives : gset string) (result : postcss_result)
  : gset jsval :=
  let deps : gset jsval := list_to_set configDependencies in
  if bool_decide (0 < size tailwindDirectives)%nat then
    foldl (λ s message,
             if bool_decide (type message = "dependency")
             then s ∪ {[msg_file message]} else s)
          (deps ∪ {[opts_from result]}) (messages result)
  else deps.

(** [watcher.close()] *)
Definition watcher_close (context : nat) : M unit :=
  modify (λ w,
    on_node (emit (EvWatcherClose context))
      (on_watching (λ s,
         set_watchers
           (alter (λ x, Watcher (w_context x) (w_configPath x)
                          (w_configDependencies x) (w_touchFile x)
                          (w_paths x) true)
              context (watchers s)) s) w)).

(** The disposable pushed by the watch-mode entry point:
    [(oldContext) => { let watcher = getWatcher(oldContext);
                       if (watcher !== null) watcher.close() }] *)
Definition run_disposable (oldContext : nat) (d : disposable) : M unit :=
  match d with
  | CloseWatcher =>
      w ← get_world;
      match watchers (watching w) !! oldContext with
      | Some _ => watcher_close oldContext
      | None => mret tt
      end
  end.

Definition same_source (source : jsval) (e : identity * nat) : bool :=
  bool_decide (e.1.1.1.1 = source).

Definition cache_lookup (id : identity) (c : list (identity * nat))
  : option nat :=
  (λ x, x.2.2) <$> list_find (λ e, e.1 = id) c.

(** Modelled from the spec: [getContext] of [setupContextUtils], which
    is imported but not part of this source unit.  A context is cached
    under the identity made of the source, its directive set, the
    configuration hash and the context dependencies; a request with a
    cached identity gets the cached context and [isNewContext = false];
    otherwise the disposables of the source's old context are run and a
    new context is created. *)
Definition getContext (tailwindDirectives : gset string)
    (result : postcss_result) (tailwindConfig : option config)
    (userConfigPath : option string) (tailwindConfigHash : option string)
    (contextDependencies : gset jsval) : M (nat * bool) :=
  let id : identity :=
    (opts_from result, tailwindDirectives, tailwindConfigHash,
     contextDependencies) in
  w ← get_world;
  match cache_lookup id (contextCache (utils w)) with
  | Some context => mret (context, false)
  | None =>
      let old := filter (λ e, same_source (opts_from result) e)
                   (contextCache (utils w)) in
      _ ← for_of old (λ e,
            c ← read_context e.2;
            for_of (disposables c) (run_disposable e.2));
      w ← get_world;
      let context := next_oid (node w) in
      _ ← modify (λ w,
            on_node (set_next_oid (S context))
              (on_utils (λ u,
                 set_contexts
                   (<[context := Context tailwindConfig [] []]>
                      (contexts u))
                   (set_contextCache
                      ((id, context) ::
                       filter (λ e, negb (same_source (opts_from result) e))
                         (contextCache u)) u)) w));
      mret (context, true)
  end.

(** Modelled from the spec: [getFileModifiedMap] of
    [setupContextUtils].  The map is created once per context and lives
    as long as the context; the result is a reference to it, here the
    context that owns it. *)
Definition getFileModifiedMap (context : nat) : M nat :=
  w ← get_world;
  match fileModifiedMapCache (utils w) !! context with
  | Some _ => mret context
  | None =>
      _ ← modify (on_utils (λ u,
            set_fileModifiedMapCache
              (<[context := ∅]> (fileModifiedMapCache u)) u));
      mret context
  end.

(** The [Map] behind a reference. *)
Definition modified_map (ref : nat) (w : world) : gmap string Z :=
  default ∅ (fileModifiedMapCache (utils w) !! ref).

(** [fileModifiedMap.set(file, modified)] *)
Definition map_set (ref : nat) (file : string) (modified : Z) : M unit :=
  modify (λ w, on_utils (λ u,
    set_fileModifiedMapCache
      (<[ref := <[file := modified]> (modified_map ref w)]>
         (fileModifiedMapCache u)) u) w).
End Shared.

(** ** Build mode: [setupTrackingContext.js] *)
Module Tracking.
Section Tracking.
Context `{Externals}.

(** [configPathCache.get(key)] *)
Definition configPathCache_get (key : string)
  : M (option (config * string * list string * gmap string Z)) := λ w,
  let r := lru_get key (t_configPathCache (tracking w)) in
  Ok r.1 (on_tracking (set_t_configPathCache r.2) w).

(** [configPathCache.set(key, v)] *)
Definition configPathCache_set (key : string)
    (v : config * string * list string * gmap string Z) : M unit :=
  modify (on_tracking (λ t,
    set_t_configPathCache (lru_set key v (t_configPathCache t)) t)).

Definition getCandidateFiles (context : nat)
    (userConfigPath : option string) (tailwindConfig : option config)
  : M (list string) :=
  w ← get_world;
  match t_candidateFilesCache (tracking w) !! context with
  | Some candidateFiles => mret candidateFiles
  | None =>
      cfg ← defined tailwindConfig;
      let purgeContent := purge_content (value cfg) in
      let basePath :=
        match userConfigPath with
        | None => process_cwd
        | Some p => path_dirname p
        end in
      let candidateFiles :=
        omap (λ item,
          match item with
          | ItemString purgePath =>
              Some (normalizePath (path_resolve [basePath; purgePath]))
          | ItemRaw _ _ | ItemObject => None
          end) purgeContent in
      _ ← modify (on_tracking (λ t,
            set_t_candidateFilesCache
              (<[context := candidateFiles]> (t_candidateFilesCache t)) t));
      mret candidateFiles
  end.

(** [!prevModified || !prevModified.has(file)
     || time > prevModified.get(file)] *)
Definition newer_than (prevModified : option (gmap string Z))
    (file : string) (time : Z) : bool :=
  match prevModified with
  | None => true
  | Some m =>
      match m !! file with
      | None => true
      | Some t => bool_decide (t < time)
      end
  end.

(** Get the config object based on a path.  The result is
    [[config, userConfigPath, hash, dependencies]]; a component is
    [None] where the JavaScript yields [undefined] or [null]. *)
Definition getTailwindConfig (configOrPath : config_or_path)
  : M (option config * option string * option string
       * option (list string)) :=
  w ← get_world;
  match resolveConfigPath (files (node w)) configOrPath with
  | Some userConfigPath =>
      prev ← configPathCache_get userConfigPath;
      let prevConfig := (λ e, e.1.1.1) <$> prev in
      let prevConfigHash := (λ e, e.1.1.2) <$> prev in
      let prevDeps := (λ e, e.1.2) <$> prev in
      let prevModified := (λ e, e.2) <$> prev in
      w ← get_world;
      let newDeps :=
        file <$> getModuleDependencies (files (node w)) userConfigPath in
      r ← fold_of newDeps (false, ∅) (λ s file,
            time ← fs_statSync file;
            mret (s.1 || newer_than prevModified file time,
                  <[file := time]> s.2));
      let modified := r.1 in
      let newModified : gmap string Z := r.2 in
      if negb modified then
        (* It hasn't changed (based on timestamps) *)
        mret (prevConfig, Some userConfigPath, prevConfigHash, prevDeps)
      else
        (* It has changed (based on timestamps), or first run *)
        _ ← for_of newDeps uncache;
        exports ← require userConfigPath;
        newConfig ← resolveConfig_new exports;
        let newHash := hash (value newConfig) in
        _ ← configPathCache_set userConfigPath
              (newConfig, newHash, newDeps, newModified);
        mret (Some newConfig, Some userConfigPath, Some newHash,
              Some newDeps)
  | None =>
      (* It's a plain object, not a path *)
      newConfig ← resolveConfig_new
        (match configOrPath with
         | Plain u => u
         | WithConfig c => c
         end);
      mret (Some newConfig, None, Some (hash (value newConfig)), Some [])
  end.

(** The files among [fastGlob.sync(candidateFiles)] that are newer than
    the map says; the map is brought up to date for them.  The result
    is a [Set], kept in insertion order.  The [console.time] calls under
    [env.DEBUG] are left out. *)
Definition resolveChangedFiles (candidateFiles : list string)
    (fileModifiedMap : nat) : M (list string) :=
  w ← get_world;
  let files := fastGlob_sync (files (node w)) candidateFiles in
  fold_of files [] (λ changedFiles file,
    w ← get_world;
    let prevModified :=
      match modified_map fileModifiedMap w !! file with
      | Some t => Num t
      | None => NegInfinity
      end in
    modified ← fs_statSync file;
    if num_gt (Num modified) prevModified then
      _ ← map_set fileModifiedMap file modified;
      mret (set_add file changedFiles)
    else mret changedFiles).

Definition resolvedChangedContent (context : nat)
    (candidateFiles : list string) (fileModifiedMap : nat)
  : M (list changed) :=
  c ← read_context context;
  cfg ← defined (tailwindConfig c);
  let changedContent := raw_content (purge_content (value cfg)) in
  changedFiles ← resolveChangedFiles candidateFiles fileModifiedMap;
  fold_of changedFiles changedContent (λ changedContent changedFile,
    content ← fs_readFileSync changedFile;
    let extension := slice1 (path_extname changedFile) in
    mret (changedContent ++ [Changed content (Some extension)])).

(** The function returned by
    [setupTrackingContext(configOrPath, tailwindDirectives,
    registerDependency)], applied to a PostCSS result.  The [root]
    argument is only handed on to [getContext] and is left out. *)
Definition setupTrackingContext (configOrPath : config_or_path)
    (tailwindDirectives : gset string) (result : postcss_result)
  : M nat :=
  r ← getTailwindConfig configOrPath;
  let tailwindConfig := r.1.1.1 in
  let userConfigPath := r.1.1.2 in
  let tailwindConfigHash := r.1.2 in
  let configDependencies := r.2 in
  let contextDependencies :=
    contextDependencies (JStr <$> default [] configDependencies)
      tailwindDirectives result in
  c ← getContext tailwindDirectives result tailwindConfig userConfigPath
        tailwindConfigHash contextDependencies;
  let context := c.1 in
  candidateFiles ← getCandidateFiles context userConfigPath tailwindConfig;
  _ ← (if bool_decide (0 < size tailwindDirectives)%nat then
         fileModifiedMap ← getFileModifiedMap context;
         (* Add template paths as postcss dependencies. *)
         _ ← for_of candidateFiles (λ maybeGlob,
               if isGlob maybeGlob then
                 registerDependency
                   (JStr (path_resolve [globParent maybeGlob]))
                   (Some (if bool_decide (env_ROLLUP_WATCH = Some "true")
                          then "dependency" else "dir-dependency"))
               else
                 registerDependency (JStr (path_resolve [maybeGlob])) None);
         changed ← resolvedChangedContent context candidateFiles
                     fileModifiedMap;
         for_of changed (push_changedContent context)
       else mret tt);
  deps ← defined configDependencies;
  _ ← for_of deps (λ file, registerDependency (JStr file) None);
  mret context.
End Tracking.
End Tracking.

(** ** Watch mode: [setupWatchingContext.js]

    The module's start-up code, which empties or creates the touch
    directory, is not part of the embedding. *)
Module Watching.
Section Watching.
Context `{Externals}.

(** [env.TAILWIND_TOUCH_DIR ||
     path.join(os.homedir() || os.tmpdir(), '.tailwindcss', 'touch')] *)
Definition touchDir : string :=
  match env_TAILWIND_TOUCH_DIR with
  | Some d =>
      if bool_decide (d = "") then path_join [os_dir; ".tailwindcss"; "touch"]
      else d
  | None => path_join [os_dir; ".tailwindcss"; "touch"]
  end.

(** This is used to trigger rebuilds.  The argument is [None] when the
    caller passes [null]; both [fs] calls then throw a [TypeError]. *)
Definition touch (filename : option string) : M unit :=
  try_catch
    (p ← defined filename; fs_utimesSync p)
    (λ err, p ← defined filename; fs_openSync_w p).

Definition getWatcher (context : nat) : M (option watcher) :=
  w ← get_world; mret (watchers (watching w) !! context).

Definition setWatcher (context : nat) (watcher : watcher) : M unit :=
  modify (on_watching (λ s,
    set_watchers (<[context := watcher]> (watchers s)) s)).

Definition getTouchFile (context : nat) : M (option string) :=
  w ← get_world; mret (touchFiles (watching w) !! context).

Definition setTouchFile (context : nat) (touchFile : string) : M unit :=
  modify (on_watching (λ s,
    set_touchFiles (<[context := touchFile]> (touchFiles s)) s)).

Definition getConfigPath (context : nat) (configOrPath : config_or_path)
  : M (option string) :=
  w ← get_world;
  match configPaths (watching w) !! context with
  | Some p => mret p
  | None =>
      let p := resolveConfigPath (files (node w)) configOrPath in
      _ ← modify (on_watching (λ s,
            set_configPaths (<[context := p]> (configPaths s)) s));
      mret p
  end.

Definition chars : string :=
  "0123456789ABCDEFGHIJKLMNOPQRSTUVWXYZabcdefghijklmnopqrstuvwxyz".

Definition randomCharsLength : nat := 12.

(** The random suffix is [chars[bytes[i] % chars.length]] for the twelve
    bytes of one draw; the fallback to [pseudoRandomBytes] is the same
    draw here. *)
Definition generateTouchFileName : M string := λ w,
  let calls := rand_calls (node w) in
  let randomChars :=
    String.string_of_list_ascii
      (omap (λ i, String.get
                    (Nat.modulo (crypto_randomBytes calls i)
                       (String.length chars))
                    chars)
         (seq 0 randomCharsLength)) in
  Ok (path_join [touchDir; "touch-" +:+ process_pid +:+ "-" +:+ randomChars])
     (on_node (set_rand_calls (S calls)) w).

(** The members of the [Set] behind a reference, in insertion order. *)
Definition config_dependencies (ref : nat) (w : world) : list string :=
  default [] (configDependenciesCache (watching w) !! ref).

(** [configDependencies.add(file)] *)
Definition config_dependencies_add (ref : nat) (file : string) : M unit :=
  modify (λ w, on_watching (λ s,
    set_configDependenciesCache
      (<[ref := set_add file (config_dependencies ref w)]>
         (configDependenciesCache s)) s) w).

Definition getConfigDependencies (context : nat) : M nat :=
  w ← get_world;
  match configDependenciesCache (watching w) !! context with
  | Some _ => mret context
  | None =>
      _ ← modify (on_watching (λ s,
            set_configDependenciesCache
              (<[context := []]> (configDependenciesCache s)) s));
      mret context
  end.

(** What [rebootWatcher] does before it returns: the touch file is made
    on first need, a previous watcher is asked to close, and the arming
    of the new watcher is left to the promise's continuation. *)
Definition rebootWatcher (context : nat) (configPath : option string)
    (configDependencies : nat) (candidateFiles : list string) : M unit :=
  found ← getTouchFile context;
  touchFile ← match found with
              | Some t => mret t
              | None =>
                  t ← generateTouchFileName;
                  _ ← setTouchFile context t;
                  _ ← touch (Some t);
                  mret t
              end;
  if bool_decide (env_TAILWIND_MODE = Some "build") then mret tt
  else if bool_decide (env_TAILWIND_MODE = Some "watch")
          || (bool_decide (env_TAILWIND_MODE = None)
              && bool_decide (env_NODE_ENV = Some "development"))
  then
    watcher ← getWatcher context;
    _ ← match watcher with
        | Some _ => watcher_close context
        | None => mret tt
        end;
    modify (on_watching (λ s,
      set_pending
        (pending s ++
         [PendingWatch context configPath configDependencies touchFile
            candidateFiles]) s))
  else mret tt.

(** The continuation: [chokidar.watch([...candidateFiles,
    ...configDependencies], { ignoreInitial: true })] and
    [setWatcher]; the [log.info] call is left out.  The three handlers
    are [on_add], [on_change] and [on_unlink] below. *)
Definition arm_watcher (p : pending_watch) : M unit :=
  w ← get_world;
  let paths :=
    p_candidateFiles p ++ config_dependencies (p_configDependencies p) w in
  _ ← modify (on_node (emit (EvWatch (p_context p) paths)));
  setWatcher (p_context p)
    (Watcher (p_context p) (p_configPath p) (p_configDependencies p)
       (p_touchFile p) paths false).

(** Running the continuations that are waiting. *)
Definition run_pending : M unit :=
  w ← get_world;
  _ ← modify (on_watching (set_pending []));
  for_of (pending (watching w)) arm_watcher.

(** [watcher.on('add', (file) => ...)] *)
Definition on_add (watcher : watcher) (file : string) : M unit :=
  let changedFile := path_resolve ["."; file] in
  content ← fs_readFileSync changedFile;
  let extension := slice1 (path_extname changedFile) in
  _ ← push_changedContent (w_context watcher)
        (Changed content (Some extension));
  touch (Some (w_touchFile watcher)).

(** [watcher.on('change', (file) => ...)] *)
Definition on_change (watcher : watcher) (file : string) : M unit :=
  w ← get_world;
  let configDependencies :=
    config_dependencies (w_configDependencies watcher) w in
  if bool_decide (file ∈ configDependencies) then
    _ ← for_of configDependencies (λ dependency,
          p ← require_resolve dependency; uncache p);
    touch (w_configPath watcher)
  else
    let changedFile := path_resolve ["."; file] in
    content ← fs_readFileSync changedFile;
    let extension := slice1 (path_extname changedFile) in
    _ ← push_changedContent (w_context watcher)
          (Changed content (Some extension));
    touch (Some (w_touchFile watcher)).

(** [watcher.on('unlink', (file) => ...)] *)
Definition on_unlink (watcher : watcher) (file : string) : M unit :=
  w ← get_world;
  let configDependencies :=
    config_dependencies (w_configDependencies watcher) w in
  if bool_decide (file ∈ configDependencies) then
    _ ← for_of configDependencies (λ dependency,
          p ← require_resolve dependency; uncache p);
    touch (w_configPath watcher)
  else mret tt.

(** A filesystem event as chokidar reports it. *)
Inductive fs_event :=
  | Add (file : string)
  | Change (file : string)
  | Unlink (file : string).

(** Delivery of an event to the watcher of a context: an armed watcher
    runs the handler of the event, a closed or absent one does not. *)
Definition deliver (context : nat) (ev : fs_event) : M unit :=
  watcher ← getWatcher context;
  match watcher with
  | Some watcher =>
      if w_closed watcher then mret tt
      else match ev with
           | Add file => on_add watcher file
           | Change file => on_change watcher file
           | Unlink file => on_unlink watcher file
           end
  | None => mret tt
  end.

(** [configPathCache.get(key)] *)
Definition configPathCache_get (key : string)
  : M (option (config * Z * string)) := λ w,
  let r := lru_get key (w_configPathCache (watching w)) in
  Ok r.1 (on_watching (set_w_configPathCache r.2) w).

(** [configPathCache.set(key, v)] *)
Definition configPathCache_set (key : string) (v : config * Z * string)
  : M unit :=
  modify (on_watching (λ s,
    set_w_configPathCache (lru_set key v (w_configPathCache s)) s)).

Definition getCandidateFiles (context : nat)
    (userConfigPath : option string) (tailwindConfig : option config)
  : M (list string) :=
  w ← get_world;
  match w_candidateFilesCache (watching w) !! context with
  | Some candidateFiles => mret candidateFiles
  | None =>
      cfg ← defined tailwindConfig;
      let purgeContent := purge_content (value cfg) in
      let basePath :=
        match userConfigPath with
        | None => process_cwd
        | Some p => path_dirname p
        end in
      let candidateFiles :=
        omap (λ item,
          match item with
          | ItemString purgePath =>
              Some (normalizePath (path_resolve [basePath; purgePath]))
          | ItemRaw _ _ | ItemObject => None
          end) purgeContent in
      _ ← modify (on_watching (λ s,
            set_w_candidateFilesCache
              (<[context := candidateFiles]> (w_candidateFilesCache s)) s));
      mret candidateFiles
  end.

(** Get the config object based on a path.  Only the configuration file
    itself is looked at; the watcher takes care of its dependencies. *)
Definition getTailwindConfig (configOrPath : config_or_path)
  : M (option config * option string * option string * list jsval) :=
  w ← get_world;
  let userConfigPath := resolveConfigPath (files (node w)) configOrPath in
  match userConfigPath with
  | Some path =>
      prev ← configPathCache_get path;
      let prevConfig := (λ e, e.1.1) <$> prev in
      let prevModified :=
        match prev with
        | Some e => Num e.1.2
        | None => NegInfinity
        end in
      let prevConfigHash := (λ e, e.2) <$> prev in
      modified ← fs_statSync path;
      if num_le (Num modified) prevModified then
        (* It hasn't changed (based on timestamp) *)
        mret (prevConfig, userConfigPath, prevConfigHash,
              [path_val userConfigPath])
      else
        (* It has changed (based on timestamp), or first run *)
        _ ← uncache path;
        exports ← require path;
        newConfig ← resolveConfig_new exports;
        let newHash := hash (value newConfig) in
        _ ← configPathCache_set path (newConfig, modified, newHash);
        mret (Some newConfig, userConfigPath, Some newHash,
              [path_val userConfigPath])
  | None =>
      (* It's a plain object, not a path *)
      newConfig ← resolveConfig_new
        (match configOrPath with
         | Plain u => u
         | WithConfig c => c
         end);
      mret (Some newConfig, None, Some (hash (value newConfig)),
            [path_val userConfigPath])
  end.

(** All the candidate files the first time a context asks, none
    afterwards: from then on the watcher reports the changes. *)
Definition resolveChangedFiles (context : nat)
    (candidateFiles : list string) : M (list string) :=
  w ← get_world;
  if bool_decide (context ∈ scannedContentCache (watching w)) then mret []
  else
    let files := fastGlob_sync (files (node w)) candidateFiles in
    let changedFiles := set_of_list files in
    _ ← modify (on_watching (λ s,
          set_scannedContentCache ({[context]} ∪ scannedContentCache s) s));
    mret changedFiles.

Definition resolvedChangedContent (context : nat)
    (candidateFiles : list string) : M (list changed) :=
  c ← read_context context;
  cfg ← defined (tailwindConfig c);
  let changedContent := raw_content (purge_content (value cfg)) in
  changedFiles ← resolveChangedFiles context candidateFiles;
  fold_of changedFiles changedContent (λ changedContent changedFile,
    content ← fs_readFileSync changedFile;
    let extension := slice1 (path_extname changedFile) in
    mret (changedContent ++ [Changed content (Some extension)])).

(** The function returned by
    [setupWatchingContext(configOrPath, tailwindDirectives,
    registerDependency)], applied to a PostCSS result. *)
Definition setupWatchingContext (configOrPath : config_or_path)
    (tailwindDirectives : gset string) (result : postcss_result)
  : M nat :=
  r ← getTailwindConfig configOrPath;
  let tailwindConfig := r.1.1.1 in
  let userConfigPath := r.1.1.2 in
  let tailwindConfigHash := r.1.2 in
  let configDependencies := r.2 in
  let contextDependencies :=
    contextDependencies configDependencies tailwindDirectives result in
  c ← getContext tailwindDirectives result tailwindConfig userConfigPath
        tailwindConfigHash contextDependencies;
  let context := c.1 in
  let isNewContext : bool := c.2 in
  candidateFiles ← getCandidateFiles context userConfigPath tailwindConfig;
  contextConfigDependencies ← getConfigDependencies context;
  _ ← for_of configDependencies (λ file, registerDependency file None);
  _ ← push_disposable context CloseWatcher;
  configPath ← getConfigPath context configOrPath;
  _ ← match configPath with
      | Some configPath =>
          w ← get_world;
          for_of (getModuleDependencies (files (node w)) configPath)
            (λ dependency,
               if bool_decide (file dependency = configPath) then mret tt
               else config_dependencies_add contextConfigDependencies
                      (file dependency))
      | None => mret tt
      end;
  _ ← (if isNewContext then
         rebootWatcher context configPath contextConfigDependencies
           candidateFiles
       else mret tt);
  (* Register our temp file as a dependency *)
  touchFile ← getTouchFile context;
  _ ← match touchFile with
      | Some t =>
          if bool_decide (t = "") then mret tt
          else registerDependency (JStr t) None
      | None => mret tt
      end;
  _ ← (if bool_decide (0 < size tailwindDirectives)%nat then
         changed ← resolvedChangedContent context candidateFiles;
         for_of changed (push_changedContent context)
       else mret tt);
  mret context.
End Watching.
End Watching.

(** ** A small concrete environment

    Paths are taken as absolute and literal: a pattern matches the file
    of that name.  The configuration at [/proj/tw.config.js] imports
    [/proj/colors.js]; running it yields a content list with one path and
    one inline entry. *)
Module Demo.
Definition demo_value (payload : string) : config_value :=
  ConfigValue
    (PurgeArray
       [ItemString "/proj/src/a.html";
        ItemRaw "<div class='p-4'>" (Some "html")])
    payload.

#[export] Instance demo_externals : Externals := {|
  resolveConfigPath _ c :=
    match c with
    | Plain (UserString s) | WithConfig (UserString s) => Some s
    | Plain (UserObject _) | WithConfig (UserObject _) => None
    end;
  getModuleDependencies _ p :=
    if bool_decide (p = "/proj/tw.config.js")
    then [ModuleDep p ["./colors"]; ModuleDep "/proj/colors.js" []]
    else [ModuleDep p []];
  load_module fs p := (λ f, UserObject (demo_value (data f))) <$> fs !! p;
  resolveConfig u :=
    match u with
    | UserObject v => v
    | UserString s => ConfigValue (PurgeArray []) s
    end;
  hash v := payload v;
  fastGlob_sync fs patterns :=
    filter (λ p, is_Some (fs !! p)) patterns;
  isGlob _ := false;
  globParent p := p;
  normalizePath p := p;
  path_resolve l := default "" (last l);
  path_dirname _ := "/proj";
  path_extname _ := ".html";
  path_join l := default "" (last l);
  process_cwd := "/proj";
  process_pid := "42";
  os_dir := "/home/u";
  crypto_randomBytes _ i := i;
  env_DEBUG := false;
  env_ROLLUP_WATCH := None;
  env_TAILWIND_MODE := Some "watch";
  env_NODE_ENV := None;
  env_TAILWIND_TOUCH_DIR := None
|}.

Definition demo_files : gmap string fnode :=
  {[ "/proj/tw.config.js" := FNode 10 "v1";
     "/proj/colors.js" := FNode 5 "colors";
     "/proj/src/a.html" := FNode 7 "<p class='m-1'>" ]}.

Definition empty_world (fs : gmap string fnode) (now : Z) : world :=
  World (NodeState fs now ∅ 0%nat 0%nat [])
        (UtilsState ∅ [] ∅)
        (TrackingState lru_new ∅)
        (WatchingState ∅ ∅ ∅ lru_new ∅ ∅ ∅ []).

Definition demo_world : world := empty_world demo_files 100.

Definition demo_result : postcss_result :=
  PostcssResult (JStr "/proj/app.css")
    [Message "dependency" (JStr "/proj/base.css")].

Definition demo_config : config_or_path :=
  Plain (UserString "/proj/tw.config.js").

Definition demo_directives : gset string := {[ "utilities" ]}.

(** The world a computation leaves behind. *)
Definition after {A} (m : M A) (w : world) : world :=
  match m w with
  | Ok _ w' => w'
  | Throw _ w' => w'
  end.

(** One watch-mode request on the demo world, followed by the arming
    of the watcher. *)
Definition watching_world : world :=
  after (_ ← Watching.setupWatchingContext demo_config demo_directives
               demo_result;
         Watching.run_pending) demo_world.

Definition demo_watcher : watcher :=
  Watcher 1 (Some "/proj/tw.config.js") 1 "touch-42-0123456789AB"
    ["/proj/src/a.html"; "/proj/colors.js"] false.

(** The demo world after one build-mode request, with
    [/proj/src/a.html] edited afterwards. *)
Definition edited_world : world :=
  on_node (λ n,
    set_files (<["/proj/src/a.html" := FNode 20 "<p class='m-2'>"]>
                 (files n)) n)
    (after (Tracking.setupTrackingContext demo_config demo_directives
              demo_result) demo_world).

(** A world with the configuration file rewritten. *)
Definition config_edited (w : world) : world :=
  on_node (λ n,
    set_files (<["/proj/tw.config.js" := FNode 30 "v2"]> (files n)) n) w.

Definition tracked_context : context_obj :=
  Context (Some (Config 0 (demo_value "v1")))
    [Changed "<div class='p-4'>" (Some "html");
     Changed "<p class='m-1'>" (Some "html")]
    [].

Definition demo_context : context_obj :=
  Context (Some (Config 0 (demo_value "v1")))
    [Changed "<div class='p-4'>" (Some "html");
     Changed "<p class='m-1'>" (Some "html")]
    [CloseWatcher].
End Demo.

(** ** Vocabulary of the statements *)

(** The file at [p] has been touched between [w] and [w']: it exists in
    [w'] with the time [w] had on its clock, which is later than any
    earlier timestamp that lay in the past. *)
Definition touched (w w' : world) (p : string) : Prop :=
  ∃ f', files (node w') !! p = Some f' ∧
        mtimeMs f' = clock (node w) ∧
        ∀ f, files (node w) !! p = Some f →
             mtimeMs f < clock (node w) → mtimeMs f < mtimeMs f'.

(** The events that [w'] has on top of those of [w]. *)
Definition new_events (w w' : world) (evs : list event) : Prop :=
  trace (node w') = evs ++ trace (node w).

(** [context.changedContent], empty for a context that does not exist. *)
Definition changed_of (w : world) (context : nat) : list changed :=
  default [] (changedContent <$> contexts (utils w) !! context).

(** [require.cache] without the given files. *)
Definition uncache_all (deps : list string) (c : gmap string user_config)
  : gmap string user_config :=
  foldl (λ c d, delete d c) c deps.

(** The modification time of a file, [0] for one that is not there. *)
Definition mtime_of (fs : gmap string fnode) (p : string) : Z :=
  default 0 (mtimeMs <$> fs !! p).

(** A node state with more events on its trace. *)
Definition emits (evs : list event) (n : node_state) : node_state :=
  NodeState (files n) (clock n) (require_cache n) (next_oid n)
    (rand_calls n) (evs ++ trace n).

(** The timestamps of the given files, recorded over [m]. *)
Definition snapshot (fs : gmap string fnode) (deps : list string)
    (m : gmap string Z) : gmap string Z :=
  foldl (λ m d, <[d := mtime_of fs d]> m) m deps.

(** The value [getTailwindConfig] returns for a path when it answers
    from what the cache holds ([None] for no entry). *)
Definition cached_result (p : string)
    (e : option (config * string * list string * gmap string Z))
  : option config * option string * option string * option (list string) :=
  ((λ e, e.1.1.1) <$> e, Some p, (λ e, e.1.1.2) <$> e, (λ e, e.1.2) <$> e).

(** No file of [deps] is newer on [fs] than the snapshot of [e] says. *)
Definition settled (fs : gmap string fnode) (deps : list string)
    (e : option (config * string * list string * gmap string Z)) : Prop :=
  ∀ d, d ∈ deps →
    Tracking.newer_than ((λ e, e.2) <$> e) d (mtime_of fs d) = false.

(** The same for watch mode, where the entry is
    [[config, modified, hash]] and the dependency list is the path. *)
Definition w_cached_result (p : string) (e : option (config * Z * string))
  : option config * option string * option string * list jsval :=
  ((λ e, e.1.1) <$> e, Some p, (λ e, e.2) <$> e, [JStr p]).

Definition w_settled (fs : gmap string fnode) (p : string)
    (e : option (config * Z * string)) : Prop :=
  num_le (Num (mtime_of fs p))
    (match e with
     | Some e => Num e.1.2
     | None => NegInfinity
     end) = true.


(** [modified > prevModified] for a file of [fs] against the map [m],
    an absent entry counting as [-Infinity]. *)
Definition is_newer (fs : gmap string fnode) (m : gmap string Z)
    (f : string) : bool :=
  num_gt (Num (mtime_of fs f))
    (match m !! f with
     | Some t => Num t
     | None => NegInfinity
     end).

(** One round of the build-mode scan on the set of changed files and the
    map, and the scan of a list of files. *)
Definition scan_step (fs : gmap string fnode)
    (st : list string * gmap string Z) (f : string)
  : list string * gmap string Z :=
  if is_newer fs st.2 f
  then (set_add f st.1, <[f := mtime_of fs f]> st.2)
  else st.

Definition scan (fs : gmap string fnode) (found : list string)
    (st : list string * gmap string Z) : list string * gmap string Z :=
  foldl (scan_step fs) st found.

(** The record pushed for a file that is read. *)
Section Records.
Context `{Externals}.

Definition file_record (fs : gmap string fnode) (f : string) : changed :=
  Changed (default EmptyString (data <$> fs !! f))
    (Some (slice1 (path_extname f))).
End Records.

(** Between [w] and [w'] the events [evs] were emitted and the
    [fileModifiedMap] behind [ref] may have changed; everything else is
    as it was. *)
Definition scan_frame (ref : nat) (evs : list event) (w w' : world) : Prop :=
  node w' = emits evs (node w) ∧
  contexts (utils w') = contexts (utils w) ∧
  contextCache (utils w') = contextCache (utils w) ∧
  (∀ k, k ≠ ref →
        fileModifiedMapCache (utils w') !! k =
        fileModifiedMapCache (utils w) !! k) ∧
  tracking w' = tracking w ∧
  watching w' = watching w.

(** [context.changedContent] with the records [out] pushed on it. *)
Definition pushed (out : list changed) (c : context_obj) : context_obj :=
  Context (tailwindConfig c) (changedContent c ++ out) (disposables c).

(** The identity an entry point asks [getContext] for. *)
Definition request_identity (result : postcss_result)
    (tailwindDirectives : gset string) (tailwindConfigHash : option string)
    (configDependencies : list jsval) : identity :=
  (opts_from result, tailwindDirectives, tailwindConfigHash,
   contextDependencies configDependencies tailwindDirectives result).

(** What running disposables may change: the watchers and the trace. *)
Definition dispose_frame (w w' : world) : Prop :=
  files (node w') = files (node w) ∧
  clock (node w') = clock (node w) ∧
  require_cache (node w') = require_cache (node w) ∧
  next_oid (node w') = next_oid (node w) ∧
  utils w' = utils w ∧
  tracking w' = tracking w ∧
  touchFiles (watching w') = touchFiles (watching w) ∧
  configPaths (watching w') = configPaths (watching w) ∧
  w_configPathCache (watching w') = w_configPathCache (watching w) ∧
  configDependenciesCache (watching w') =
    configDependenciesCache (watching w) ∧
  w_candidateFilesCache (watching w') = w_candidateFilesCache (watching w) ∧
  scannedContentCache (watching w') = scannedContentCache (watching w) ∧
  pending (watching w') = pending (watching w).

(** The raw-content records of the configuration a context was made
    for. *)
Definition context_raw (w : world) (context : nat) : list changed :=
  match contexts (utils w) !! context ≫= tailwindConfig with
  | Some cfg => raw_content (purge_content (value cfg))
  | None => []
  end.

(** The guarded part of the build-mode entry point, for a source with
    directives: the candidates are registered, the scan is run and its
    result is pushed on the context. *)
Section Blocks.
Context `{Externals}.

Definition tracking_block (context : nat) (candidateFiles : list string)
  : M unit :=
  fileModifiedMap ← getFileModifiedMap context;
  _ ← for_of candidateFiles (λ maybeGlob,
        if isGlob maybeGlob then
          registerDependency
            (JStr (path_resolve [globParent maybeGlob]))
            (Some (if bool_decide (env_ROLLUP_WATCH = Some "true")
                   then "dependency" else "dir-dependency"))
        else
          registerDependency (JStr (path_resolve [maybeGlob])) None);
  changed ← Tracking.resolvedChangedContent context candidateFiles
              fileModifiedMap;
  for_of changed (push_changedContent context).

(** The same part of the watch-mode entry point. *)
Definition watching_block (context : nat) (candidateFiles : list string)
  : M unit :=
  changed ← Watching.resolvedChangedContent context candidateFiles;
  for_of changed (push_changedContent context).
End Blocks.


(** ** Vocabulary of the further properties *)

(** Whether [rebootWatcher] goes on to start a watcher: not in build
    mode, and then in watch mode or, with no mode given, in a
    development environment. *)
Section WatchMode.
Context `{Externals}.

Definition watch_mode_on : bool :=
  negb (bool_decide (env_TAILWIND_MODE = Some "build")) &&
  (bool_decide (env_TAILWIND_MODE = Some "watch")
   || (bool_decide (env_TAILWIND_MODE = None)
       && bool_decide (env_NODE_ENV = Some "development"))).

(** The part of [rebootWatcher] after the touch file is there. *)
Definition reboot_tail (context : nat) (configPath : option string)
    (configDependencies : nat) (candidateFiles : list string)
    (touchFile : string) : M unit :=
  if bool_decide (env_TAILWIND_MODE = Some "build") then mret tt
  else if bool_decide (env_TAILWIND_MODE = Some "watch")
          || (bool_decide (env_TAILWIND_MODE = None)
              && bool_decide (env_NODE_ENV = Some "development"))
  then
    watcher ← Watching.getWatcher context;
    _ ← match watcher with
        | Some _ => watcher_close context
        | None => mret tt
        end;
    modify (on_watching (λ s,
      set_pending
        (pending s ++
         [PendingWatch context configPath configDependencies touchFile
            candidateFiles]) s))
  else mret tt.
End WatchMode.

(** A watcher marked as closed. *)
Definition closed_watcher (x : watcher) : watcher :=
  Watcher (w_context x) (w_configPath x) (w_configDependencies x)
    (w_touchFile x) (w_paths x) true.


(** Between [w] and [w'] the files, the sets of configuration
    dependencies and the configuration paths of the contexts are the
    same. *)
Definition paths_frame (w w' : world) : Prop :=
  files (node w') = files (node w) ∧
  configDependenciesCache (watching w') =
    configDependenciesCache (watching w) ∧
  configPaths (watching w') = configPaths (watching w).


(** The calls of the host's [registerDependency] between [w] and [w'],
    oldest first. *)
Definition is_register (e : event) : bool :=
  match e with
  | EvRegister _ _ => true
  | _ => false
  end.

Definition registered (w w' : world) (regs : list event) : Prop :=
  ∃ evs, trace (node w') = evs ++ trace (node w) ∧
         filter (λ e, is_register e) (reverse evs) = regs.

Section Registration.
Context `{Externals}.

(** The registration of a candidate by the build-mode entry point. *)
Definition registration (maybeGlob : string) : event :=
  if isGlob maybeGlob then
    EvRegister (JStr (path_resolve [globParent maybeGlob]))
      (Some (if bool_decide (env_ROLLUP_WATCH = Some "true")
             then "dependency" else "dir-dependency"))
  else EvRegister (JStr (path_resolve [maybeGlob])) None.
End Registration.

(** * Properties *)

(** ** The touch operation *)
Section TouchFacts.
Context `{Externals}.

Lemma touch_present (p : string) (f : fnode) (w : world) :
  files (node w) !! p = Some f →
  Watching.touch (Some p) w =
    Ok tt (on_node (λ n,
      emit (EvUtimes p)
        (set_files (<[p := FNode (clock n) (data f)]> (files n)) n)) w).
Proof.
  intros Hf. unfold Watching.touch, try_catch, defined. simpl.
  unfold mbind, M_bind, mret, M_ret, fs_utimesSync. by rewrite Hf.
Qed.

Lemma touch_absent (p : string) (w : world) :
  files (node w) !! p = None →
  Watching.touch (Some p) w =
    Ok tt (on_node (λ n,
      emit (EvOpenW p)
        (set_files (<[p := FNode (clock n) EmptyString]> (files n)) n)) w).
Proof.
  intros Hf. unfold Watching.touch, try_catch, defined. simpl.
  unfold mbind, M_bind, mret, M_ret, fs_utimesSync. by rewrite Hf.
Qed.

(** The whole effect of [touch] on a path. *)
Lemma touch_effect (p : string) (w : world) :
  ∃ w',
    Watching.touch (Some p) w = Ok tt w' ∧
    files (node w') =
      <[p := FNode (clock (node w))
               (match files (node w) !! p with
                | Some f => data f
                | None => EmptyString
                end)]> (files (node w)) ∧
    clock (node w') = clock (node w) ∧
    require_cache (node w') = require_cache (node w) ∧
    (∃ e, trace (node w') = e :: trace (node w) ∧
          (e = EvUtimes p ∨ e = EvOpenW p)) ∧
    utils w' = utils w ∧ tracking w' = tracking w ∧
    watching w' = watching w.
Proof.
  destruct (files (node w) !! p) as [f|] eqn:Hf.
  - eexists. split; [by apply touch_present|]. simpl. eauto 10.
  - eexists. split; [by apply touch_absent|]. simpl. eauto 10.
Qed.

Lemma touch_touched (p : string) (w0 w w' : world) :
  clock (node w) = clock (node w0) →
  files (node w') =
    <[p := FNode (clock (node w))
             (match files (node w) !! p with
              | Some f => data f
              | None => EmptyString
              end)]> (files (node w)) →
  touched w0 w' p.
Proof.
  intros Hc Hfs. unfold touched. rewrite Hfs, lookup_insert_eq.
  eexists. split; [done|].
  simpl. split; [done|]. intros f _ Hlt. by rewrite Hc.
Qed.

End TouchFacts.

(** ** Stepping through monadic code *)
Section Steps.
Lemma bind_Ok {A B} (m : M A) (k : A → M B) w a w' :
  m w = Ok a w' → (m ≫= k) w = k a w'.
Proof. intros Hm. unfold mbind, M_bind. by rewrite Hm. Qed.

Lemma Ok_inv {A} (a b : A) (w w' : world) :
  Ok a w = Ok b w' → a = b ∧ w = w'.
Proof. intros Heq. by injection Heq. Qed.

Lemma bind_inv {A B} (m : M A) (k : A → M B) w b w2 :
  (m ≫= k) w = Ok b w2 → ∃ a w1, m w = Ok a w1 ∧ k a w1 = Ok b w2.
Proof.
  unfold mbind, M_bind. destruct (m w) as [a w1|e w1]; [eauto|done].
Qed.

Lemma bind_get_world {B} (k : world → M B) w :
  (get_world ≫= k) w = k w w.
Proof. done. Qed.

Lemma bind_modify {B} (f : world → world) (k : unit → M B) w :
  (modify f ≫= k) w = k tt (f w).
Proof. done. Qed.

Lemma bind_mret {A B} (a : A) (k : A → M B) w :
  (mret a ≫= k) w = k a w.
Proof. done. Qed.

Lemma fold_of_cons {A S} (x : A) (l : list A) (s : S) (body : S → A → M S) :
  fold_of (x :: l) s body = body s x ≫= λ s', fold_of l s' body.
Proof. done. Qed.

Lemma for_of_cons {A} (x : A) (l : list A) (body : A → M unit) :
  for_of (x :: l) body = body x ≫= λ _, for_of l body.
Proof. done. Qed.

End Steps.

(** ** The watcher's handlers *)
Section WatcherFacts.
Context `{Externals}.


Lemma push_lookup (context : nat) (c : context_obj) (x : changed)
    (w : world) :
  contexts (utils w) !! context = Some c →
  contexts (utils (on_utils (λ u,
    set_contexts
      (alter (λ x0, Context (tailwindConfig x0) (changedContent x0 ++ [x])
                      (disposables x0)) context (contexts u)) u) w))
    !! context =
  Some (Context (tailwindConfig c) (changedContent c ++ [x])
          (disposables c)).
Proof. intros Hc. simpl. rewrite lookup_alter_eq. by rewrite Hc. Qed.

(** What the handlers do with a file that is not treated as a
    configuration dependency. *)
Lemma read_push_touch (wt : watcher) (file : string) (f : fnode)
    (c : context_obj) (w : world) :
  files (node w) !! path_resolve ["."; file] = Some f →
  contexts (utils w) !! w_context wt = Some c →
  ∃ w',
    Watching.on_add wt file w = Ok tt w' ∧
    contexts (utils w') !! w_context wt =
      Some (Context (tailwindConfig c)
              (changedContent c ++
               [Changed (data f)
                  (Some (slice1 (path_extname
                                   (path_resolve ["."; file]))))])
              (disposables c)) ∧
    (∀ k, k ≠ w_context wt →
          contexts (utils w') !! k = contexts (utils w) !! k) ∧
    EvReadFile (path_resolve ["."; file]) ∈ trace (node w') ∧
    touched w w' (w_touchFile wt).
Proof.
  intros Hf Hc.
  set (p := path_resolve ["."; file]) in *.
  set (x := Changed (data f) (Some (slice1 (path_extname p)))).
  set (w1 := on_node (emit (EvReadFile p)) w).
  set (w2 := on_utils (λ u,
    set_contexts
      (alter (λ x0, Context (tailwindConfig x0) (changedContent x0 ++ [x])
                      (disposables x0)) (w_context wt) (contexts u)) u) w1).
  destruct (touch_effect (w_touchFile wt) w2)
    as (w' & Ht & Hfs & Hclock & _ & (e & Htr & _) & Hu & _).
  exists w'. split.
  { unfold Watching.on_add. fold p.
    rewrite (bind_Ok _ _ w (data f) w1);
      [|unfold fs_readFileSync; by rewrite Hf].
    by rewrite (bind_Ok _ _ w1 tt w2). }
  rewrite Hu. split; [by apply push_lookup|].
  split; [intros k Hk; simpl; by rewrite lookup_alter_ne|].
  split.
  - rewrite Htr. simpl. right. by left.
  - by apply (touch_touched _ w w2).
Qed.

(** C10. An ['add'] event delivered by an armed watcher always reads
    the added file, appends its content and extension to the context's
    [changedContent] and touches the context's touch file; whether the
    added path is a configuration dependency plays no part. *)
Theorem add_event_reads_and_touches (w : world) (context : nat)
    (wt : watcher) (file : string) (f : fnode) (c : context_obj) :
  watchers (watching w) !! context = Some wt →
  w_closed wt = false →
  files (node w) !! path_resolve ["."; file] = Some f →
  contexts (utils w) !! w_context wt = Some c →
  ∃ w',
    Watching.deliver context (Watching.Add file) w = Ok tt w' ∧
    changed_of w' (w_context wt) =
      changed_of w (w_context wt) ++
        [Changed (data f)
           (Some (slice1 (path_extname (path_resolve ["."; file]))))] ∧
    EvReadFile (path_resolve ["."; file]) ∈ trace (node w') ∧
    touched w w' (w_touchFile wt).
Proof.
  intros Hw Hopen Hf Hc.
  destruct (read_push_touch wt file f c w Hf Hc)
    as (w' & Hrun & Hctx & _ & Hread & Htouch).
  exists w'. split.
  - unfold Watching.deliver, Watching.getWatcher.
    unfold mbind at 1, M_bind at 1. simpl. by rewrite Hw, Hopen.
  - unfold changed_of. by rewrite Hctx, Hc.
Qed.

End WatcherFacts.

(** The handlers on the demo world. *)
Section WatcherWitnesses.
#[local] Existing Instance Demo.demo_externals.

Lemma add_event_reads_and_touches_witness :
  ∃ w',
    Watching.deliver 1%nat (Watching.Add "/proj/colors.js")
      Demo.watching_world = Ok tt w' ∧
    changed_of w' 1%nat =
      changed_of Demo.watching_world 1%nat ++
        [Changed "colors" (Some "html")] ∧
    EvReadFile "/proj/colors.js" ∈ trace (node w') ∧
    touched Demo.watching_world w' "touch-42-0123456789AB".
Proof.
  apply (add_event_reads_and_touches (H := Demo.demo_externals)
           Demo.watching_world 1%nat Demo.demo_watcher "/proj/colors.js"
           (FNode 5 "colors") Demo.demo_context);
    vm_compute; reflexivity.
Defined.

End WatcherWitnesses.

(** ** The dependencies a context is identified by *)
Section IdentityFacts.
Context `{Externals}.

Lemma contextDependencies_empty (configDependencies : list jsval)
    (result : postcss_result) :
  contextDependencies configDependencies ∅ result =
    list_to_set configDependencies.
Proof.
  unfold contextDependencies.
  rewrite size_empty. by rewrite bool_decide_eq_false_2 by lia.
Qed.

(** C2, as the code has it.  For a source without directives the set of
    context dependencies is the set of configuration dependencies, no
    more and no less: the source file and the files of its dependency
    messages stay out (unless the configuration depends on them), so the
    set is the same whatever the PostCSS result says; the configuration
    dependencies stay in. *)
Theorem empty_directives_context_dependencies
    (configDependencies : list jsval) (result : postcss_result) :
  contextDependencies configDependencies ∅ result =
    list_to_set configDependencies ∧
  (∀ d, d ∈ contextDependencies configDependencies ∅ result ↔
        d ∈ configDependencies) ∧
  (∀ result', contextDependencies configDependencies ∅ result' =
              contextDependencies configDependencies ∅ result).
Proof.
  split; [apply contextDependencies_empty|]. split.
  - intros d. rewrite contextDependencies_empty. apply elem_of_list_to_set.
  - intros r. by rewrite !contextDependencies_empty.
Qed.

(** C2, counterexample.  With an empty directive set the configuration
    file is still among the context dependencies. *)
Lemma empty_directives_keep_config_dependencies :
  ¬ (∀ (configDependencies : list jsval) (result : postcss_result) d,
       d ∈ configDependencies →
       d ∉ contextDependencies configDependencies ∅ result).
Proof.
  intros Hclaim.
  apply (Hclaim [JStr "/proj/tw.config.js"] Demo.demo_result
           (JStr "/proj/tw.config.js")); [by left|].
  rewrite contextDependencies_empty. apply elem_of_list_to_set. by left.
Qed.
End IdentityFacts.

(** ** The two-generation cache *)
Section LruFacts.
Context {V : Type}.

Lemma lru__set_get (key : string) (v : V) (c : lru V) :
  (lru_get key (lru__set key v c)).1 = Some v.
Proof.
  unfold lru__set, lru_get. case_bool_decide; simpl.
  - rewrite lookup_empty. by rewrite lookup_insert_eq.
  - by rewrite lookup_insert_eq.
Qed.

(** An entry that was just stored is found. *)
Lemma lru_get_set (key : string) (v : V) (c : lru V) :
  (lru_get key (lru_set key v c)).1 = Some v.
Proof.
  unfold lru_set. destruct (cache c !! key) eqn:Hc.
  - unfold lru_get. simpl. by rewrite lookup_insert_eq.
  - apply lru__set_get.
Qed.

(** Looking a key up twice gives the same answer twice. *)
Lemma lru_get_get (key : string) (c : lru V) :
  (lru_get key (lru_get key c).2).1 = (lru_get key c).1.
Proof.
  unfold lru_get at 2 3.
  destruct (cache c !! key) eqn:Hc; simpl.
  - unfold lru_get. by rewrite Hc.
  - destruct (oldCache c !! key) eqn:Ho; simpl.
    + apply lru__set_get.
    + unfold lru_get. by rewrite Hc, Ho.
Qed.
End LruFacts.

(** ** Loading the configuration *)
Section LoaderFacts.
Context `{Externals}.

Lemma on_node_emits_cons (e : event) (evs : list event) (w : world) :
  on_node (emits evs) (on_node (emit e) w) = on_node (emits (evs ++ [e])) w.
Proof.
  destruct w as [[] ? ? ?]. unfold on_node, emits, emit. simpl.
  by rewrite <- app_assoc.
Qed.

Lemma on_node_emits_nil (w : world) : on_node (emits []) w = w.
Proof. by destruct w as [[] ? ? ?]. Qed.

Lemma stat_loop (prevModified : option (gmap string Z))
    (deps : list string) (s : bool * gmap string Z) (w : world) :
  (∀ d, d ∈ deps → is_Some (files (node w) !! d)) →
  fold_of deps s
    (λ s file,
       time ← fs_statSync file;
       mret (s.1 || Tracking.newer_than prevModified file time,
             <[file := time]> s.2)) w =
    Ok (s.1 || existsb (λ d, Tracking.newer_than prevModified d
                               (mtime_of (files (node w)) d)) deps,
        snapshot (files (node w)) deps s.2)
       (on_node (emits (reverse (EvStat <$> deps))) w).
Proof.
  revert s w. induction deps as [|d deps IH]; intros s w Hall.
  - simpl. rewrite orb_false_r, on_node_emits_nil. by destruct s.
  - destruct (Hall d) as [f Hf]; [by left|].
    rewrite fold_of_cons.
    rewrite (bind_Ok _ _ w
               (s.1 || Tracking.newer_than prevModified d (mtimeMs f),
                <[d := mtimeMs f]> s.2)
               (on_node (emit (EvStat d)) w)).
    2: { unfold fs_statSync, mbind, M_bind. by rewrite Hf. }
    rewrite IH by (intros d' Hd'; apply Hall; by right).
    rewrite fmap_cons, reverse_cons, on_node_emits_cons.
    assert (Hm : mtime_of (files (node w)) d = mtimeMs f)
      by (unfold mtime_of; by rewrite Hf).
    cbn [existsb snapshot foldl]. rewrite Hm. by rewrite orb_assoc.
Qed.

Lemma stat_loop_inv (prevModified : option (gmap string Z))
    (deps : list string) (s r : bool * gmap string Z) (w w' : world) :
  fold_of deps s
    (λ s file,
       time ← fs_statSync file;
       mret (s.1 || Tracking.newer_than prevModified file time,
             <[file := time]> s.2)) w = Ok r w' →
  ∀ d, d ∈ deps → is_Some (files (node w) !! d).
Proof.
  revert s w. induction deps as [|d deps IH]; intros s w Hrun x Hx.
  - by apply elem_of_nil in Hx.
  - rewrite fold_of_cons in Hrun.
    apply bind_inv in Hrun as (s1 & w1 & Hb & Hrest).
    apply bind_inv in Hb as (t & w0 & Hst & Hret).
    unfold fs_statSync in Hst.
    destruct (files (node w) !! d) as [f|] eqn:Hf; [|done].
    injection Hst as <- <-. injection Hret as <- <-.
    apply elem_of_cons in Hx as [->|Hx]; [by rewrite Hf|].
    by apply (IH _ _ Hrest).
Qed.

(** The path branch of build mode's [getTailwindConfig], up to the
    decision whether anything has changed. *)
Lemma tracking_loader_run (c : config_or_path) (p : string) (w : world) :
  resolveConfigPath (files (node w)) c = Some p →
  let got := lru_get p (t_configPathCache (tracking w)) in
  let prev := got.1 in
  let newDeps := file <$> getModuleDependencies (files (node w)) p in
  let modified :=
    existsb (λ d, Tracking.newer_than ((λ e, e.2) <$> prev) d
                    (mtime_of (files (node w)) d)) newDeps in
  let wB := on_node (emits (reverse (EvStat <$> newDeps)))
              (on_tracking (set_t_configPathCache got.2) w) in
  (∀ d, d ∈ newDeps → is_Some (files (node w) !! d)) →
  Tracking.getTailwindConfig c w =
    if negb modified then
      Ok ((λ e, e.1.1.1) <$> prev, Some p, (λ e, e.1.1.2) <$> prev,
          (λ e, e.1.2) <$> prev) wB
    else
      (_ ← for_of newDeps uncache;
       exports ← require p;
       newConfig ← resolveConfig_new exports;
       _ ← Tracking.configPathCache_set p
             (newConfig, hash (value newConfig), newDeps,
              snapshot (files (node w)) newDeps ∅);
       mret (Some newConfig, Some p, Some (hash (value newConfig)),
             Some newDeps)) wB.
Proof.
  intros Hp got prev newDeps modified wB Hall.
  unfold Tracking.getTailwindConfig.
  rewrite bind_get_world, Hp.
  rewrite (bind_Ok _ _ w prev (on_tracking (set_t_configPathCache got.2) w))
    by done.
  rewrite bind_get_world.
  cbn [node on_tracking files]. fold newDeps.
  rewrite (bind_Ok _ _ _ _ _
             (stat_loop ((λ e, e.2) <$> prev) newDeps (false, ∅)
                (on_tracking (set_t_configPathCache got.2) w) Hall)).
  cbn [fst snd orb node on_tracking files]. fold modified. fold wB.
  by destruct modified.
Qed.

Lemma snapshot_lookup (fs : gmap string fnode) (deps : list string)
    (m : gmap string Z) (d : string) :
  d ∈ deps ∨ m !! d = Some (mtime_of fs d) →
  snapshot fs deps m !! d = Some (mtime_of fs d).
Proof.
  revert m. induction deps as [|x deps IH]; intros m [Hd|Hd]; simpl.
  - by apply elem_of_nil in Hd.
  - done.
  - apply IH. apply elem_of_cons in Hd as [->|Hd]; [right|by left].
    apply lookup_insert_eq.
  - apply IH. right. destruct (decide (x = d)) as [->|Hne].
    + apply lookup_insert_eq.
    + by rewrite lookup_insert_ne.
Qed.

Lemma existsb_false {A} (f : A → bool) (l : list A) :
  existsb f l = false ↔ ∀ x, x ∈ l → f x = false.
Proof.
  induction l as [|a l IH]; simpl.
  - split; [intros _ x Hx; by apply elem_of_nil in Hx|done].
  - rewrite orb_false_iff, IH. split.
    + intros [Ha Hl] x Hx. apply elem_of_cons in Hx as [->|Hx]; auto.
    + intros Hall. split; [apply Hall; by left|].
      intros x Hx. apply Hall. by right.
Qed.

(** The fast path: when the cache's snapshot covers the closure and no
    file of it is newer, the answer is what the cache holds, and the only
    effects are the stats of the closure. *)
Lemma tracking_loader_fast (c : config_or_path) (p : string) (w : world) :
  resolveConfigPath (files (node w)) c = Some p →
  let got := lru_get p (t_configPathCache (tracking w)) in
  let newDeps := file <$> getModuleDependencies (files (node w)) p in
  (∀ d, d ∈ newDeps → is_Some (files (node w) !! d)) →
  settled (files (node w)) newDeps got.1 →
  Tracking.getTailwindConfig c w =
    Ok (cached_result p got.1)
       (on_node (emits (reverse (EvStat <$> newDeps)))
          (on_tracking (set_t_configPathCache got.2) w)).
Proof.
  intros Hp got newDeps Hall Hset.
  rewrite (tracking_loader_run c p w Hp Hall).
  fold got newDeps.
  assert (Hex : existsb (λ d, Tracking.newer_than ((λ e, e.2) <$> got.1) d
                  (mtime_of (files (node w)) d)) newDeps = false)
    by by apply existsb_false.
  by rewrite Hex.
Qed.

Lemma uncache_for_of (deps : list string) (w : world) :
  for_of deps uncache w =
    Ok tt (on_node (λ n,
      set_require_cache (uncache_all deps (require_cache n)) n) w).
Proof.
  revert w. induction deps as [|d deps IH]; intros w.
  - by destruct w as [[] ? ? ?].
  - rewrite for_of_cons. erewrite bind_Ok by reflexivity. rewrite IH.
    by destruct w as [[] ? ? ?].
Qed.

(** What a successful call for a path leaves behind: the files of the
    closure exist, nothing but the cache, [require.cache], the allocator
    and the trace has changed, and the cache now answers [p] with an
    entry that is settled and that the result was read off. *)
Lemma tracking_loader_inv (c : config_or_path) (p : string) (w w1 : world)
    (r : option config * option string * option string
         * option (list string)) :
  resolveConfigPath (files (node w)) c = Some p →
  Tracking.getTailwindConfig c w = Ok r w1 →
  let newDeps := file <$> getModuleDependencies (files (node w)) p in
  (∀ d, d ∈ newDeps → is_Some (files (node w) !! d)) ∧
  files (node w1) = files (node w) ∧
  clock (node w1) = clock (node w) ∧
  utils w1 = utils w ∧ watching w1 = watching w ∧
  t_candidateFilesCache (tracking w1) = t_candidateFilesCache (tracking w) ∧
  (∃ evs, trace (node w1) =
            evs ++ reverse (EvStat <$> newDeps) ++ trace (node w)) ∧
  r = cached_result p (lru_get p (t_configPathCache (tracking w1))).1 ∧
  settled (files (node w)) newDeps
    (lru_get p (t_configPathCache (tracking w1))).1.
Proof.
  intros Hp Hrun newDeps.
  assert (Hall : ∀ d, d ∈ newDeps → is_Some (files (node w) !! d)).
  { unfold Tracking.getTailwindConfig in Hrun.
    rewrite bind_get_world, Hp in Hrun.
    apply bind_inv in Hrun as (prev & wA & HA & Hrun).
    injection HA as <- <-.
    rewrite bind_get_world in Hrun.
    apply bind_inv in Hrun as (s & wB & Hloop & _).
    intros d Hd. by apply (stat_loop_inv _ _ _ _ _ _ Hloop). }
  split; [exact Hall|].
  rewrite (tracking_loader_run c p w Hp Hall) in Hrun.
  fold newDeps in Hrun.
  set (got := lru_get p (t_configPathCache (tracking w))) in *.
  destruct (existsb _ newDeps) eqn:Hmod; cbn [negb] in Hrun.
  - (* reloaded *)
    erewrite bind_Ok in Hrun by apply uncache_for_of.
    apply bind_inv in Hrun as (u & w2 & Hreq & Hrun).
    apply bind_inv in Hrun as (cfg & w3 & Hres & Hrun).
    injection Hres as <- <-.
    unfold Tracking.configPathCache_set in Hrun.
    rewrite bind_modify in Hrun. injection Hrun as <- <-.
    assert (Hw2 : files (node w2) = files (node w) ∧
                  clock (node w2) = clock (node w) ∧
                  utils w2 = utils w ∧ watching w2 = watching w ∧
                  tracking w2 = set_t_configPathCache got.2 (tracking w) ∧
                  ∃ evs, trace (node w2) =
                    evs ++ reverse (EvStat <$> newDeps) ++ trace (node w)).
    { unfold require in Hreq. cbn [node on_node require_cache
        set_require_cache files emits on_tracking] in Hreq.
      destruct (uncache_all newDeps _ !! p).
      - injection Hreq as <- <-. cbn. repeat split; try done.
        by exists [].
      - destruct (load_module _ p); [|done].
        injection Hreq as <- <-. cbn. repeat split; try done.
        by exists [EvLoadModule p]. }
    destruct Hw2 as (Hf & Hc & Hu & Hwa & Ht & Hev).
    cbn. rewrite Ht. cbn. rewrite lru_get_set.
    repeat split; try done.
    intros d Hd. cbn. rewrite snapshot_lookup by by left.
    apply bool_decide_eq_false_2. lia.
  - (* answered from the cache *)
    injection Hrun as <- <-. cbn. subst got. rewrite lru_get_get.
    repeat split; try done.
    + by exists [].
    + exact (proj1 (existsb_false _ _) Hmod).
Qed.


(** The path branch of watch mode's [getTailwindConfig]. *)
Lemma watching_loader_run (c : config_or_path) (p : string) (f : fnode)
    (w : world) :
  resolveConfigPath (files (node w)) c = Some p →
  files (node w) !! p = Some f →
  let got := lru_get p (w_configPathCache (watching w)) in
  let wB := on_node (emit (EvStat p))
              (on_watching (set_w_configPathCache got.2) w) in
  Watching.getTailwindConfig c w =
    if num_le (Num (mtimeMs f))
         (match got.1 with
          | Some e => Num e.1.2
          | None => NegInfinity
          end)
    then Ok (w_cached_result p got.1) wB
    else
      (_ ← uncache p;
       exports ← require p;
       newConfig ← resolveConfig_new exports;
       _ ← Watching.configPathCache_set p
             (newConfig, mtimeMs f, hash (value newConfig));
       mret (Some newConfig, Some p, Some (hash (value newConfig)),
             [JStr p])) wB.
Proof.
  intros Hp Hf got wB.
  unfold Watching.getTailwindConfig.
  rewrite bind_get_world. cbv zeta. rewrite Hp.
  rewrite (bind_Ok _ _ w got.1
             (on_watching (set_w_configPathCache got.2) w)) by done.
  rewrite (bind_Ok _ _ _ (mtimeMs f) wB).
  2: { unfold fs_statSync. cbn. by rewrite Hf. }
  by destruct (num_le _ _).
Qed.


Lemma watching_loader_inv (c : config_or_path) (p : string) (w w1 : world)
    (r : option config * option string * option string * list jsval) :
  resolveConfigPath (files (node w)) c = Some p →
  Watching.getTailwindConfig c w = Ok r w1 →
  is_Some (files (node w) !! p) ∧
  files (node w1) = files (node w) ∧
  clock (node w1) = clock (node w) ∧
  utils w1 = utils w ∧ tracking w1 = tracking w ∧
  scannedContentCache (watching w1) = scannedContentCache (watching w) ∧
  w_candidateFilesCache (watching w1) = w_candidateFilesCache (watching w) ∧
  (∃ evs, trace (node w1) = evs ++ EvStat p :: trace (node w)) ∧
  r = w_cached_result p (lru_get p (w_configPathCache (watching w1))).1 ∧
  w_settled (files (node w)) p
    (lru_get p (w_configPathCache (watching w1))).1.
Proof.
  intros Hp Hrun.
  destruct (files (node w) !! p) as [f|] eqn:Hf.
  2: { unfold Watching.getTailwindConfig in Hrun.
       rewrite bind_get_world in Hrun. cbv zeta in Hrun.
       rewrite Hp in Hrun.
       apply bind_inv in Hrun as (prev & wA & HA & Hrun).
       injection HA as <- <-.
       apply bind_inv in Hrun as (t & wB & Hst & _).
       unfold fs_statSync in Hst. cbn in Hst. by rewrite Hf in Hst. }
  split; [by eexists|].
  rewrite (watching_loader_run c p f w Hp Hf) in Hrun.
  assert (Hm : mtime_of (files (node w)) p = mtimeMs f)
    by (unfold mtime_of; by rewrite Hf).
  destruct (num_le _ _) eqn:Hle.
  - injection Hrun as <- <-. cbn. rewrite lru_get_get.
    repeat split; try done.
    + by exists [].
    + unfold w_settled. by rewrite Hm.
  - erewrite bind_Ok in Hrun by reflexivity.
    apply bind_inv in Hrun as (u & w2 & Hreq & Hrun).
    apply bind_inv in Hrun as (cfg & w3 & Hres & Hrun).
    injection Hres as <- <-.
    unfold Watching.configPathCache_set in Hrun.
    rewrite bind_modify in Hrun. injection Hrun as <- <-.
    unfold require in Hreq. cbn in Hreq.
    rewrite lookup_delete_eq in Hreq.
    destruct (load_module _ p); [|done].
    injection Hreq as <- <-. cbn. rewrite lru_get_set.
    repeat split; try done.
    + by exists [EvLoadModule p].
    + unfold w_settled. rewrite Hm. cbn. apply bool_decide_eq_true_2. lia.
Qed.


(** Reloading in build mode succeeds when the module can be run. *)
Lemma tracking_reload_run (p : string) (deps : list string)
    (snap : gmap string Z) (w : world) :
  is_Some (load_module (files (node w)) p) →
  ∃ cfg w1,
    (_ ← for_of deps uncache;
     exports ← require p;
     newConfig ← resolveConfig_new exports;
     _ ← Tracking.configPathCache_set p
           (newConfig, hash (value newConfig), deps, snap);
     mret (Some newConfig, Some p, Some (hash (value newConfig)),
           Some deps)) w =
      Ok (Some cfg, Some p, Some (hash (value cfg)), Some deps) w1 ∧
    oid cfg = next_oid (node w) ∧
    ∃ evs, trace (node w1) = evs ++ trace (node w) ∧
           ∀ e, e ∈ evs → e = EvLoadModule p.
Proof.
  intros [u Hu].
  erewrite bind_Ok by apply uncache_for_of.
  unfold require. unfold mbind at 1, M_bind at 1.
  cbn [node on_node require_cache set_require_cache files].
  destruct (uncache_all deps _ !! p) as [u'|].
  - eexists _, _. split; [reflexivity|]. split; [done|].
    exists []. split; [done|]. intros e He. by apply elem_of_nil in He.
  - rewrite Hu. eexists _, _. split; [reflexivity|]. split; [done|].
    exists [EvLoadModule p]. split; [done|].
    intros e He. by apply list_elem_of_singleton in He.
Qed.

(** C4, as the code has it.  Build mode computes the dependency closure
    of the configuration module and stats every file of it, in order; it
    returns the closure when it reloads, and otherwise the dependency
    list of the cache entry, whose snapshot covers the closure.  Watch
    mode stats the configuration file and no other file, and returns the
    one-element list of the configuration path. *)
Theorem loader_dependency_closure (c : config_or_path) (p : string)
    (w : world) :
  resolveConfigPath (files (node w)) c = Some p →
  let closure := file <$> getModuleDependencies (files (node w)) p in
  is_Some (load_module (files (node w)) p) →
  ((∀ d, d ∈ closure → is_Some (files (node w) !! d)) →
   ∃ r w1,
     Tracking.getTailwindConfig c w = Ok r w1 ∧
     (∃ evs, trace (node w1) =
               evs ++ reverse (EvStat <$> closure) ++ trace (node w) ∧
             ∀ e, e ∈ evs → e = EvLoadModule p) ∧
     (r.2 = Some closure ∨
      r = cached_result p (lru_get p (t_configPathCache (tracking w))).1 ∧
      settled (files (node w)) closure
        (lru_get p (t_configPathCache (tracking w))).1))
  ∧
  (is_Some (files (node w) !! p) →
   ∃ r w1,
     Watching.getTailwindConfig c w = Ok r w1 ∧
     r.2 = [JStr p] ∧
     ∃ evs, trace (node w1) = evs ++ EvStat p :: trace (node w) ∧
            ∀ e, e ∈ evs → e = EvLoadModule p).
Proof.
  intros Hp closure Hload. split.
  - intros Hall. rewrite (tracking_loader_run c p w Hp Hall).
    fold closure.
    destruct (existsb _ closure) eqn:Hmod; cbn [negb].
    + destruct (tracking_reload_run p closure
                  (snapshot (files (node w)) closure ∅)
                  (on_node (emits (reverse (EvStat <$> closure)))
                     (on_tracking
                        (set_t_configPathCache
                           (lru_get p (t_configPathCache (tracking w))).2)
                        w)))
        as (cfg & w1 & Hrun & _ & evs & Htr & Hevs); [done|].
      exists (Some cfg, Some p, Some (hash (value cfg)), Some closure), w1.
      split; [exact Hrun|]. split; [|by left].
      exists evs. split; [|done]. by rewrite Htr.
    + eexists _, _. split; [reflexivity|]. split.
      * exists []. split; [done|]. intros e He. by apply elem_of_nil in He.
      * right. split; [done|]. exact (proj1 (existsb_false _ _) Hmod).
  - intros [f Hf]. rewrite (watching_loader_run c p f w Hp Hf).
    destruct (num_le _ _).
    + eexists _, _. split; [reflexivity|]. split; [done|].
      exists []. split; [done|]. intros e He. by apply elem_of_nil in He.
    + erewrite bind_Ok by reflexivity.
      unfold require. unfold mbind at 1, M_bind at 1.
      cbn [node on_node require_cache set_require_cache files emit
           on_watching].
      rewrite lookup_delete_eq. destruct Hload as [u ->].
      eexists _, _. split; [reflexivity|]. split; [done|].
      exists [EvLoadModule p]. split; [done|].
      intros e He. by apply list_elem_of_singleton in He.
Qed.

Lemma tracking_inline_run (c : config_or_path) (w : world) :
  resolveConfigPath (files (node w)) c = None →
  Tracking.getTailwindConfig c w =
    Ok (Some (Config (next_oid (node w))
                (resolveConfig (match c with
                                | Plain u => u
                                | WithConfig u => u
                                end))),
        None,
        Some (hash (resolveConfig (match c with
                                   | Plain u => u
                                   | WithConfig u => u
                                   end))),
        Some [])
       (on_node (λ n, set_next_oid (S (next_oid n)) n) w).
Proof.
  intros Hp. unfold Tracking.getTailwindConfig.
  rewrite bind_get_world, Hp. by destruct c.
Qed.

Lemma watching_inline_run (c : config_or_path) (w : world) :
  resolveConfigPath (files (node w)) c = None →
  Watching.getTailwindConfig c w =
    Ok (Some (Config (next_oid (node w))
                (resolveConfig (match c with
                                | Plain u => u
                                | WithConfig u => u
                                end))),
        None,
        Some (hash (resolveConfig (match c with
                                   | Plain u => u
                                   | WithConfig u => u
                                   end))),
        [JNull])
       (on_node (λ n, set_next_oid (S (next_oid n)) n) w).
Proof.
  intros Hp. unfold Watching.getTailwindConfig.
  rewrite bind_get_world. cbv zeta. rewrite Hp. by destruct c.
Qed.

(** C5.  An inline configuration is resolved into a new object on every
    call, with no path and with the hash of the resolved value, and
    neither configuration cache is touched.  The dependency list is
    empty in build mode; in watch mode it is the one-element list
    [[null]], the value of [userConfigPath] in that branch. *)
Theorem inline_config_loaded_afresh (c : config_or_path) (w : world) :
  resolveConfigPath (files (node w)) c = None →
  let cfg :=
    Config (next_oid (node w))
      (resolveConfig (match c with
                      | Plain u => u
                      | WithConfig u => u
                      end)) in
  let w1 := on_node (λ n, set_next_oid (S (next_oid n)) n) w in
  Tracking.getTailwindConfig c w =
    Ok (Some cfg, None, Some (hash (value cfg)), Some []) w1 ∧
  Watching.getTailwindConfig c w =
    Ok (Some cfg, None, Some (hash (value cfg)), [JNull]) w1.
Proof.
  intros Hp cfg w1. split.
  - by apply tracking_inline_run.
  - by apply watching_inline_run.
Qed.
End LoaderFacts.

(** The loaders on the demo world. *)
Section LoaderWitnesses.
#[local] Existing Instance Demo.demo_externals.


Lemma loader_dependency_closure_witness :
  (∃ r w1,
     Tracking.getTailwindConfig Demo.demo_config Demo.demo_world = Ok r w1 ∧
     (∃ evs, trace (node w1) =
               evs ++ [EvStat "/proj/colors.js"; EvStat "/proj/tw.config.js"]
                 ++ [] ∧
             ∀ e, e ∈ evs → e = EvLoadModule "/proj/tw.config.js") ∧
     (r.2 = Some ["/proj/tw.config.js"; "/proj/colors.js"] ∨
      r = cached_result "/proj/tw.config.js" None ∧
      settled Demo.demo_files ["/proj/tw.config.js"; "/proj/colors.js"] None))
  ∧
  (∃ r w1,
     Watching.getTailwindConfig Demo.demo_config Demo.demo_world = Ok r w1 ∧
     r.2 = [JStr "/proj/tw.config.js"] ∧
     ∃ evs, trace (node w1) = evs ++ [EvStat "/proj/tw.config.js"] ∧
            ∀ e, e ∈ evs → e = EvLoadModule "/proj/tw.config.js").
Proof.
  split.
  - apply (proj1 (loader_dependency_closure (H := Demo.demo_externals)
                    Demo.demo_config "/proj/tw.config.js" Demo.demo_world
                    eq_refl ltac:(vm_compute; eauto))).
    intros d Hd. vm_compute in Hd.
    apply elem_of_cons in Hd as [->|Hd]; [vm_compute; eauto|].
    apply list_elem_of_singleton in Hd as ->. vm_compute. eauto.
  - apply (proj2 (loader_dependency_closure (H := Demo.demo_externals)
                    Demo.demo_config "/proj/tw.config.js" Demo.demo_world
                    eq_refl ltac:(vm_compute; eauto))).
    vm_compute. eauto.
Defined.

(** C4, counterexample.  In watch mode the configuration imports
    [/proj/colors.js], yet the loader does not stat that file and does
    not return it among the dependencies. *)
Lemma watch_loader_ignores_closure :
  ∃ r w1,
    Watching.getTailwindConfig Demo.demo_config Demo.demo_world = Ok r w1 ∧
    "/proj/colors.js" ∈
      (file <$> getModuleDependencies (files (node Demo.demo_world))
                  "/proj/tw.config.js") ∧
    (EvStat "/proj/colors.js" ∉ trace (node w1)) ∧
    (JStr "/proj/colors.js" ∉ r.2).
Proof.
  eexists _, _. split; [vm_compute; reflexivity|].
  split; [vm_compute; right; by left|].
  split; cbn.
  - intros Hin. repeat (apply elem_of_cons in Hin as [Hin|Hin]; [done|]).
    by apply elem_of_nil in Hin.
  - intros Hin. repeat (apply elem_of_cons in Hin as [Hin|Hin]; [done|]).
    by apply elem_of_nil in Hin.
Qed.

Lemma inline_config_loaded_afresh_witness :
  let c := Plain (UserObject (Demo.demo_value "inline")) in
  let cfg := Config 0 (Demo.demo_value "inline") in
  let w1 :=
    on_node (λ n, set_next_oid (S (next_oid n)) n) Demo.demo_world in
  Tracking.getTailwindConfig c Demo.demo_world =
    Ok (Some cfg, None, Some "inline", Some []) w1 ∧
  Watching.getTailwindConfig c Demo.demo_world =
    Ok (Some cfg, None, Some "inline", [JNull]) w1.
Proof.
  exact (inline_config_loaded_afresh (H := Demo.demo_externals)
           (Plain (UserObject (Demo.demo_value "inline"))) Demo.demo_world
           eq_refl).
Defined.
End LoaderWitnesses.

(** ** The build-mode scan *)
Section ScanFacts.
Context `{Externals}.

Lemma elem_of_set_add {A} `{EqDecision A} (x y : A) (s : list A) :
  y ∈ set_add x s ↔ y = x ∨ y ∈ s.
Proof.
  unfold set_add. case_decide as Hx.
  - split; [by right|]. by intros [->|].
  - rewrite elem_of_app, list_elem_of_singleton. tauto.
Qed.

Lemma is_newer_insert_eq fs m f :
  is_newer fs (<[f := mtime_of fs f]> m) f = false.
Proof.
  unfold is_newer. rewrite lookup_insert_eq. cbn.
  apply bool_decide_eq_false_2. lia.
Qed.

Lemma is_newer_insert_ne fs m f g t :
  f ≠ g → is_newer fs (<[f := t]> m) g = is_newer fs m g.
Proof. intros Hne. unfold is_newer. by rewrite lookup_insert_ne. Qed.

(** Which files the scan reports. *)
Lemma scan_changed fs found c0 m0 f :
  f ∈ (scan fs found (c0, m0)).1 ↔
  f ∈ c0 ∨ (f ∈ found ∧ is_newer fs m0 f = true).
Proof.
  revert c0 m0. induction found as [|x found IH]; intros c0 m0.
  - cbn. split; [by left|]. intros [?|[Hn _]]; [done|].
    by apply elem_of_nil in Hn.
  - cbn [scan foldl]. fold (scan fs found (scan_step fs (c0, m0) x)).
    unfold scan_step at 1. cbn [fst snd].
    destruct (is_newer fs m0 x) eqn:Hx.
    + rewrite IH, elem_of_set_add, elem_of_cons.
      destruct (decide (f = x)) as [->|Hne].
      * rewrite is_newer_insert_eq. intuition congruence.
      * rewrite is_newer_insert_ne by done. intuition congruence.
    + rewrite IH, elem_of_cons. split; [intuition congruence|].
      intros [?|[[->|?] Hn]]; [by left|congruence|by right].
Qed.

(** What the scan leaves in the map. *)
Lemma scan_map fs found c0 m0 f :
  (scan fs found (c0, m0)).2 !! f =
    if decide (f ∈ found ∧ is_newer fs m0 f = true)
    then Some (mtime_of fs f) else m0 !! f.
Proof.
  revert c0 m0. induction found as [|x found IH]; intros c0 m0.
  - cbn. case_decide as Hd; [|done]. destruct Hd as [Hn _].
    by apply elem_of_nil in Hn.
  - cbn [scan foldl]. fold (scan fs found (scan_step fs (c0, m0) x)).
    unfold scan_step at 1. cbn [fst snd].
    destruct (is_newer fs m0 x) eqn:Hx; rewrite IH.
    + destruct (decide (f = x)) as [->|Hne].
      * rewrite is_newer_insert_eq, lookup_insert_eq.
        rewrite decide_False by (intros [_ ?]; congruence).
        rewrite decide_True; [done|]. split; [by left|done].
      * rewrite is_newer_insert_ne, lookup_insert_ne by done.
        destruct (decide (f ∈ found ∧ is_newer fs m0 f = true))
          as [[Hin Hn]|Hno].
        -- rewrite decide_True; [done|]. split; [by right|done].
        -- rewrite decide_False; [done|]. intros [Hin Hn]. apply Hno.
           apply elem_of_cons in Hin as [?|?]; [done|by split].
    + destruct (decide (f ∈ found ∧ is_newer fs m0 f = true))
        as [[Hin Hn]|Hno].
      * rewrite decide_True; [done|]. split; [by right|done].
      * rewrite decide_False; [done|]. intros [Hin Hn]. apply Hno.
        apply elem_of_cons in Hin as [->|?]; [congruence|by split].
Qed.

Lemma emits_nil (n : node_state) : emits [] n = n.
Proof. by destruct n. Qed.

Lemma emits_app (evs evs' : list event) (n : node_state) :
  emits evs (emits evs' n) = emits (evs ++ evs') n.
Proof. destruct n. unfold emits. cbn. by rewrite app_assoc. Qed.

Lemma scan_frame_refl ref w : scan_frame ref [] w w.
Proof. unfold scan_frame. by rewrite emits_nil. Qed.

Lemma scan_frame_trans ref evs evs' w w1 w2 :
  scan_frame ref evs w w1 → scan_frame ref evs' w1 w2 →
  scan_frame ref (evs' ++ evs) w w2.
Proof.
  intros (Hn & Hc & Hcc & Hm & Ht & Hw) (Hn' & Hc' & Hcc' & Hm' & Ht' & Hw').
  unfold scan_frame. rewrite Hn', Hn, emits_app.
  repeat split; try congruence.
  intros k Hk. rewrite Hm' by done. by apply Hm.
Qed.

(** One round of the loop of build mode's [resolveChangedFiles]. *)
Lemma scan_round (ref : nat) (c0 : list string) (x : string) (w : world) :
  is_Some (files (node w) !! x) →
  ∃ w',
    (w0 ← get_world;
     let prevModified :=
       match modified_map ref w0 !! x with
       | Some t => Num t
       | None => NegInfinity
       end in
     modified ← fs_statSync x;
     if num_gt (Num modified) prevModified then
       _ ← map_set ref x modified;
       mret (set_add x c0)
     else mret c0) w =
      Ok (scan_step (files (node w)) (c0, modified_map ref w) x).1 w' ∧
    modified_map ref w' =
      (scan_step (files (node w)) (c0, modified_map ref w) x).2 ∧
    scan_frame ref [EvStat x] w w'.
Proof.
  intros [f Hf]. rewrite bind_get_world. cbv zeta.
  assert (Hm : mtime_of (files (node w)) x = mtimeMs f)
    by (unfold mtime_of; by rewrite Hf).
  erewrite bind_Ok by (unfold fs_statSync; by rewrite Hf).
  unfold scan_step, is_newer. cbn [fst snd]. rewrite Hm.
  destruct (num_gt _ _).
  - eexists. split; [reflexivity|]. split.
    + unfold modified_map at 1. cbn. by rewrite lookup_insert_eq.
    + unfold scan_frame. cbn. repeat split; try done.
      all: try (by destruct w as [[] ? ? ?]).
      intros k Hk. by rewrite lookup_insert_ne.
  - eexists. split; [reflexivity|]. split; [done|].
    unfold scan_frame. cbn. repeat split; try done.
    all: try (by destruct w as [[] ? ? ?]).
Qed.

(** The whole loop. *)
Lemma scan_loop (ref : nat) (found : list string) (c0 : list string)
    (w : world) :
  (∀ f, f ∈ found → is_Some (files (node w) !! f)) →
  ∃ w',
    fold_of found c0 (λ changedFiles file,
      w0 ← get_world;
      let prevModified :=
        match modified_map ref w0 !! file with
        | Some t => Num t
        | None => NegInfinity
        end in
      modified ← fs_statSync file;
      if num_gt (Num modified) prevModified then
        _ ← map_set ref file modified;
        mret (set_add file changedFiles)
      else mret changedFiles) w =
      Ok (scan (files (node w)) found (c0, modified_map ref w)).1 w' ∧
    modified_map ref w' =
      (scan (files (node w)) found (c0, modified_map ref w)).2 ∧
    scan_frame ref (reverse (EvStat <$> found)) w w'.
Proof.
  revert c0 w. induction found as [|x found IH]; intros c0 w Hall.
  - exists w. split; [done|]. split; [done|]. apply scan_frame_refl.
  - destruct (scan_round ref c0 x w) as (w1 & Hr & Hm1 & Hf1);
      [apply Hall; by left|].
    assert (Hfs : files (node w1) = files (node w)).
    { destruct Hf1 as (-> & _). done. }
    destruct (IH (scan_step (files (node w)) (c0, modified_map ref w) x).1 w1)
      as (w2 & Hr2 & Hm2 & Hf2).
    { intros f Hin. rewrite Hfs. apply Hall. by right. }
    exists w2. rewrite fold_of_cons.
    rewrite (bind_Ok _ _ _ _ _ Hr), Hr2.
    rewrite Hm2, Hfs, Hm1.
    cbn [scan foldl]. rewrite <- surjective_pairing.
    split; [done|]. split; [done|].
    rewrite fmap_cons, reverse_cons.
    by apply (scan_frame_trans _ _ _ _ w1).
Qed.

Lemma read_context_Ok (context : nat) (c : context_obj) (w : world) :
  contexts (utils w) !! context = Some c → read_context context w = Ok c w.
Proof.
  intros Hc. unfold read_context. rewrite bind_get_world. by rewrite Hc.
Qed.

(** The loop that reads the changed files, the same in both modes. *)
Lemma read_loop (l : list string) (acc : list changed) (w : world) :
  (∀ f, f ∈ l → is_Some (files (node w) !! f)) →
  fold_of l acc (λ changedContent changedFile,
    content ← fs_readFileSync changedFile;
    let extension := slice1 (path_extname changedFile) in
    mret (changedContent ++ [Changed content (Some extension)])) w =
    Ok (acc ++ (file_record (files (node w)) <$> l))
       (on_node (emits (reverse (EvReadFile <$> l))) w).
Proof.
  revert acc w. induction l as [|x l IH]; intros acc w Hall.
  - cbn. rewrite app_nil_r. by destruct w as [[] ? ? ?].
  - destruct (Hall x) as [f Hf]; [by left|].
    rewrite fold_of_cons.
    erewrite bind_Ok by (unfold fs_readFileSync, mbind, M_bind; by rewrite Hf).
    rewrite IH by (intros g Hg; apply Hall; by right).
    rewrite !fmap_cons, reverse_cons, on_node_emits_cons.
    cbn [node on_node files emit]. rewrite <- app_assoc.
    unfold file_record at 2. by rewrite Hf.
Qed.

Lemma scan_subset fs found m f :
  f ∈ (scan fs found ([], m)).1 → f ∈ found.
Proof.
  rewrite scan_changed. intros [Hn|[Hin _]]; [|done].
  by apply elem_of_nil in Hn.
Qed.

(** Build mode's [resolveChangedFiles] and [resolvedChangedContent] when
    the files found by the glob exist: the result and the map are those
    of the pure scan. *)
Lemma tracking_changed_files (candidateFiles : list string) (ref : nat)
    (w : world) :
  let found := fastGlob_sync (files (node w)) candidateFiles in
  let st := scan (files (node w)) found ([], modified_map ref w) in
  (∀ f, f ∈ found → is_Some (files (node w) !! f)) →
  ∃ w',
    Tracking.resolveChangedFiles candidateFiles ref w = Ok st.1 w' ∧
    modified_map ref w' = st.2 ∧
    scan_frame ref (reverse (EvStat <$> found)) w w'.
Proof.
  intros found st Hall. unfold Tracking.resolveChangedFiles.
  rewrite bind_get_world. by apply scan_loop.
Qed.

Lemma tracking_changed_content (context ref : nat)
    (candidateFiles : list string) (w : world) (cobj : context_obj)
    (cfg : config) :
  let found := fastGlob_sync (files (node w)) candidateFiles in
  let st := scan (files (node w)) found ([], modified_map ref w) in
  contexts (utils w) !! context = Some cobj →
  tailwindConfig cobj = Some cfg →
  (∀ f, f ∈ found → is_Some (files (node w) !! f)) →
  ∃ w',
    Tracking.resolvedChangedContent context candidateFiles ref w =
      Ok (raw_content (purge_content (value cfg)) ++
          (file_record (files (node w)) <$> st.1)) w' ∧
    modified_map ref w' = st.2 ∧
    scan_frame ref
      (reverse (EvReadFile <$> st.1) ++ reverse (EvStat <$> found)) w w'.
Proof.
  intros found st Hc Hcfg Hall.
  destruct (tracking_changed_files candidateFiles ref w Hall)
    as (w1 & Hscan & Hm & Hfr).
  fold found st in Hscan, Hm, Hfr.
  assert (Hfs : files (node w1) = files (node w)).
  { destruct Hfr as (-> & _). done. }
  eexists. split; [|split].
  - unfold Tracking.resolvedChangedContent.
    rewrite (bind_Ok _ _ _ _ _ (read_context_Ok _ _ _ Hc)).
    rewrite Hcfg. cbn [defined]. rewrite bind_mret.
    rewrite (bind_Ok _ _ _ _ _ Hscan).
    rewrite read_loop; [by rewrite Hfs|].
    intros f Hf. rewrite Hfs. apply Hall. by apply scan_subset in Hf.
  - done.
  - eapply scan_frame_trans; [exact Hfr|].
    unfold scan_frame. cbn. done.
Qed.

(** C6.  For every file found by expanding the candidates: build mode's
    [resolveChangedFiles] reports it exactly when its modification time
    is strictly greater than the map's entry, an absent entry counting
    as [-Infinity]; the entry of a reported file becomes its
    modification time and the entry of any other file stays as it was;
    and [resolvedChangedContent] reads exactly the reported files. *)
Theorem changed_files_scan (context ref : nat)
    (candidateFiles : list string) (w : world) (cobj : context_obj)
    (cfg : config) :
  let fs := files (node w) in
  let found := fastGlob_sync fs candidateFiles in
  let m := modified_map ref w in
  (∀ f, f ∈ found → is_Some (fs !! f)) →
  (∃ changedFiles w',
     Tracking.resolveChangedFiles candidateFiles ref w =
       Ok changedFiles w' ∧
     ∀ f, f ∈ found →
       (f ∈ changedFiles ↔ is_newer fs m f = true) ∧
       modified_map ref w' !! f =
         (if is_newer fs m f then Some (mtime_of fs f) else m !! f))
  ∧
  (contexts (utils w) !! context = Some cobj →
   tailwindConfig cobj = Some cfg →
   ∃ out w' evs,
     Tracking.resolvedChangedContent context candidateFiles ref w =
       Ok out w' ∧
     new_events w w' evs ∧
     ∀ f, f ∈ found → (EvReadFile f ∈ evs ↔ is_newer fs m f = true)).
Proof.
  intros fs found m Hall. split.
  - destruct (tracking_changed_files candidateFiles ref w Hall)
      as (w' & Hscan & Hm & _).
    eexists _, w'. split; [exact Hscan|].
    intros f Hf. split.
    + rewrite scan_changed. split.
      * intros [Hn|[_ ?]]; [by apply elem_of_nil in Hn|done].
      * intros Hn. right. by split.
    + rewrite Hm, scan_map. fold fs found m.
      destruct (is_newer fs m f) eqn:Hn.
      * by rewrite decide_True.
      * rewrite decide_False; [done|]. by intros [_ ?].
  - intros Hc Hcfg.
    destruct (tracking_changed_content context ref candidateFiles w cobj cfg
                Hc Hcfg Hall) as (w' & Hrun & _ & Hfr).
    eexists _, w', _. split; [exact Hrun|]. split.
    + unfold new_events. destruct Hfr as (-> & _). cbn. reflexivity.
    + intros f Hf. rewrite elem_of_app, !elem_of_reverse, !list_elem_of_fmap.
      fold fs found m. split.
      * intros [(g & [= <-] & Hg)|(g & [=] & _)].
        apply scan_changed in Hg as [Hn|[_ ?]]; [|done].
        by apply elem_of_nil in Hn.
      * intros Hn. left. exists f. split; [done|].
        apply scan_changed. right. by split.
Qed.
End ScanFacts.

(** ** Loops that only record or only push *)
Section LoopFacts.
Context `{Externals}.

Lemma for_of_ext {A} (l : list A) (body body' : A → M unit) (w : world) :
  (∀ x w, x ∈ l → body x w = body' x w) →
  for_of l body w = for_of l body' w.
Proof.
  revert w. induction l as [|x l IH]; intros w Hext; [done|].
  rewrite !for_of_cons. unfold mbind, M_bind.
  rewrite Hext by by left. destruct (body' x w); [|done].
  apply IH. intros y w' Hy. apply Hext. by right.
Qed.

Lemma for_of_emit {A} (l : list A) (ev : A → event) (w : world) :
  for_of l (λ x, modify (on_node (emit (ev x)))) w =
    Ok tt (on_node (emits (reverse (ev <$> l))) w).
Proof.
  revert w. induction l as [|x l IH]; intros w.
  - cbn. by rewrite on_node_emits_nil.
  - rewrite for_of_cons. erewrite bind_Ok by reflexivity. rewrite IH.
    by rewrite fmap_cons, reverse_cons, on_node_emits_cons.
Qed.

(** Registering the candidate files as dependencies. *)
Lemma register_candidates (candidateFiles : list string) (w : world) :
  ∃ evs,
    for_of candidateFiles (λ maybeGlob,
      if isGlob maybeGlob then
        registerDependency
          (JStr (path_resolve [globParent maybeGlob]))
          (Some (if bool_decide (env_ROLLUP_WATCH = Some "true")
                 then "dependency" else "dir-dependency"))
      else
        registerDependency (JStr (path_resolve [maybeGlob])) None) w =
    Ok tt (on_node (emits evs) w).
Proof.
  eexists.
  rewrite (for_of_ext _ _ (λ x, modify (on_node (emit
    (if isGlob x
     then EvRegister (JStr (path_resolve [globParent x]))
            (Some (if bool_decide (env_ROLLUP_WATCH = Some "true")
                   then "dependency" else "dir-dependency"))
     else EvRegister (JStr (path_resolve [x])) None))))).
  - apply for_of_emit.
  - intros x w' _. by destruct (isGlob x).
Qed.

Lemma register_files {A} (l : list A) (f : A → jsval) (w : world) :
  for_of l (λ file, registerDependency (f file) None) w =
    Ok tt (on_node (emits (reverse ((λ x, EvRegister (f x) None) <$> l))) w).
Proof. apply (for_of_emit l (λ x, EvRegister (f x) None)). Qed.

(** Pushing a list of records on [context.changedContent]. *)
Lemma push_loop (context : nat) (out : list changed) (w : world) :
  for_of out (push_changedContent context) w =
    Ok tt (on_utils (λ u,
      set_contexts (alter (pushed out) context (contexts u)) u) w).
Proof.
  revert w. induction out as [|x out IH]; intros w.
  - cbn. f_equal. destruct w as [? [] ? ?]. unfold on_utils, set_contexts.
    cbn. f_equal. f_equal. symmetry. apply alter_id.
    intros [] _. unfold pushed. cbn. by rewrite app_nil_r.
  - rewrite for_of_cons. erewrite bind_Ok by reflexivity. rewrite IH.
    f_equal. destruct w as [? [] ? ?]. unfold on_utils, set_contexts.
    cbn. f_equal. f_equal. rewrite alter_alter_eq.
    apply alter_ext. intros [] _. unfold pushed. cbn.
    by rewrite <- app_assoc.
Qed.
End LoopFacts.

(** ** The context cache and the per-context tables *)
Section ContextFacts.
Context `{Externals}.

Lemma for_of_preserves {A} (R : world → world → Prop) (l : list A)
    (body : A → M unit) (w w' : world) :
  (∀ w, R w w) →
  (∀ w1 w2 w3, R w1 w2 → R w2 w3 → R w1 w3) →
  (∀ x w w', body x w = Ok tt w' → R w w') →
  for_of l body w = Ok tt w' → R w w'.
Proof.
  intros Hrefl Htrans Hbody. revert w.
  induction l as [|x l IH]; intros w Hrun.
  - injection Hrun as <-. apply Hrefl.
  - rewrite for_of_cons in Hrun.
    apply bind_inv in Hrun as ([] & w1 & Hb & Hrest).
    eapply Htrans; [by apply Hbody in Hb|by apply IH].
Qed.

Lemma dispose_frame_refl w : dispose_frame w w.
Proof. by unfold dispose_frame. Qed.

Lemma dispose_frame_trans w1 w2 w3 :
  dispose_frame w1 w2 → dispose_frame w2 w3 → dispose_frame w1 w3.
Proof. unfold dispose_frame. intros ? ?. intuition congruence. Qed.

Lemma run_disposable_frame (old : nat) (d : disposable) (w w' : world) :
  run_disposable old d w = Ok tt w' → dispose_frame w w'.
Proof.
  destruct d. unfold run_disposable. rewrite bind_get_world.
  destruct (watchers (watching w) !! old).
  - intros [= <-]. by unfold dispose_frame.
  - intros [= <-]. apply dispose_frame_refl.
Qed.

Lemma cache_lookup_head (id : identity) (context : nat)
    (l : list (identity * nat)) :
  cache_lookup id ((id, context) :: l) = Some context.
Proof. unfold cache_lookup. cbn. by rewrite decide_True. Qed.

Lemma getContext_hit dirs result cfg path hash deps context w :
  cache_lookup (opts_from result, dirs, hash, deps)
    (contextCache (utils w)) = Some context →
  getContext dirs result cfg path hash deps w = Ok (context, false) w.
Proof.
  intros Hc. unfold getContext. rewrite bind_get_world. by rewrite Hc.
Qed.

(** After [getContext] the cache answers the identity with the context
    that was returned; only the contexts, the context cache, the
    allocator, the watchers and the trace may have changed. *)
Lemma getContext_inv dirs result cfg path hash deps context b w w' :
  getContext dirs result cfg path hash deps w = Ok (context, b) w' →
  cache_lookup (opts_from result, dirs, hash, deps)
    (contextCache (utils w')) = Some context ∧
  files (node w') = files (node w) ∧
  tracking w' = tracking w ∧
  fileModifiedMapCache (utils w') = fileModifiedMapCache (utils w) ∧
  w_candidateFilesCache (watching w') = w_candidateFilesCache (watching w) ∧
  w_configPathCache (watching w') = w_configPathCache (watching w) ∧
  scannedContentCache (watching w') = scannedContentCache (watching w) ∧
  (if b then contexts (utils w') !! context = Some (Context cfg [] [])
   else w' = w).
Proof.
  unfold getContext. rewrite bind_get_world.
  destruct (cache_lookup _ _) as [ctx|] eqn:Hc.
  - intros [= <- <- <-]. by repeat split.
  - intros Hrun. apply bind_inv in Hrun as ([] & w1 & Hloop & Hrun).
    rewrite bind_get_world, bind_modify in Hrun.
    injection Hrun as <- <- <-.
    assert (Hfr : dispose_frame w w1).
    { revert Hloop. apply for_of_preserves.
      - apply dispose_frame_refl.
      - apply dispose_frame_trans.
      - intros e w2 w3 Hb. apply bind_inv in Hb as (c & w4 & Hr & Hd).
        unfold read_context in Hr. rewrite bind_get_world in Hr.
        destruct (contexts (utils w2) !! e.2); [|done].
        injection Hr as <- <-. revert Hd. apply for_of_preserves.
        + apply dispose_frame_refl.
        + apply dispose_frame_trans.
        + intros d. apply run_disposable_frame. }
    destruct Hfr as (Hf & _ & _ & _ & Hu & Ht & _ & _ & Hcp & _ & Hcf
                     & Hsc & _).
    simpl. rewrite Hu. simpl. rewrite cache_lookup_head, lookup_insert_eq.
    by repeat split.
Qed.

Lemma getCandidateFiles_hit context path cfg candidateFiles w :
  t_candidateFilesCache (tracking w) !! context = Some candidateFiles →
  Tracking.getCandidateFiles context path cfg w = Ok candidateFiles w.
Proof.
  intros Hc. unfold Tracking.getCandidateFiles.
  rewrite bind_get_world. by rewrite Hc.
Qed.

Lemma getCandidateFiles_inv context path cfg candidateFiles w w' :
  Tracking.getCandidateFiles context path cfg w = Ok candidateFiles w' →
  t_candidateFilesCache (tracking w') !! context = Some candidateFiles ∧
  t_configPathCache (tracking w') = t_configPathCache (tracking w) ∧
  node w' = node w ∧ utils w' = utils w ∧ watching w' = watching w.
Proof.
  unfold Tracking.getCandidateFiles. rewrite bind_get_world.
  destruct (t_candidateFilesCache (tracking w) !! context) eqn:Hc.
  - intros [= <- <-]. by repeat split.
  - destruct cfg as [cfg|]; [|done]. cbn [defined].
    rewrite bind_mret, bind_modify. intros [= <- <-].
    cbn. rewrite lookup_insert_eq. by repeat split.
Qed.

Lemma getFileModifiedMap_run (context : nat) (w : world) :
  ∃ w',
    getFileModifiedMap context w = Ok context w' ∧
    modified_map context w' = modified_map context w ∧
    scan_frame context [] w w'.
Proof.
  unfold getFileModifiedMap. rewrite bind_get_world.
  destruct (fileModifiedMapCache (utils w) !! context) eqn:Hm.
  - exists w. split; [done|]. split; [done|]. apply scan_frame_refl.
  - rewrite bind_modify. eexists. split; [reflexivity|]. split.
    + unfold modified_map. cbn. by rewrite lookup_insert_eq, Hm.
    + unfold scan_frame. cbn. rewrite emits_nil. repeat split; try done.
      intros k Hk. by rewrite lookup_insert_ne.
Qed.

(** Nothing is newer: the scan reports nothing and keeps the map. *)
Lemma scan_quiet fs found m :
  (∀ f, f ∈ found → is_newer fs m f = false) →
  scan fs found ([], m) = ([], m).
Proof.
  induction found as [|x found IH]; intros Hq; [done|].
  cbn [scan foldl]. fold (scan fs found (scan_step fs ([], m) x)).
  unfold scan_step. cbn [fst snd].
  rewrite Hq by by left. apply IH. intros f Hf. apply Hq. by right.
Qed.

(** After a scan nothing is newer. *)
Lemma scan_settles fs found c0 m0 f :
  is_newer fs (scan fs found (c0, m0)).2 f = true → f ∉ found.
Proof.
  unfold is_newer at 1. rewrite scan_map.
  case_decide as Hd.
  - cbn. intros Hgt. apply bool_decide_eq_true in Hgt. lia.
  - intros Hn Hin. apply Hd. by split.
Qed.

(** A second load on the same files, with the cache as the first load
    left it, gives the same path, hash and dependencies. *)
Lemma tracking_loader_again (c : config_or_path) (w0 wa w1 : world)
    (r : option config * option string * option string
         * option (list string)) :
  Tracking.getTailwindConfig c w0 = Ok r wa →
  files (node w1) = files (node w0) →
  t_configPathCache (tracking w1) = t_configPathCache (tracking wa) →
  ∃ r' w1',
    Tracking.getTailwindConfig c w1 = Ok r' w1' ∧
    r'.1.1.2 = r.1.1.2 ∧ r'.1.2 = r.1.2 ∧ r'.2 = r.2 ∧
    files (node w1') = files (node w1) ∧
    utils w1' = utils w1 ∧
    t_candidateFilesCache (tracking w1') =
      t_candidateFilesCache (tracking w1).
Proof.
  intros Hrun Hfs Hcache.
  destruct (resolveConfigPath (files (node w0)) c) as [p|] eqn:Hp.
  - destruct (tracking_loader_inv c p w0 wa r Hp Hrun)
      as (Hall & _ & _ & _ & _ & _ & _ & -> & Hset).
    rewrite <- Hcache in *. rewrite <- Hfs in *.
    eexists _, _. split; [by apply (tracking_loader_fast c p w1 Hp)|].
    by repeat split.
  - rewrite (tracking_inline_run c w0 Hp) in Hrun.
    injection Hrun as <- <-. rewrite <- Hfs in Hp.
    eexists _, _. split; [exact (tracking_inline_run c w1 Hp)|].
    by repeat split.
Qed.
End ContextFacts.

(** ** A build-mode request *)
Section RequestFacts.
Context `{Externals}.

Lemma scan_loop_inv (ref : nat) (found c0 c1 : list string) (w w' : world) :
  fold_of found c0 (λ changedFiles file,
    w0 ← get_world;
    let prevModified :=
      match modified_map ref w0 !! file with
      | Some t => Num t
      | None => NegInfinity
      end in
    modified ← fs_statSync file;
    if num_gt (Num modified) prevModified then
      _ ← map_set ref file modified;
      mret (set_add file changedFiles)
    else mret changedFiles) w = Ok c1 w' →
  ∀ f, f ∈ found → is_Some (files (node w) !! f).
Proof.
  revert c0 w. induction found as [|x found IH]; intros c0 w Hrun f Hf.
  - by apply elem_of_nil in Hf.
  - rewrite fold_of_cons in Hrun.
    apply bind_inv in Hrun as (c & w1 & Hb & Hrest).
    rewrite bind_get_world in Hb. cbv zeta in Hb.
    apply bind_inv in Hb as (t & w0 & Hst & Hb).
    unfold fs_statSync in Hst.
    destruct (files (node w) !! x) as [g|] eqn:Hx; [|done].
    injection Hst as <- <-.
    assert (Hfs : files (node w1) = files (node w)).
    { destruct (num_gt _ _).
      - apply bind_inv in Hb as ([] & w5 & Hms & Hb).
        injection Hms as <-. by injection Hb as <- <-.
      - by injection Hb as <- <-. }
    apply elem_of_cons in Hf as [->|Hf]; [by rewrite Hx|].
    rewrite <- Hfs. by apply (IH _ _ Hrest).
Qed.

(** What a successful run of the guarded part needed. *)
Lemma tracking_block_inv (context : nat) (candidateFiles : list string)
    (w w' : world) :
  tracking_block context candidateFiles w = Ok tt w' →
  ∃ cobj cfg,
    contexts (utils w) !! context = Some cobj ∧
    tailwindConfig cobj = Some cfg ∧
    ∀ f, f ∈ fastGlob_sync (files (node w)) candidateFiles →
         is_Some (files (node w) !! f).
Proof.
  unfold tracking_block. intros Hrun.
  destruct (getFileModifiedMap_run context w) as (w1 & Hg & _ & Hf1).
  rewrite (bind_Ok _ _ _ _ _ Hg) in Hrun.
  destruct (register_candidates candidateFiles w1) as (evs & Hr).
  rewrite (bind_Ok _ _ _ _ _ Hr) in Hrun.
  apply bind_inv in Hrun as (out & w2 & Hc & _).
  unfold Tracking.resolvedChangedContent in Hc.
  apply bind_inv in Hc as (cobj & w3 & Hread & Hc).
  unfold read_context in Hread. rewrite bind_get_world in Hread.
  assert (Hctx : contexts (utils w1) = contexts (utils w))
    by by destruct Hf1 as (_ & -> & _).
  assert (Hfs : files (node w1) = files (node w))
    by by destruct Hf1 as (-> & _).
  cbn [utils on_node] in Hread. rewrite Hctx in Hread.
  destruct (contexts (utils w) !! context) as [cobj'|] eqn:Hco; [|done].
  injection Hread as <- <-.
  destruct (tailwindConfig cobj') as [cfg|] eqn:Hcfg; [|done].
  cbn [defined] in Hc. rewrite bind_mret in Hc.
  apply bind_inv in Hc as (ch & w4 & Hscan & _).
  unfold Tracking.resolveChangedFiles in Hscan.
  rewrite bind_get_world in Hscan.
  exists cobj', cfg. split; [done|]. split; [done|].
  intros f Hf. cbn [node on_node files emits] in Hscan.
  rewrite Hfs in Hscan.
  apply (scan_loop_inv _ _ _ _ _ _ Hscan) in Hf.
  cbn in Hf. by rewrite Hfs in Hf.
Qed.

(** What the guarded part does. *)
Lemma tracking_block_run (context : nat) (candidateFiles : list string)
    (w : world) (cobj : context_obj) (cfg : config) :
  let fs := files (node w) in
  let found := fastGlob_sync fs candidateFiles in
  let st := scan fs found ([], modified_map context w) in
  contexts (utils w) !! context = Some cobj →
  tailwindConfig cobj = Some cfg →
  (∀ f, f ∈ found → is_Some (fs !! f)) →
  ∃ w',
    tracking_block context candidateFiles w = Ok tt w' ∧
    files (node w') = fs ∧
    tracking w' = tracking w ∧
    contextCache (utils w') = contextCache (utils w) ∧
    contexts (utils w') =
      alter (pushed (raw_content (purge_content (value cfg)) ++
                     (file_record fs <$> st.1)))
        context (contexts (utils w)) ∧
    modified_map context w' = st.2.
Proof.
  intros fs found st Hco Hcfg Hall. unfold tracking_block.
  destruct (getFileModifiedMap_run context w) as (w1 & Hg & Hm1 & Hf1).
  rewrite (bind_Ok _ _ _ _ _ Hg).
  destruct (register_candidates candidateFiles w1) as (evs & Hr).
  rewrite (bind_Ok _ _ _ _ _ Hr).
  set (w2 := on_node (emits evs) w1).
  assert (Hfs : files (node w2) = fs).
  { subst w2. cbn. by destruct Hf1 as (-> & _). }
  assert (Hctx : contexts (utils w2) = contexts (utils w)).
  { subst w2. cbn. by destruct Hf1 as (_ & -> & _). }
  assert (Hm2 : modified_map context w2 = modified_map context w) by done.
  destruct (tracking_changed_content context context candidateFiles w2
              cobj cfg) as (w3 & Hc & Hm3 & Hf3).
  { by rewrite Hctx. }
  { done. }
  { rewrite Hfs. exact Hall. }
  rewrite Hfs, Hm2 in Hc, Hm3, Hf3. fold found st in Hc, Hm3, Hf3.
  rewrite (bind_Ok _ _ _ _ _ Hc), push_loop.
  eexists. split; [reflexivity|].
  destruct Hf3 as (Hn3 & Hc3 & Hcc3 & _ & Ht3 & _).
  destruct Hf1 as (Hn1 & _ & Hcc1 & _ & Ht1 & _).
  cbn. rewrite Hn3, Hc3, Hcc3, Ht3. cbn. rewrite Hn1, Hcc1, Ht1.
  fold fs. rewrite <- Hctx. by repeat split.
Qed.

Lemma tracking_loader_frame (c : config_or_path) (w wa : world)
    (r : option config * option string * option string
         * option (list string)) :
  Tracking.getTailwindConfig c w = Ok r wa →
  files (node wa) = files (node w) ∧ utils wa = utils w ∧
  t_candidateFilesCache (tracking wa) = t_candidateFilesCache (tracking w).
Proof.
  intros Hrun.
  destruct (resolveConfigPath (files (node w)) c) as [p|] eqn:Hp.
  - destruct (tracking_loader_inv c p w wa r Hp Hrun)
      as (_ & ? & _ & ? & _ & ? & _). done.
  - rewrite (tracking_inline_run c w Hp) in Hrun.
    by injection Hrun as <- <-.
Qed.

(** C1, as the code has it.  A second build-mode request on the world
    the first one left behind returns the same context; what it appends
    to [changedContent] is the list of the inline raw-content records of
    the context's configuration when the source has directives, and
    nothing when it has none.  No record of a file is appended. *)
Theorem build_request_twice (c : config_or_path) (dirs : gset string)
    (result : postcss_result) (w0 w1 : world) (context : nat) :
  Tracking.setupTrackingContext c dirs result w0 = Ok context w1 →
  ∃ w2,
    Tracking.setupTrackingContext c dirs result w1 = Ok context w2 ∧
    changed_of w2 context =
      changed_of w1 context ++
        (if bool_decide (0 < size dirs)%nat then context_raw w1 context
         else []).
Proof.
  intros Hrun. unfold Tracking.setupTrackingContext in Hrun.
  apply bind_inv in Hrun as (r & wa & Hload & Hrun). cbv zeta in Hrun.
  apply bind_inv in Hrun as ([ctx b] & wb & Hctx & Hrun).
  cbn [fst snd] in Hrun.
  apply bind_inv in Hrun as (cands & wc & Hcand & Hrun).
  apply bind_inv in Hrun as ([] & wd & Hblock & Hrun).
  apply bind_inv in Hrun as (deps & wd' & Hdef & Hrun).
  apply bind_inv in Hrun as ([] & we & Hreg & Hrun).
  injection Hrun as <- <-.
  destruct (tracking_loader_frame _ _ _ _ Hload) as (Hfa & Hua & Hca).
  destruct (getContext_inv _ _ _ _ _ _ _ _ _ _ Hctx)
    as (Hlk & Hfb & Htb & Hmb & _).
  destruct (getCandidateFiles_inv _ _ _ _ _ _ Hcand)
    as (Hcc & Hcp & Hnc & Huc & _).
  destruct r.2 as [deps'|] eqn:Hr2; [|done]. injection Hdef as <- <-.
  rewrite register_files in Hreg. injection Hreg as <-.
  set (regs := reverse ((λ x, EvRegister (JStr x) None) <$> deps')) in *.
  (* what the guarded part of the first request left behind *)
  assert (Hd : files (node wd) = files (node wc) ∧
               tracking wd = tracking wc ∧
               contextCache (utils wd) = contextCache (utils wc) ∧
               (bool_decide (0 < size dirs)%nat = true →
                ∃ cobj cfg,
                  contexts (utils wd) !! ctx = Some cobj ∧
                  tailwindConfig cobj = Some cfg ∧
                  (∀ f, f ∈ fastGlob_sync (files (node wc)) cands →
                        is_Some (files (node wc) !! f) ∧
                        is_newer (files (node wc)) (modified_map ctx wd) f
                          = false))).
  { destruct (bool_decide (0 < size dirs)%nat) eqn:Hdirs.
    - fold (tracking_block ctx cands) in Hblock.
      destruct (tracking_block_inv _ _ _ _ Hblock)
        as (cobj & cfg & Hco & Hcfg & Hall).
      destruct (tracking_block_run ctx cands wc cobj cfg Hco Hcfg Hall)
        as (w' & Hb & Hf' & Ht' & Hcc' & Hc' & Hm').
      rewrite Hb in Hblock. injection Hblock as <-.
      repeat split; try done. intros _.
      exists (pushed (raw_content (purge_content (value cfg)) ++
                (file_record (files (node wc)) <$>
                   (scan (files (node wc))
                      (fastGlob_sync (files (node wc)) cands)
                      ([], modified_map ctx wc)).1)) cobj), cfg.
      split; [by rewrite Hc', lookup_alter_eq, Hco|].
      split; [done|]. intros f Hf. split; [by apply Hall|].
      rewrite Hm'. destruct (is_newer _ _ f) eqn:Hn; [|done].
      by apply scan_settles in Hn.
    - injection Hblock as <-. repeat split; try done. }
  destruct Hd as (Hfd & Htd & Hccd & Hdirs).
  (* the second request *)
  set (we := on_node (emits regs) wd) in *.
  assert (Hfe : files (node we) = files (node w0)).
  { subst we. cbn. rewrite Hfd, Hnc, Hfb. exact Hfa. }
  assert (Hce : t_configPathCache (tracking we) =
                t_configPathCache (tracking wa)).
  { subst we. cbn. rewrite Htd, Hcp. by rewrite Htb. }
  destruct (tracking_loader_again c w0 wa we r Hload Hfe Hce)
    as (r' & w1a & Hload2 & Hpath & Hhash & Hdeps & Hf1a & Hu1a & Hc1a).
  unfold Tracking.setupTrackingContext.
  rewrite (bind_Ok _ _ _ _ _ Hload2). cbv zeta.
  rewrite Hhash, Hdeps, Hpath, Hr2.
  assert (Hlk2 : cache_lookup
            (opts_from result, dirs, r.1.2,
             contextDependencies (JStr <$> default [] (Some deps')) dirs
               result)
            (contextCache (utils w1a)) = Some ctx).
  { rewrite Hu1a. subst we. cbn. by rewrite Hccd, Huc. }
  rewrite (bind_Ok _ _ _ _ _ (getContext_hit _ _ _ _ _ _ _ _ Hlk2)).
  cbn [fst snd].
  assert (Hcc2 : t_candidateFilesCache (tracking w1a) !! ctx = Some cands).
  { rewrite Hc1a. subst we. cbn. by rewrite Htd. }
  rewrite (bind_Ok _ _ _ _ _ (getCandidateFiles_hit _ _ _ _ _ Hcc2)).
  destruct (bool_decide (0 < size dirs)%nat) eqn:Hnonempty.
  - destruct (Hdirs eq_refl) as (cobj & cfg & Hco & Hcfg & Hall).
    fold (tracking_block ctx cands).
    assert (Hf1c : files (node w1a) = files (node wc)).
    { rewrite Hf1a. subst we. cbn. exact Hfd. }
    assert (Hm1 : modified_map ctx w1a = modified_map ctx wd).
    { unfold modified_map. rewrite Hu1a. by subst we. }
    destruct (tracking_block_run ctx cands w1a cobj cfg)
      as (w2 & Hb & _ & _ & _ & Hc2 & _).
    { rewrite Hu1a. by subst we. }
    { done. }
    { rewrite Hf1c. intros f Hf. by apply Hall. }
    rewrite (bind_Ok _ _ _ _ _ Hb). cbn [defined]. rewrite bind_mret.
    rewrite (bind_Ok _ _ _ _ _ (register_files deps' JStr w2)).
    eexists. split; [reflexivity|].
    unfold changed_of, context_raw. cbn. rewrite Hc2, lookup_alter_eq.
    rewrite Hu1a. subst we. cbn. rewrite Hco. cbn. rewrite Hcfg.
    rewrite Hf1c, Hm1, scan_quiet by (intros f Hf; by apply Hall).
    cbn. by rewrite app_nil_r.
  - rewrite bind_mret. cbn [defined]. rewrite bind_mret.
    rewrite (bind_Ok _ _ _ _ _ (register_files deps' JStr w1a)).
    eexists. split; [reflexivity|].
    unfold changed_of. cbn. rewrite Hu1a, app_nil_r. by subst we.
Qed.
End RequestFacts.

(** Build-mode requests on the demo world. *)
Section RequestWitnesses.
#[local] Existing Instance Demo.demo_externals.

Lemma build_request_twice_witness :
  let w1 :=
    Demo.after (Tracking.setupTrackingContext Demo.demo_config
                  Demo.demo_directives Demo.demo_result) Demo.demo_world in
  ∃ w2,
    Tracking.setupTrackingContext Demo.demo_config Demo.demo_directives
      Demo.demo_result w1 = Ok 1%nat w2 ∧
    changed_of w2 1%nat =
      changed_of w1 1%nat ++
        (if bool_decide (0 < size Demo.demo_directives)%nat
         then context_raw w1 1%nat else []).
Proof.
  intros w1.
  apply (build_request_twice (H := Demo.demo_externals) Demo.demo_config
           Demo.demo_directives Demo.demo_result Demo.demo_world w1 1%nat).
  vm_compute. reflexivity.
Defined.

(** C1, counterexample.  The configuration of the demo world has one
    inline raw-content entry; nothing on disk changes between two
    build-mode requests, yet the second one appends that entry again. *)
Lemma second_build_request_appends_raw_content :
  ∃ context w1 w2,
    Tracking.setupTrackingContext Demo.demo_config Demo.demo_directives
      Demo.demo_result Demo.demo_world = Ok context w1 ∧
    Tracking.setupTrackingContext Demo.demo_config Demo.demo_directives
      Demo.demo_result w1 = Ok context w2 ∧
    files (node w1) = files (node Demo.demo_world) ∧
    changed_of w2 context =
      changed_of w1 context ++ [Changed "<div class='p-4'>" (Some "html")] ∧
    changed_of w2 context ≠ changed_of w1 context.
Proof.
  eexists _, _, _.
  split; [vm_compute; reflexivity|].
  split; [vm_compute; reflexivity|].
  split; [vm_compute; reflexivity|].
  split; [vm_compute; reflexivity|].
  vm_compute. discriminate.
Qed.

Lemma changed_files_scan_witness :
  let w := Demo.edited_world in
  let fs := files (node w) in
  let found := fastGlob_sync fs ["/proj/src/a.html"] in
  let m := modified_map 1%nat w in
  (∃ changedFiles w',
     Tracking.resolveChangedFiles ["/proj/src/a.html"] 1%nat w =
       Ok changedFiles w' ∧
     ∀ f, f ∈ found →
       (f ∈ changedFiles ↔ is_newer fs m f = true) ∧
       modified_map 1%nat w' !! f =
         (if is_newer fs m f then Some (mtime_of fs f) else m !! f))
  ∧
  (∃ out w' evs,
     Tracking.resolvedChangedContent 1%nat ["/proj/src/a.html"] 1%nat w =
       Ok out w' ∧
     new_events w w' evs ∧
     ∀ f, f ∈ found → (EvReadFile f ∈ evs ↔ is_newer fs m f = true)).
Proof.
  intros w fs found m.
  assert (Hall : ∀ f, f ∈ found → is_Some (fs !! f)).
  { intros f Hf. vm_compute in Hf.
    apply list_elem_of_singleton in Hf as ->. vm_compute. eauto. }
  destruct (changed_files_scan (H := Demo.demo_externals) 1%nat 1%nat
              ["/proj/src/a.html"] w Demo.tracked_context
              (Config 0 (Demo.demo_value "v1")) Hall) as [Hscan Hread].
  split; [exact Hscan|].
  apply Hread; vm_compute; reflexivity.
Defined.

(** The identity at work for a source without directives: after the
    configuration file is rewritten, the next build-mode request gets a
    different context. *)
Lemma config_change_replaces_context_without_directives :
  ∃ context1 w1 context2 w2,
    Tracking.setupTrackingContext Demo.demo_config ∅ Demo.demo_result
      Demo.demo_world = Ok context1 w1 ∧
    Tracking.setupTrackingContext Demo.demo_config ∅ Demo.demo_result
      (Demo.config_edited w1) = Ok context2 w2 ∧
    context1 ≠ context2.
Proof.
  eexists _, _, _, _.
  split; [vm_compute; reflexivity|].
  split; [vm_compute; reflexivity|].
  discriminate.
Qed.
End RequestWitnesses.

(** ** A watch-mode request *)
Section WatchRequestFacts.
Context `{Externals}.




Lemma w_getCandidateFiles_inv context path cfg candidateFiles w w' :
  Watching.getCandidateFiles context path cfg w = Ok candidateFiles w' →
  w_candidateFilesCache (watching w') !! context = Some candidateFiles ∧
  utils w' = utils w ∧
  scannedContentCache (watching w') = scannedContentCache (watching w).
Proof.
  unfold Watching.getCandidateFiles. rewrite bind_get_world.
  destruct (w_candidateFilesCache (watching w) !! context) eqn:Hc.
  - intros [= <- <-]. by repeat split.
  - destruct cfg as [cfg|]; [|done]. cbn [defined].
    rewrite bind_mret, bind_modify. intros [= <- <-].
    simpl. rewrite lookup_insert_eq. by repeat split.
Qed.




Lemma Ok_world {A} (a b : A) (w w' : world) : Ok a w = Ok b w' → w = w'.
Proof. intros Heq. by injection Heq. Qed.

Lemma mret_world {A} (a b : A) (w w' : world) :
  (mret a : M A) w = Ok b w' → w = w'.
Proof. apply Ok_world. Qed.

Lemma modify_world (f : world → world) (w w' : world) :
  modify f w = Ok tt w' → w' = f w.
Proof. intros Heq. symmetry. by apply Ok_world in Heq. Qed.

Lemma generateTouchFileName_world (t : string) (w w' : world) :
  Watching.generateTouchFileName w = Ok t w' →
  w' = on_node (set_rand_calls (S (rand_calls (node w)))) w.
Proof.
  unfold Watching.generateTouchFileName. intros Heq. symmetry.
  exact (Ok_world _ _ _ _ Heq).
Qed.


Lemma read_loop_inv (l : list string) (acc out : list changed)
    (w w' : world) :
  fold_of l acc (λ changedContent changedFile,
    content ← fs_readFileSync changedFile;
    let extension := slice1 (path_extname changedFile) in
    mret (changedContent ++ [Changed content (Some extension)])) w =
    Ok out w' →
  ∀ f, f ∈ l → is_Some (files (node w) !! f).
Proof.
  revert acc w. induction l as [|x l IH]; intros acc w Hrun f Hf.
  - by apply elem_of_nil in Hf.
  - rewrite fold_of_cons in Hrun.
    apply bind_inv in Hrun as (a & w1 & Hb & Hrest).
    apply bind_inv in Hb as (t & w0 & Hrd & Hb).
    unfold fs_readFileSync in Hrd.
    destruct (files (node w) !! x) as [g|] eqn:Hx; [|done].
    injection Hrd as <- <-. injection Hb as <- <-.
    apply elem_of_cons in Hf as [->|Hf]; [by rewrite Hx|].
    by apply (IH _ _ Hrest).
Qed.



End WatchRequestFacts.

(** Watch-mode requests on the demo world. *)
Section WatchRequestWitnesses.
#[local] Existing Instance Demo.demo_externals.


End WatchRequestWitnesses.

(** * Further properties of the two files *)

(** ** The context dependencies of a source with directives *)
Section DirectiveFacts.
Context `{Externals}.

Lemma dependency_messages_fold (msgs : list message) (s : gset jsval)
    (d : jsval) :
  d ∈ foldl (λ s message,
               if bool_decide (type message = "dependency")
               then s ∪ {[msg_file message]} else s) s msgs ↔
  d ∈ s ∨ ∃ m, m ∈ msgs ∧ type m = "dependency" ∧ msg_file m = d.
Proof.
  revert s. induction msgs as [|x msgs IH]; intros s; cbn [foldl].
  - split; [by left|]. intros [?|(m & Hm & _)]; [done|].
    by apply elem_of_nil in Hm.
  - rewrite IH. case_bool_decide as Hx.
    + rewrite elem_of_union, elem_of_singleton. split.
      * intros [[?| ->]|(m & Hm & Ht & Hf)]; [by left| |].
        -- right. exists x. split; [by left|done].
        -- right. exists m. split; [by right|done].
      * intros [?|(m & Hm & Ht & Hf)]; [by left; left|].
        apply elem_of_cons in Hm as [->|Hm]; [left; by right|].
        right. by exists m.
    + split.
      * intros [?|(m & Hm & Ht & Hf)]; [by left|].
        right. exists m. split; [by right|done].
      * intros [?|(m & Hm & Ht & Hf)]; [by left|].
        apply elem_of_cons in Hm as [->|Hm]; [done|].
        right. by exists m.
Qed.

(** X1.  For a source with directives the context dependencies are the
    configuration dependencies, the source file, and the files of the
    result's messages of type [dependency]; messages of any other type
    add nothing. *)
Theorem context_dependencies_with_directives
    (configDependencies : list jsval) (dirs : gset string)
    (result : postcss_result) (d : jsval) :
  (0 < size dirs)%nat →
  d ∈ contextDependencies configDependencies dirs result ↔
  d ∈ configDependencies ∨ d = opts_from result ∨
  ∃ m, m ∈ messages result ∧ type m = "dependency" ∧ msg_file m = d.
Proof.
  intros Hdirs. unfold contextDependencies.
  rewrite bool_decide_eq_true_2 by done.
  rewrite dependency_messages_fold, elem_of_union, elem_of_list_to_set,
    elem_of_singleton.
  tauto.
Qed.
End DirectiveFacts.

Lemma context_dependencies_with_directives_witness :
  JStr "/proj/base.css" ∈
    contextDependencies [JStr "/proj/tw.config.js"] Demo.demo_directives
      Demo.demo_result ↔
  JStr "/proj/base.css" ∈ [JStr "/proj/tw.config.js"] ∨
  JStr "/proj/base.css" = opts_from Demo.demo_result ∨
  ∃ m, m ∈ messages Demo.demo_result ∧ type m = "dependency" ∧
       msg_file m = JStr "/proj/base.css".
Proof.
  apply context_dependencies_with_directives.
  unfold Demo.demo_directives. rewrite size_singleton. lia.
Defined.

(** ** Per-context memo tables *)
Section MemoFacts.
Context `{Externals}.

Lemma w_getCandidateFiles_hit context path cfg candidateFiles w :
  w_candidateFilesCache (watching w) !! context = Some candidateFiles →
  Watching.getCandidateFiles context path cfg w = Ok candidateFiles w.
Proof.
  intros Hc. unfold Watching.getCandidateFiles.
  rewrite bind_get_world. by rewrite Hc.
Qed.

(** X2.  The candidate list is computed once per context.  After a call
    that returned, every later call for the context returns the same
    list and changes nothing, whatever path and configuration it is
    given, an undefined configuration included; without a cached list
    an undefined configuration is a [TypeError].  Both modes. *)
Theorem candidate_files_memoised (context : nat) (path : option string)
    (cfg : option config) (candidateFiles : list string) (w w1 : world) :
  (Tracking.getCandidateFiles context path cfg w = Ok candidateFiles w1 →
   ∀ path' cfg' w2,
     t_candidateFilesCache (tracking w2) !! context =
       t_candidateFilesCache (tracking w1) !! context →
     Tracking.getCandidateFiles context path' cfg' w2 =
       Ok candidateFiles w2) ∧
  (Watching.getCandidateFiles context path cfg w = Ok candidateFiles w1 →
   ∀ path' cfg' w2,
     w_candidateFilesCache (watching w2) !! context =
       w_candidateFilesCache (watching w1) !! context →
     Watching.getCandidateFiles context path' cfg' w2 =
       Ok candidateFiles w2) ∧
  (t_candidateFilesCache (tracking w) !! context = None →
   Tracking.getCandidateFiles context path None w = Throw TypeError w) ∧
  (w_candidateFilesCache (watching w) !! context = None →
   Watching.getCandidateFiles context path None w = Throw TypeError w).
Proof.
  split; [|split; [|split]].
  - intros Hrun path' cfg' w2 Hsame.
    apply getCandidateFiles_inv in Hrun as (Hc & _).
    apply getCandidateFiles_hit. by rewrite Hsame.
  - intros Hrun path' cfg' w2 Hsame.
    apply w_getCandidateFiles_inv in Hrun as (Hc & _).
    apply w_getCandidateFiles_hit. by rewrite Hsame.
  - intros Hc. unfold Tracking.getCandidateFiles.
    rewrite bind_get_world. by rewrite Hc.
  - intros Hc. unfold Watching.getCandidateFiles.
    rewrite bind_get_world. by rewrite Hc.
Qed.

(** X3.  The configuration path of a context is resolved once.  After a
    call that returned, every later call for the context returns the
    same answer ([null] included) and changes nothing, whatever
    configuration argument it is given and whatever is on disk by
    then. *)
Theorem config_path_memoised (context : nat) (c : config_or_path)
    (p : option string) (w w1 : world) :
  Watching.getConfigPath context c w = Ok p w1 →
  configPaths (watching w1) !! context = Some p ∧
  ∀ c' w2,
    configPaths (watching w2) !! context =
      configPaths (watching w1) !! context →
    Watching.getConfigPath context c' w2 = Ok p w2.
Proof.
  intros Hrun.
  assert (Hc : configPaths (watching w1) !! context = Some p).
  { unfold Watching.getConfigPath in Hrun. rewrite bind_get_world in Hrun.
    destruct (configPaths (watching w) !! context) as [q|] eqn:Hq.
    - apply Ok_inv in Hrun as [<- <-]. done.
    - rewrite bind_modify in Hrun. apply Ok_inv in Hrun as [<- <-].
      cbn. by rewrite lookup_insert_eq. }
  split; [done|]. intros c' w2 Hsame.
  unfold Watching.getConfigPath. rewrite bind_get_world.
  by rewrite Hsame, Hc.
Qed.
End MemoFacts.

Section MemoWitnesses.
#[local] Existing Instance Demo.demo_externals.

Lemma candidate_files_memoised_witness :
  let w1 :=
    Demo.after
      (Tracking.getCandidateFiles 1%nat (Some "/proj/tw.config.js")
         (Some (Config 0 (Demo.demo_value "v1")))) Demo.demo_world in
  let w1' :=
    Demo.after
      (Watching.getCandidateFiles 1%nat (Some "/proj/tw.config.js")
         (Some (Config 0 (Demo.demo_value "v1")))) Demo.demo_world in
  Tracking.getCandidateFiles 1%nat None None w1 =
    Ok ["/proj/src/a.html"] w1 ∧
  Watching.getCandidateFiles 1%nat None None w1' =
    Ok ["/proj/src/a.html"] w1' ∧
  Tracking.getCandidateFiles 1%nat (Some "/proj/tw.config.js") None
    Demo.demo_world = Throw TypeError Demo.demo_world ∧
  Watching.getCandidateFiles 1%nat (Some "/proj/tw.config.js") None
    Demo.demo_world = Throw TypeError Demo.demo_world.
Proof.
  intros w1 w1'.
  destruct (candidate_files_memoised (H := Demo.demo_externals) 1%nat
              (Some "/proj/tw.config.js")
              (Some (Config 0 (Demo.demo_value "v1")))
              ["/proj/src/a.html"] Demo.demo_world w1)
    as (Ht & _ & Hthrow & Hthrow').
  destruct (candidate_files_memoised (H := Demo.demo_externals) 1%nat
              (Some "/proj/tw.config.js")
              (Some (Config 0 (Demo.demo_value "v1")))
              ["/proj/src/a.html"] Demo.demo_world w1')
    as (_ & Hw & _).
  split; [apply Ht; [vm_compute; reflexivity|reflexivity]|].
  split; [apply Hw; [vm_compute; reflexivity|reflexivity]|].
  split; [apply Hthrow|apply Hthrow']; reflexivity.
Defined.

Lemma config_path_memoised_witness :
  let w1 :=
    Demo.after (Watching.getConfigPath 1%nat Demo.demo_config)
      Demo.demo_world in
  configPaths (watching w1) !! 1%nat = Some (Some "/proj/tw.config.js") ∧
  Watching.getConfigPath 1%nat (Plain (UserString "/elsewhere.js")) w1 =
    Ok (Some "/proj/tw.config.js") w1.
Proof.
  intros w1.
  destruct (config_path_memoised (H := Demo.demo_externals) 1%nat
              Demo.demo_config (Some "/proj/tw.config.js")
              Demo.demo_world w1) as [Hc Hnext].
  - vm_compute. reflexivity.
  - split; [exact Hc|]. by apply Hnext.
Defined.
End MemoWitnesses.

(** ** Touch files and the start of a watcher *)
Section RebootFacts.
Context `{Externals}.

Lemma string_get_lt (s : string) (n : nat) :
  (n < String.length s)%nat →
  ∃ c, String.get n s = Some c ∧ In c (String.list_ascii_of_string s).
Proof.
  revert n. induction s as [|a s IH]; intros n Hn; cbn in *; [lia|].
  destruct n as [|n].
  - exists a. split; [done|by left].
  - destruct (IH n) as (c & Hc & Hin); [lia|].
    exists c. split; [done|by right].
Qed.

Lemma string_of_list_ascii_length (l : list Ascii.ascii) :
  String.length (String.string_of_list_ascii l) = length l.
Proof. induction l as [|a l IH]; cbn; [done|]. by rewrite IH. Qed.

Lemma omap_total_length {A B} (f : A → option B) (l : list A) :
  (∀ x, x ∈ l → is_Some (f x)) → length (omap f l) = length l.
Proof.
  induction l as [|x l IH]; intros Hall; [done|]. cbn.
  destruct (Hall x) as [y Hy]; [by left|]. rewrite Hy. cbn.
  f_equal. apply IH. intros z Hz. apply Hall. by right.
Qed.

Lemma generateTouchFileName_run (w : world) :
  ∃ randomChars,
    Watching.generateTouchFileName w =
      Ok (path_join [Watching.touchDir;
                     "touch-" +:+ process_pid +:+ "-" +:+ randomChars])
         (on_node (set_rand_calls (S (rand_calls (node w)))) w).
Proof. eexists. reflexivity. Qed.

(** X4.  A touch file name is the touch directory joined with
    [touch-<pid>-<suffix>], where the suffix always has twelve
    characters, each of them one of the sixty-two of [chars]; the call
    uses up one random draw and changes nothing else. *)
Theorem touch_file_name_shape (w : world) :
  ∃ randomChars,
    Watching.generateTouchFileName w =
      Ok (path_join [Watching.touchDir;
                     "touch-" +:+ process_pid +:+ "-" +:+ randomChars])
         (on_node (set_rand_calls (S (rand_calls (node w)))) w) ∧
    String.length randomChars = 12%nat ∧
    ∀ c, In c (String.list_ascii_of_string randomChars) →
         In c (String.list_ascii_of_string Watching.chars).
Proof.
  eexists. split; [reflexivity|].
  assert (Hget : ∀ i, ∃ c,
    String.get (Nat.modulo (crypto_randomBytes (rand_calls (node w)) i)
                  (String.length Watching.chars)) Watching.chars = Some c ∧
    In c (String.list_ascii_of_string Watching.chars)).
  { intros i. apply string_get_lt. apply Nat.mod_upper_bound. done. }
  split.
  - rewrite string_of_list_ascii_length, omap_total_length; [done|].
    intros i _. destruct (Hget i) as (c & -> & _). by eexists.
  - intros c. rewrite String.list_ascii_of_string_of_list_ascii.
    rewrite <- list_elem_of_In, list_elem_of_omap.
    intros (i & _ & Hi). destruct (Hget i) as (c' & Hc' & Hin).
    rewrite Hc' in Hi. by injection Hi as <-.
Qed.

Lemma reboot_split (context : nat) (configPath : option string)
    (ref : nat) (candidateFiles : list string) (w : world) :
  ∃ t w1,
    Watching.rebootWatcher context configPath ref candidateFiles w =
      reboot_tail context configPath ref candidateFiles t w1 ∧
    utils w1 = utils w ∧ tracking w1 = tracking w ∧
    clock (node w1) = clock (node w) ∧
    watching w1 =
      set_touchFiles (<[context := t]> (touchFiles (watching w)))
        (watching w) ∧
    match touchFiles (watching w) !! context with
    | Some t0 => t = t0 ∧ w1 = w
    | None =>
        touched w w1 t ∧
        (∀ q, q ≠ t → files (node w1) !! q = files (node w) !! q) ∧
        rand_calls (node w1) = S (rand_calls (node w))
    end.
Proof.
  unfold Watching.rebootWatcher.
  rewrite (bind_Ok _ _ w (touchFiles (watching w) !! context) w) by done.
  destruct (touchFiles (watching w) !! context) as [t0|] eqn:Ht.
  - exists t0, w. rewrite bind_mret.
    split; [done|]. repeat split; try done.
    destruct w as [? ? ? []]. cbn in *. unfold set_touchFiles. cbn.
    by rewrite insert_id.
  - destruct (generateTouchFileName_run w) as (rc & Hgen).
    set (t := path_join [Watching.touchDir;
                         "touch-" +:+ process_pid +:+ "-" +:+ rc]) in *.
    set (w0 := on_watching (λ s,
                 set_touchFiles (<[context := t]> (touchFiles s)) s)
                 (on_node (set_rand_calls (S (rand_calls (node w)))) w)).
    destruct (touch_effect t w0)
      as (w1 & Htouch & Hfs & Hclock & _ & _ & Hu & Htr & Hwa).
    exists t, w1. split.
    { erewrite bind_Ok; [|erewrite bind_Ok by exact Hgen;
        erewrite bind_Ok by reflexivity;
        erewrite bind_Ok by exact Htouch; reflexivity].
      done. }
    rewrite Hu, Htr, Hclock, Hwa. repeat split; try done.
    + by apply (touch_touched _ w w0).
    + intros q Hq. rewrite Hfs. by rewrite lookup_insert_ne.
    + destruct (files (node w0) !! t) as [g|] eqn:Hg.
      * rewrite (touch_present _ g) in Htouch by done.
        apply Ok_inv in Htouch as [_ <-]. done.
      * rewrite touch_absent in Htouch by done.
        apply Ok_inv in Htouch as [_ <-]. done.
Qed.

Lemma reboot_tail_run (context : nat) (configPath : option string)
    (ref : nat) (candidateFiles : list string) (t : string) (w : world) :
  ∃ w',
    reboot_tail context configPath ref candidateFiles t w = Ok tt w' ∧
    files (node w') = files (node w) ∧
    rand_calls (node w') = rand_calls (node w) ∧
    clock (node w') = clock (node w) ∧
    utils w' = utils w ∧ tracking w' = tracking w ∧
    touchFiles (watching w') = touchFiles (watching w) ∧
    configDependenciesCache (watching w') =
      configDependenciesCache (watching w) ∧
    pending (watching w') =
      pending (watching w) ++
        (if watch_mode_on
         then [PendingWatch context configPath ref t candidateFiles]
         else []) ∧
    watchers (watching w') =
      (if watch_mode_on
       then alter closed_watcher context (watchers (watching w))
       else watchers (watching w)).
Proof.
  unfold reboot_tail, watch_mode_on.
  destruct (bool_decide (env_TAILWIND_MODE = Some "build")); cbn [negb andb].
  { exists w. rewrite app_nil_r. by repeat split. }
  destruct (_ || _).
  - rewrite (bind_Ok _ _ w (watchers (watching w) !! context) w) by done.
    destruct (watchers (watching w) !! context) as [wt|] eqn:Hw.
    + eexists. split; [reflexivity|]. cbn. by repeat split.
    + eexists. split; [reflexivity|]. cbn. repeat split; try done.
      symmetry. apply map_eq. intros k. rewrite lookup_alter.
      case_decide; [subst; by rewrite Hw|done].
  - exists w. rewrite app_nil_r. by repeat split.
Qed.


(** X6.  Which mode starts a watcher.  Outside watch mode (build mode,
    or no mode given and no development environment) [rebootWatcher]
    leaves the watchers and the waiting continuations alone.  In watch
    mode it closes the watcher the context has, if any, and leaves
    exactly one continuation behind, for this context, with its touch
    file and the candidate files it was given. *)
Theorem reboot_starts_watcher_in_watch_mode_only (context : nat)
    (configPath : option string) (ref : nat) (candidateFiles : list string)
    (w : world) :
  (watch_mode_on = true ↔
   env_TAILWIND_MODE = Some "watch" ∨
   (env_TAILWIND_MODE = None ∧ env_NODE_ENV = Some "development")) ∧
  ∃ w' t,
    Watching.rebootWatcher context configPath ref candidateFiles w =
      Ok tt w' ∧
    touchFiles (watching w') !! context = Some t ∧
    pending (watching w') =
      pending (watching w) ++
        (if watch_mode_on
         then [PendingWatch context configPath ref t candidateFiles]
         else []) ∧
    watchers (watching w') =
      (if watch_mode_on
       then alter closed_watcher context (watchers (watching w))
       else watchers (watching w)).
Proof.
  split.
  - unfold watch_mode_on.
    rewrite andb_true_iff, negb_true_iff, orb_true_iff, andb_true_iff,
      !bool_decide_eq_true, bool_decide_eq_false.
    split; [by intros [_ ?]|]. intros Hor. split; [|done].
    destruct Hor as [Hm|[Hm _]]; rewrite Hm; discriminate.
  - destruct (reboot_split context configPath ref candidateFiles w)
      as (t & w1 & Hrun & _ & _ & _ & Hwa & _).
    destruct (reboot_tail_run context configPath ref candidateFiles t w1)
      as (w' & Htail & _ & _ & _ & _ & _ & Htf & _ & Hp & Hw).
    exists w', t. split; [by rewrite Hrun|].
    rewrite Htf, Hp, Hw, Hwa. cbn. by rewrite lookup_insert_eq.
Qed.
End RebootFacts.

(** ** Arming and the unlink handler *)
Section ArmFacts.
Context `{Externals}.

Lemma arm_watcher_run (p : pending_watch) (w : world) :
  Watching.arm_watcher p w =
    Ok tt
      (on_watching (λ s,
         set_watchers
           (<[p_context p :=
                Watcher (p_context p) (p_configPath p)
                  (p_configDependencies p) (p_touchFile p)
                  (p_candidateFiles p ++
                   Watching.config_dependencies (p_configDependencies p) w)
                  false]> (watchers s)) s)
         (on_node
            (emit (EvWatch (p_context p)
                     (p_candidateFiles p ++
                      Watching.config_dependencies
                        (p_configDependencies p) w))) w)).
Proof.
  unfold Watching.arm_watcher. rewrite bind_get_world. cbv zeta.
  rewrite bind_modify. reflexivity.
Qed.

(** X7.  In watch mode, with no continuation waiting, [rebootWatcher]
    followed by its continuation leaves the context with an open
    watcher on exactly the candidate files followed by the context's
    configuration dependencies, bound to the context's touch file and to
    the configuration path it was given; no continuation is left. *)
Theorem watcher_armed_after_reboot (context : nat)
    (configPath : option string) (ref : nat) (candidateFiles : list string)
    (w : world) :
  watch_mode_on = true →
  pending (watching w) = [] →
  ∃ t w',
    (_ ← Watching.rebootWatcher context configPath ref candidateFiles;
     Watching.run_pending) w = Ok tt w' ∧
    watchers (watching w') !! context =
      Some (Watcher context configPath ref t
              (candidateFiles ++ Watching.config_dependencies ref w)
              false) ∧
    touchFiles (watching w') !! context = Some t ∧
    pending (watching w') = [].
Proof.
  intros Hmode Hpend.
  destruct (reboot_split context configPath ref candidateFiles w)
    as (t & w1 & Hrun & _ & _ & _ & Hwa & _).
  destruct (reboot_tail_run context configPath ref candidateFiles t w1)
    as (w2 & Htail & _ & _ & _ & _ & _ & Htf & Hcd & Hp & _).
  rewrite Hmode, Hwa in Hp. cbn in Hp. rewrite Hpend in Hp. cbn in Hp.
  rewrite Hwa in Hcd, Htf. cbn in Hcd, Htf.
  exists t. eexists. split.
  { rewrite Htail in Hrun. rewrite (bind_Ok _ _ _ _ _ Hrun).
    unfold Watching.run_pending.
    rewrite bind_get_world, bind_modify, Hp, for_of_cons.
    rewrite (bind_Ok _ _ _ _ _ (arm_watcher_run _ _)). reflexivity. }
  cbn. rewrite lookup_insert_eq, Htf, lookup_insert_eq.
  unfold Watching.config_dependencies. cbn. by rewrite Hcd.
Qed.

(** X8.  An ['unlink'] event for a path that is not one of the
    watcher's configuration dependencies changes nothing at all: no
    file is read or touched and nothing is taken from or added to
    [changedContent]. *)
Theorem unlink_of_other_file_does_nothing (w : world) (context : nat)
    (wt : watcher) (file : string) :
  watchers (watching w) !! context = Some wt →
  file ∉ Watching.config_dependencies (w_configDependencies wt) w →
  Watching.deliver context (Watching.Unlink file) w = Ok tt w.
Proof.
  intros Hw Hnot. unfold Watching.deliver.
  rewrite (bind_Ok _ _ w (Some wt) w)
    by (unfold Watching.getWatcher; rewrite bind_get_world; by rewrite Hw).
  destruct (w_closed wt); [done|].
  unfold Watching.on_unlink. rewrite bind_get_world. cbv zeta.
  by rewrite bool_decide_eq_false_2.
Qed.
End ArmFacts.

Section ArmWitnesses.
#[local] Existing Instance Demo.demo_externals.

Lemma watcher_armed_after_reboot_witness :
  ∃ t w',
    (_ ← Watching.rebootWatcher 1%nat (Some "/proj/tw.config.js") 1%nat
           ["/proj/src/a.html"];
     Watching.run_pending) Demo.demo_world = Ok tt w' ∧
    watchers (watching w') !! 1%nat =
      Some (Watcher 1%nat (Some "/proj/tw.config.js") 1%nat t
              (["/proj/src/a.html"] ++
               Watching.config_dependencies 1%nat Demo.demo_world)
              false) ∧
    touchFiles (watching w') !! 1%nat = Some t ∧
    pending (watching w') = [].
Proof.
  apply (watcher_armed_after_reboot (H := Demo.demo_externals)); reflexivity.
Defined.

Lemma unlink_of_other_file_does_nothing_witness :
  Watching.deliver 1%nat (Watching.Unlink "/proj/src/a.html")
    Demo.watching_world = Ok tt Demo.watching_world.
Proof.
  apply (unlink_of_other_file_does_nothing (H := Demo.demo_externals)
           Demo.watching_world 1%nat Demo.demo_watcher).
  - vm_compute. reflexivity.
  - vm_compute. intros Hin. apply list_elem_of_singleton in Hin. done.
Defined.
End ArmWitnesses.

(** ** The loaders when something is newer *)
Section ReloadFacts.
Context `{Externals}.


End ReloadFacts.

Section ReloadWitnesses.
#[local] Existing Instance Demo.demo_externals.

End ReloadWitnesses.

(** ** A configuration change followed by the next load *)
Section ChangeThenLoad.
Context `{Externals}.



End ChangeThenLoad.

Section ChangeThenLoadWitnesses.
#[local] Existing Instance Demo.demo_externals.

End ChangeThenLoadWitnesses.

(** ** The order of a build-mode scan, and the scan after it *)
Section ScanOrder.
Context `{Externals}.

Lemma set_add_NoDup {A} `{EqDecision A} (x : A) (s : list A) :
  NoDup s → NoDup (set_add x s).
Proof.
  intros Hs. unfold set_add. case_decide as Hx; [done|].
  apply NoDup_app. split; [done|]. split; [|apply NoDup_singleton].
  intros y Hy Hy'. apply list_elem_of_singleton in Hy'. by subst.
Qed.

Lemma scan_NoDup fs found c0 m0 :
  NoDup c0 → NoDup (scan fs found (c0, m0)).1.
Proof.
  revert c0 m0. induction found as [|x found IH]; intros c0 m0 Hc; [done|].
  cbn [scan foldl]. fold (scan fs found (scan_step fs (c0, m0) x)).
  unfold scan_step at 1. cbn [fst snd]. destruct (is_newer fs m0 x).
  - apply IH. by apply set_add_NoDup.
  - by apply IH.
Qed.

Lemma filter_is_newer_ext fs m m' (l : list string) :
  (∀ f, f ∈ l → is_newer fs m' f = is_newer fs m f) →
  filter (λ f, is_newer fs m' f) l = filter (λ f, is_newer fs m f) l.
Proof.
  induction l as [|a l IH]; intros Hl; [done|].
  rewrite !filter_cons, (Hl a) by apply list_elem_of_here.
  rewrite IH; [done|]. intros f Hf. apply Hl. by apply list_elem_of_further.
Qed.

Lemma scan_filter fs found c0 m0 :
  NoDup found →
  (∀ f, f ∈ found → f ∉ c0) →
  (scan fs found (c0, m0)).1 =
    c0 ++ filter (λ f, is_newer fs m0 f) found.
Proof.
  revert c0 m0. induction found as [|x found IH]; intros c0 m0 Hnd Hc.
  { cbn. by rewrite app_nil_r. }
  apply NoDup_cons in Hnd as [Hx Hnd].
  cbn [scan foldl]. fold (scan fs found (scan_step fs (c0, m0) x)).
  unfold scan_step at 1. cbn [fst snd].
  destruct (is_newer fs m0 x) eqn:Hn.
  - rewrite filter_cons_True by by rewrite Hn.
    unfold set_add. rewrite decide_False
      by (apply Hc; apply list_elem_of_here).
    rewrite IH; [|done|].
    + rewrite <- app_assoc. cbn. do 2 f_equal.
      apply filter_is_newer_ext. intros f Hf.
      rewrite is_newer_insert_ne; [done|]. by intros ->.
    + intros f Hf Hin. apply elem_of_app in Hin as [Hin|Hin].
      * by apply (Hc f); [apply list_elem_of_further|].
      * apply list_elem_of_singleton in Hin. by subst.
  - rewrite filter_cons_False by (rewrite Hn; intros []).
    apply IH; [done|]. intros f Hf. apply Hc. by apply list_elem_of_further.
Qed.

(** X11.  What one build-mode scan hands back for a context with a
    resolved configuration: first the inline raw entries of the
    configuration's content list, in their order, then one record per
    changed file, each with the file's content and its extension
    without the dot.  No file is reported twice, even when the glob
    expansion lists it twice; when the expansion has no duplicates the
    changed files are reported in the order of the expansion. *)
Theorem build_scan_result_order (context ref : nat)
    (candidateFiles : list string) (w : world) (cobj : context_obj)
    (cfg : config) :
  let fs := files (node w) in
  let found := fastGlob_sync fs candidateFiles in
  contexts (utils w) !! context = Some cobj →
  tailwindConfig cobj = Some cfg →
  (∀ f, f ∈ found → is_Some (fs !! f)) →
  ∃ changedFiles w',
    Tracking.resolvedChangedContent context candidateFiles ref w =
      Ok (raw_content (purge_content (value cfg)) ++
          (file_record fs <$> changedFiles)) w' ∧
    NoDup changedFiles ∧
    (NoDup found →
     changedFiles =
       filter (λ f, is_newer fs (modified_map ref w) f) found).
Proof.
  intros fs found Hctx Hcfg Hall.
  destruct (tracking_changed_content context ref candidateFiles w cobj cfg
              Hctx Hcfg Hall) as (w' & Hrun & _).
  eexists _, w'. split; [exact Hrun|]. split.
  - apply scan_NoDup, NoDup_nil_2.
  - intros Hnd. by rewrite scan_filter; [|done|intros ? _; apply not_elem_of_nil].
Qed.

(** X12.  Two build-mode scans of the same patterns against the same
    map, the file system possibly different at the second.  A file the
    first scan looked at is reported by the second exactly when it is
    still matched, its timestamp is above what the map held before the
    first scan, and its timestamp has grown since the first scan; so a
    file whose timestamp went back is not reported.  A file the first
    scan did not look at is reported as on a first scan. *)
Theorem rescan_reports_grown_timestamps (candidateFiles : list string)
    (ref : nat) (w w1 w2 : world) (changed1 : list string) :
  let fs1 := files (node w) in
  let fs2 := files (node w2) in
  let found1 := fastGlob_sync fs1 candidateFiles in
  let found2 := fastGlob_sync fs2 candidateFiles in
  let m := modified_map ref w in
  Tracking.resolveChangedFiles candidateFiles ref w = Ok changed1 w1 →
  modified_map ref w2 = modified_map ref w1 →
  (∀ f, f ∈ found2 → is_Some (fs2 !! f)) →
  ∃ changed2 w3,
    Tracking.resolveChangedFiles candidateFiles ref w2 = Ok changed2 w3 ∧
    ∀ f,
      (f ∈ found1 →
       (f ∈ changed2 ↔
        f ∈ found2 ∧ is_newer fs2 m f = true ∧
        mtime_of fs1 f < mtime_of fs2 f)) ∧
      (f ∉ found1 →
       (f ∈ changed2 ↔ f ∈ found2 ∧ is_newer fs2 m f = true)).
Proof.
  intros fs1 fs2 found1 found2 m Hrun Hmap Hall2.
  assert (Hall1 : ∀ f, f ∈ found1 → is_Some (fs1 !! f)).
  { unfold Tracking.resolveChangedFiles in Hrun.
    rewrite bind_get_world in Hrun. cbv zeta in Hrun.
    exact (scan_loop_inv _ _ _ _ _ _ Hrun). }
  destruct (tracking_changed_files candidateFiles ref w Hall1)
    as (w1' & Hrun1 & Hm1 & _).
  rewrite Hrun in Hrun1. apply Ok_world in Hrun1. subst w1'.
  destruct (tracking_changed_files candidateFiles ref w2 Hall2)
    as (w3 & Hrun2 & _).
  eexists _, w3. split; [exact Hrun2|].
  intros f. rewrite scan_changed, Hmap, Hm1.
  fold fs1 fs2 found1 found2 m.
  assert (Hlook := scan_map fs1 found1 [] m f).
  assert (Hnew : ∀ m', m' !! f = (scan fs1 found1 ([], m)).2 !! f →
            is_newer fs2 m' f = is_newer fs2 (scan fs1 found1 ([], m)).2 f).
  { intros m' Hm'. unfold is_newer. by rewrite Hm'. }
  split.
  - intros Hf1. case_decide as Hd.
    + destruct Hd as [_ Hn1].
      unfold is_newer in *. rewrite Hlook. unfold num_gt in *.
      destruct (m !! f) as [t|].
      * apply bool_decide_eq_true in Hn1.
        rewrite !bool_decide_eq_true.
        split; [intros [Hn|(? & Hlt)]|intros (? & ? & ?)];
          [by apply not_elem_of_nil in Hn| |right]; repeat split;
          try done; lia.
      * rewrite !bool_decide_eq_true.
        split; [intros [Hn|(? & Hlt)]|intros (? & ? & ?)];
          [by apply not_elem_of_nil in Hn| |right]; repeat split;
          try done.
    + assert (Hn1 : is_newer fs1 m f = false).
      { destruct (is_newer fs1 m f); [|done]. by destruct Hd. }
      unfold is_newer in *. rewrite Hlook. unfold num_gt in *.
      destruct (m !! f) as [t|]; [|done].
      apply bool_decide_eq_false in Hn1.
      rewrite !bool_decide_eq_true.
      split; [intros [Hn|(? & Hlt)]|intros (? & ? & ?)];
        [by apply not_elem_of_nil in Hn| |right]; repeat split;
        try done; lia.
  - intros Hf1. rewrite decide_False in Hlook by by intros [? _].
    unfold is_newer. rewrite Hlook.
    split; [intros [Hn|?]|intros ?]; [by apply not_elem_of_nil in Hn|done|].
    by right.
Qed.
End ScanOrder.

Section ScanOrderWitnesses.
#[local] Existing Instance Demo.demo_externals.

Lemma build_scan_result_order_witness :
  ∃ changedFiles w',
    Tracking.resolvedChangedContent 1%nat ["/proj/src/a.html"] 1%nat
      Demo.edited_world =
      Ok (raw_content (purge_content (Demo.demo_value "v1")) ++
          (file_record (files (node Demo.edited_world)) <$> changedFiles))
         w' ∧
    changedFiles =
      filter (λ f, is_newer (files (node Demo.edited_world))
                     (modified_map 1%nat Demo.edited_world) f)
        (fastGlob_sync (files (node Demo.edited_world))
           ["/proj/src/a.html"]).
Proof.
  destruct (build_scan_result_order (H := Demo.demo_externals) 1%nat 1%nat
              ["/proj/src/a.html"] Demo.edited_world Demo.tracked_context
              (Config 0 (Demo.demo_value "v1")))
    as (changedFiles & w' & Hrun & _ & Horder).
  - vm_compute. reflexivity.
  - reflexivity.
  - intros f Hf. vm_compute in Hf. apply list_elem_of_singleton in Hf.
    subst f. vm_compute. by eexists.
  - exists changedFiles, w'. split; [exact Hrun|]. apply Horder.
    vm_compute. apply NoDup_singleton.
Defined.

Lemma rescan_reports_grown_timestamps_witness :
  let w1 :=
    Demo.after (Tracking.resolveChangedFiles ["/proj/src/a.html"] 1%nat)
      Demo.demo_world in
  let w2 :=
    on_node (λ n,
      set_files (<["/proj/src/a.html" := FNode 20 "<p class='m-2'>"]>
                   (files n)) n) w1 in
  ∃ changed2 w3,
    Tracking.resolveChangedFiles ["/proj/src/a.html"] 1%nat w2 =
      Ok changed2 w3 ∧
    "/proj/src/a.html" ∈ changed2.
Proof.
  intros w1 w2.
  destruct (rescan_reports_grown_timestamps (H := Demo.demo_externals)
              ["/proj/src/a.html"] 1%nat Demo.demo_world w1 w2
              ["/proj/src/a.html"])
    as (changed2 & w3 & Hrun & Hiff).
  - vm_compute. reflexivity.
  - reflexivity.
  - intros f Hf. vm_compute in Hf. apply list_elem_of_singleton in Hf.
    subst f. vm_compute. by eexists.
  - exists changed2, w3. split; [exact Hrun|].
    apply (proj2 (proj1 (Hiff "/proj/src/a.html")
                     ltac:(vm_compute; apply list_elem_of_here))).
    split; [vm_compute; apply list_elem_of_here|].
    split; [vm_compute; reflexivity|vm_compute; reflexivity].
Defined.
End ScanOrderWitnesses.

(** ** The steps of a watch-mode request *)
Section WatchRequestSteps.
Context `{Externals}.

Lemma paths_frame_refl w : paths_frame w w.
Proof. by unfold paths_frame. Qed.

Lemma paths_frame_trans w1 w2 w3 :
  paths_frame w1 w2 → paths_frame w2 w3 → paths_frame w1 w3.
Proof.
  intros (? & ? & ?) (? & ? & ?). unfold paths_frame.
  repeat split; congruence.
Qed.

Lemma dispose_paths_frame w w' : dispose_frame w w' → paths_frame w w'.
Proof.
  intros (Hf & _ & _ & _ & _ & _ & _ & Hcp & _ & Hcd & _). by split.
Qed.

Lemma watching_loader_paths (c : config_or_path) (w wa : world)
    (r : option config * option string * option string * list jsval) :
  Watching.getTailwindConfig c w = Ok r wa → paths_frame w wa.
Proof.
  intros Hrun.
  destruct (resolveConfigPath (files (node w)) c) as [p|] eqn:Hp.
  2: { rewrite (watching_inline_run c w Hp) in Hrun.
       apply Ok_world in Hrun as <-. by unfold paths_frame. }
  destruct (watching_loader_inv c p w wa r Hp Hrun) as ([f Hf] & _).
  rewrite (watching_loader_run c p f w Hp Hf) in Hrun.
  destruct (num_le _ _).
  { apply Ok_world in Hrun as <-. by unfold paths_frame. }
  apply bind_inv in Hrun as ([] & w1 & H1 & Hrun).
  apply modify_world in H1.
  apply bind_inv in Hrun as (u & w2 & H2 & Hrun).
  assert (Hw2 : paths_frame w1 w2).
  { unfold require in H2. destruct (require_cache (node w1) !! p).
    - apply Ok_world in H2 as <-. apply paths_frame_refl.
    - destruct (load_module (files (node w1)) p); [|done].
      apply Ok_world in H2 as <-. by unfold paths_frame. }
  apply bind_inv in Hrun as (cfg & w3 & H3 & Hrun).
  apply Ok_world in H3.
  apply bind_inv in Hrun as ([] & w4 & H4 & Hrun).
  apply modify_world in H4. apply mret_world in Hrun.
  subst wa w4 w3 w1. destruct Hw2 as (Hf2 & Hd2 & Hp2).
  unfold paths_frame. cbn. rewrite Hf2, Hd2, Hp2. done.
Qed.

Lemma getContext_paths dirs result cfg path hash deps r w w' :
  getContext dirs result cfg path hash deps w = Ok r w' → paths_frame w w'.
Proof.
  unfold getContext. rewrite bind_get_world.
  destruct (cache_lookup _ _) as [ctx|].
  - intros Hrun. apply mret_world in Hrun as <-. apply paths_frame_refl.
  - intros Hrun. apply bind_inv in Hrun as ([] & w1 & Hloop & Hrun).
    rewrite bind_get_world, bind_modify in Hrun.
    apply mret_world in Hrun as <-.
    assert (Hfr : dispose_frame w w1).
    { revert Hloop. apply for_of_preserves.
      - apply dispose_frame_refl.
      - apply dispose_frame_trans.
      - intros e w2 w3 Hb. apply bind_inv in Hb as (c & w4 & Hr & Hd).
        unfold read_context in Hr. rewrite bind_get_world in Hr.
        destruct (contexts (utils w2) !! e.2); [|done].
        apply Ok_inv in Hr as [<- <-]. revert Hd. apply for_of_preserves.
        + apply dispose_frame_refl.
        + apply dispose_frame_trans.
        + intros d. apply run_disposable_frame. }
    apply dispose_paths_frame in Hfr as (Hf & Hd & Hp).
    unfold paths_frame. cbn. by rewrite Hf, Hd, Hp.
Qed.

Lemma w_getCandidateFiles_paths context path cfg candidateFiles w w' :
  Watching.getCandidateFiles context path cfg w = Ok candidateFiles w' →
  paths_frame w w'.
Proof.
  unfold Watching.getCandidateFiles. rewrite bind_get_world.
  destruct (w_candidateFilesCache (watching w) !! context).
  - intros Hrun. apply mret_world in Hrun as <-. apply paths_frame_refl.
  - destruct cfg as [cfg|]; [|done]. cbn [defined].
    rewrite bind_mret, bind_modify. intros Hrun.
    apply mret_world in Hrun as <-. by unfold paths_frame.
Qed.

Lemma getConfigDependencies_inv context ref w w' :
  Watching.getConfigDependencies context w = Ok ref w' →
  ref = context ∧
  node w' = node w ∧ utils w' = utils w ∧
  configPaths (watching w') = configPaths (watching w) ∧
  ∀ k, Watching.config_dependencies k w' = Watching.config_dependencies k w.
Proof.
  unfold Watching.getConfigDependencies. rewrite bind_get_world.
  destruct (configDependenciesCache (watching w) !! context) eqn:Hc.
  - intros Hrun. apply Ok_inv in Hrun as [<- <-]. by repeat split.
  - rewrite bind_modify. intros Hrun. apply Ok_inv in Hrun as [<- <-].
    repeat split; try done. intros k. unfold Watching.config_dependencies.
    cbn. destruct (decide (k = context)) as [->|Hne].
    + by rewrite lookup_insert_eq, Hc.
    + by rewrite lookup_insert_ne.
Qed.

Lemma getConfigPath_inv context c p w w' :
  Watching.getConfigPath context c w = Ok p w' →
  node w' = node w ∧ utils w' = utils w ∧
  configDependenciesCache (watching w') =
    configDependenciesCache (watching w) ∧
  configPaths (watching w') !! context = Some p ∧
  (configPaths (watching w) !! context = None →
   p = resolveConfigPath (files (node w)) c).
Proof.
  unfold Watching.getConfigPath. rewrite bind_get_world.
  destruct (configPaths (watching w) !! context) as [q|] eqn:Hq.
  - intros Hrun. apply Ok_inv in Hrun as [<- <-]. by repeat split.
  - rewrite bind_modify. intros Hrun. apply Ok_inv in Hrun as [<- <-].
    cbn. rewrite lookup_insert_eq. by repeat split.
Qed.

(** The loop over the module's dependencies: it cannot fail, and the
    set gains the files other than the configuration path. *)
Lemma module_dependencies_loop (ref : nat) (configPath : string)
    (l : list module_dep) (w : world) :
  ∃ w',
    for_of l (λ dependency,
      if bool_decide (file dependency = configPath) then mret tt
      else Watching.config_dependencies_add ref (file dependency)) w =
      Ok tt w' ∧
    node w' = node w ∧ utils w' = utils w ∧
    configPaths (watching w') = configPaths (watching w) ∧
    (∀ k, k ≠ ref →
       Watching.config_dependencies k w' =
       Watching.config_dependencies k w) ∧
    ∀ x, x ∈ Watching.config_dependencies ref w' ↔
         x ∈ Watching.config_dependencies ref w ∨
         (x ≠ configPath ∧ ∃ d, d ∈ l ∧ file d = x).
Proof.
  revert w. induction l as [|d l IH]; intros w.
  { exists w. repeat split; try done; [by left|].
    intros [?|(_ & ? & Hd & _)]; [done|]. by apply elem_of_nil in Hd. }
  rewrite for_of_cons. case_bool_decide as Hd.
  - rewrite bind_mret. destruct (IH w) as (w' & Hrun & ? & ? & ? & ? & Hx).
    exists w'. repeat split; try done.
    + intros Hin. apply Hx in Hin as [?|(Hne & d' & Hd' & Hf)]; [by left|].
      right. split; [done|]. exists d'. split; [by right|done].
    + intros [?|(Hne & d' & Hd' & Hf)]; apply Hx; [by left|].
      apply elem_of_cons in Hd' as [->|Hd']; [congruence|].
      right. split; [done|]. by exists d'.
  - erewrite bind_Ok by reflexivity.
    match goal with |- context [for_of l _ ?w0] =>
      destruct (IH w0) as (w' & Hrun & Hn & Hu & Hcp & Hk & Hx) end.
    exists w'. split; [exact Hrun|]. rewrite Hn, Hu, Hcp.
    repeat split; try done.
    + intros k Hne. rewrite Hk by done.
      unfold Watching.config_dependencies. cbn.
      by rewrite lookup_insert_ne.
    + intros Hin. apply Hx in Hin as [Hin|(Hne & d' & Hd' & Hf)].
      * unfold Watching.config_dependencies at 1 in Hin. cbn in Hin.
        rewrite lookup_insert_eq in Hin. cbn in Hin.
        apply elem_of_set_add in Hin as [->|Hin]; [|by left].
        right. split; [done|]. exists d. split; [by left|done].
      * right. split; [done|]. exists d'. split; [by right|done].
    + intros Hin. apply Hx.
      assert (Hadd : ∀ y, y = file d ∨
                 y ∈ Watching.config_dependencies ref w →
                 y ∈ Watching.config_dependencies ref
                   (on_watching (λ s,
                      set_configDependenciesCache
                        (<[ref := set_add (file d)
                                    (Watching.config_dependencies ref w)]>
                           (configDependenciesCache s)) s) w)).
      { intros y Hy. unfold Watching.config_dependencies at 1. cbn.
        rewrite lookup_insert_eq. cbn. by apply elem_of_set_add. }
      destruct Hin as [Hin|(Hne & d' & Hd' & Hf)].
      * left. apply Hadd. by right.
      * apply elem_of_cons in Hd' as [->|Hd'].
        -- left. apply Hadd. by left.
        -- right. split; [done|]. by exists d'.
Qed.

Lemma reboot_tail_paths (context : nat) (configPath : option string)
    (ref : nat) (candidateFiles : list string) (t : string) (w w' : world) :
  reboot_tail context configPath ref candidateFiles t w = Ok tt w' →
  configPaths (watching w') = configPaths (watching w).
Proof.
  unfold reboot_tail.
  destruct (bool_decide (env_TAILWIND_MODE = Some "build")).
  { intros Hrun. by apply mret_world in Hrun as <-. }
  destruct (_ || _).
  - rewrite (bind_Ok _ _ w (watchers (watching w) !! context) w) by done.
    destruct (watchers (watching w) !! context) as [wt|].
    + intros Hrun. by apply Ok_world in Hrun as <-.
    + intros Hrun. by apply Ok_world in Hrun as <-.
  - intros Hrun. by apply mret_world in Hrun as <-.
Qed.

Lemma reboot_paths context configPath ref candidateFiles w w' :
  Watching.rebootWatcher context configPath ref candidateFiles w = Ok tt w' →
  utils w' = utils w ∧
  configDependenciesCache (watching w') =
    configDependenciesCache (watching w) ∧
  configPaths (watching w') = configPaths (watching w).
Proof.
  intros Hrun.
  destruct (reboot_split context configPath ref candidateFiles w)
    as (t & w1 & Hsplit & Hu & _ & _ & Hwa & _).
  rewrite Hsplit in Hrun.
  pose proof (reboot_tail_paths _ _ _ _ _ _ _ Hrun) as Hcp.
  destruct (reboot_tail_run context configPath ref candidateFiles t w1)
    as (w2 & Htail & _ & _ & _ & Hu2 & _ & _ & Hcd & _).
  rewrite Hrun in Htail. apply Ok_world in Htail as <-.
  rewrite Hu2, Hu, Hcd, Hcp, Hwa. done.
Qed.

Lemma watching_block_paths (context : nat) (candidateFiles : list string)
    (w w' : world) :
  watching_block context candidateFiles w = Ok tt w' →
  configDependenciesCache (watching w') =
    configDependenciesCache (watching w) ∧
  configPaths (watching w') = configPaths (watching w).
Proof.
  unfold watching_block. intros Hrun.
  apply bind_inv in Hrun as (out & w1 & Hc & Hpush).
  rewrite push_loop in Hpush. apply Ok_world in Hpush as <-.
  unfold Watching.resolvedChangedContent in Hc.
  apply bind_inv in Hc as (cobj & w2 & Hread & Hc).
  unfold read_context in Hread. rewrite bind_get_world in Hread.
  destruct (contexts (utils w) !! context) as [cobj'|]; [|done].
  apply Ok_inv in Hread as [<- <-].
  destruct (tailwindConfig cobj') as [cfg|]; [|done].
  cbn [defined] in Hc. rewrite bind_mret in Hc.
  apply bind_inv in Hc as (ch & w3 & Hscan & Hc).
  unfold Watching.resolveChangedFiles in Hscan.
  rewrite bind_get_world in Hscan.
  destruct (bool_decide (context ∈ scannedContentCache (watching w))).
  - apply Ok_inv in Hscan as [<- <-]. apply Ok_world in Hc as <-. done.
  - rewrite bind_modify in Hscan. apply Ok_inv in Hscan as [<- <-].
    pose proof (read_loop_inv _ _ _ _ _ Hc) as Hall.
    rewrite read_loop in Hc by done. apply Ok_world in Hc as <-. done.
Qed.

(** The steps of a request that returned, with the worlds between
    them. *)
Lemma watch_request_anatomy (c : config_or_path) (dirs : gset string)
    (result : postcss_result) (w w' : world) (context : nat) :
  Watching.setupWatchingContext c dirs result w = Ok context w' →
  ∃ r wa (b : bool) wb cands wc wd configPath wg wh wi wk,
    Watching.getTailwindConfig c w = Ok r wa ∧
    getContext dirs result r.1.1.1 r.1.1.2 r.1.2
      (contextDependencies r.2 dirs result) wa = Ok (context, b) wb ∧
    Watching.getCandidateFiles context r.1.1.2 r.1.1.1 wb = Ok cands wc ∧
    Watching.getConfigDependencies context wc = Ok context wd ∧
    Watching.getConfigPath context c
      (on_utils (λ u,
         set_contexts
           (alter (λ x, Context (tailwindConfig x) (changedContent x)
                          (disposables x ++ [CloseWatcher]))
              context (contexts u)) u)
         (on_node (emits (reverse ((λ x, EvRegister x None) <$> r.2)))
            wd)) = Ok configPath wg ∧
    match configPath with
    | Some p =>
        for_of (getModuleDependencies (files (node wg)) p)
          (λ dependency,
             if bool_decide (file dependency = p) then mret tt
             else Watching.config_dependencies_add context
                    (file dependency)) wg
    | None => Ok tt wg
    end = Ok tt wh ∧
    (if b then Watching.rebootWatcher context configPath context cands
     else mret tt) wh = Ok tt wi ∧
    utils wk = utils wi ∧ watching wk = watching wi ∧
    files (node wk) = files (node wi) ∧
    (if bool_decide (0 < size dirs)%nat
     then watching_block context cands else mret tt) wk = Ok tt w'.
Proof.
  intros Hrun. unfold Watching.setupWatchingContext in Hrun.
  apply bind_inv in Hrun as (r & wa & Hload & Hrun). cbv zeta in Hrun.
  apply bind_inv in Hrun as ([ctx b] & wb & Hctx & Hrun).
  cbn [fst snd] in Hrun.
  apply bind_inv in Hrun as (cands & wc & Hcand & Hrun).
  apply bind_inv in Hrun as (ref & wd & Hdeps & Hrun).
  destruct (getConfigDependencies_inv _ _ _ _ Hdeps) as (-> & _).
  rewrite (bind_Ok _ _ _ _ _ (register_files r.2 id wd)) in Hrun.
  unfold push_disposable at 1 in Hrun. rewrite bind_modify in Hrun.
  apply bind_inv in Hrun as (configPath & wg & Hpath & Hrun).
  apply bind_inv in Hrun as ([] & wh & Hmods & Hrun).
  apply bind_inv in Hrun as ([] & wi & Hboot & Hrun).
  apply bind_inv in Hrun as (touchFile & wj & Htf & Hrun).
  apply bind_inv in Hrun as ([] & wk & Hreg & Hrun).
  apply bind_inv in Hrun as ([] & wl & Hblock & Hrun).
  apply Ok_inv in Hrun as [<- <-].
  unfold Watching.getTouchFile in Htf. rewrite bind_get_world in Htf.
  apply Ok_inv in Htf as [<- <-].
  exists r, wa, b, wb, cands, wc, wd, configPath, wg, wh, wi, wk.
  split; [done|]. split; [done|]. split; [done|]. split; [done|].
  split; [exact Hpath|]. split.
  { destruct configPath as [p|]; [|exact Hmods].
    by rewrite bind_get_world in Hmods. }
  split; [done|].
  assert (Hk : wk = wi ∨ ∃ e, wk = on_node (emit e) wi).
  { destruct (touchFiles (watching wi) !! ctx) as [t|].
    - destruct (bool_decide (t = "")).
      + apply mret_world in Hreg as <-. by left.
      + apply modify_world in Hreg as ->. right. by eexists.
    - apply mret_world in Hreg as <-. by left. }
  destruct Hk as [->|[e ->]]; by repeat split.
Qed.

(** X14.  What a watch-mode request that returns does to the set of
    configuration dependencies of its context.  The configuration path
    of the context is the one remembered for it, resolved from the
    request's argument when none was remembered.  The set afterwards
    holds what it held before and, when that path is not [null], the
    file of every dependency of the configuration module other than the
    configuration path itself; nothing is ever taken out. *)
Theorem watch_request_collects_config_dependencies (c : config_or_path)
    (dirs : gset string) (result : postcss_result) (w w' : world)
    (context : nat) :
  Watching.setupWatchingContext c dirs result w = Ok context w' →
  ∃ configPath,
    configPaths (watching w') !! context = Some configPath ∧
    (configPaths (watching w) !! context = None →
     configPath = resolveConfigPath (files (node w)) c) ∧
    ∀ x,
      x ∈ Watching.config_dependencies context w' ↔
      x ∈ Watching.config_dependencies context w ∨
      ∃ p d, configPath = Some p ∧
             d ∈ getModuleDependencies (files (node w)) p ∧
             file d = x ∧ x ≠ p.
Proof.
  intros Hrun.
  destruct (watch_request_anatomy _ _ _ _ _ _ Hrun)
    as (r & wa & b & wb & cands & wc & wd & configPath & wg & wh & wi & wk
        & Hload & Hctx & Hcand & Hdeps & Hpath & Hmods & Hboot & _ & Hwk & _
        & Hblock).
  pose proof (watching_loader_paths _ _ _ _ Hload) as Hfa.
  pose proof (getContext_paths _ _ _ _ _ _ _ _ _ Hctx) as Hfb.
  pose proof (w_getCandidateFiles_paths _ _ _ _ _ _ Hcand) as Hfc.
  destruct (paths_frame_trans _ _ _ (paths_frame_trans _ _ _ Hfa Hfb) Hfc)
    as (Hf & Hd & Hp).
  destruct (getConfigDependencies_inv _ _ _ _ Hdeps)
    as (_ & Hnd & _ & Hpd & Hkd).
  destruct (getConfigPath_inv _ _ _ _ _ Hpath)
    as (Hng & _ & Hdg & Hpg & Hres).
  cbn in Hng, Hdg, Hres.
  assert (Hfg : files (node wg) = files (node w)).
  { rewrite Hng. cbn. by rewrite Hnd, Hf. }
  assert (Hcg : ∀ k, Watching.config_dependencies k wg =
                     Watching.config_dependencies k w).
  { intros k. unfold Watching.config_dependencies at 1. rewrite Hdg.
    fold (Watching.config_dependencies k wd). rewrite Hkd.
    unfold Watching.config_dependencies. by rewrite Hd. }
  (* the steps after the loop *)
  assert (Hlate : configDependenciesCache (watching w') =
                    configDependenciesCache (watching wh) ∧
                  configPaths (watching w') = configPaths (watching wh)).
  { assert (Hi : configDependenciesCache (watching wi) =
                   configDependenciesCache (watching wh) ∧
                 configPaths (watching wi) = configPaths (watching wh)).
    { destruct b.
      - by apply reboot_paths in Hboot as (_ & ? & ?).
      - by apply mret_world in Hboot as <-. }
    destruct Hi as [Hi1 Hi2]. rewrite <- Hi1, <- Hi2, <- Hwk.
    destruct (bool_decide (0 < size dirs)%nat).
    - by apply watching_block_paths in Hblock.
    - by apply mret_world in Hblock as <-. }
  destruct Hlate as [Hl1 Hl2].
  exists configPath.
  assert (Hpath' : configPaths (watching wh) = configPaths (watching wg) ∧
            ∀ x, x ∈ Watching.config_dependencies context wh ↔
                 x ∈ Watching.config_dependencies context wg ∨
                 ∃ p d, configPath = Some p ∧
                        d ∈ getModuleDependencies (files (node wg)) p ∧
                        file d = x ∧ x ≠ p).
  { destruct configPath as [p|].
    - destruct (module_dependencies_loop context p
                  (getModuleDependencies (files (node wg)) p) wg)
        as (wh' & Hloop & _ & _ & Hcp & _ & Hx).
      rewrite Hmods in Hloop. apply Ok_world in Hloop as <-.
      split; [done|]. intros x. rewrite Hx. split.
      + intros [?|(Hne & d & Hin & Hfd)]; [by left|]. right.
        by exists p, d.
      + intros [?|(p' & d & [= <-] & Hin & Hfd & Hne)]; [by left|].
        right. split; [done|]. by exists d.
    - apply Ok_world in Hmods as <-. split; [done|]. intros x.
      split; [by left|]. by intros [?|(? & ? & ? & _)]. }
  destruct Hpath' as [Hph Hx].
  split; [by rewrite Hl2, Hph|]. split.
  - intros Hnone. rewrite Hres by by rewrite Hpd, Hp.
    by rewrite Hnd, Hf.
  - intros x. unfold Watching.config_dependencies at 1. rewrite Hl1.
    fold (Watching.config_dependencies context wh).
    rewrite Hx, Hcg, Hfg. done.
Qed.
End WatchRequestSteps.

Section WatchRequestStepsWitnesses.
#[local] Existing Instance Demo.demo_externals.


Lemma watch_request_collects_config_dependencies_witness :
  let w' :=
    Demo.after (Watching.setupWatchingContext Demo.demo_config
                  Demo.demo_directives Demo.demo_result) Demo.demo_world in
  "/proj/colors.js" ∈ Watching.config_dependencies 1%nat w' ∧
  "/proj/tw.config.js" ∉ Watching.config_dependencies 1%nat w'.
Proof.
  intros w'.
  destruct (watch_request_collects_config_dependencies
              (H := Demo.demo_externals)
              Demo.demo_config Demo.demo_directives Demo.demo_result
              Demo.demo_world w' 1%nat) as (configPath & _ & Hres & Hx).
  { vm_compute. reflexivity. }
  specialize (Hres eq_refl). split.
  - apply Hx. right.
    exists "/proj/tw.config.js", (ModuleDep "/proj/colors.js" []).
    split; [exact Hres|]. split; [|done].
    vm_compute. apply list_elem_of_further, list_elem_of_here.
  - intros Hin. apply Hx in Hin as [Hin|(p & d & Hp & _ & Hfd & Hne)].
    + vm_compute in Hin. by apply elem_of_nil in Hin.
    + rewrite Hres in Hp. vm_compute in Hp. congruence.
Defined.
End WatchRequestStepsWitnesses.

(** ** A loader that cannot read its files *)
Section LoaderErrors.
Context `{Externals}.



End LoaderErrors.

Section LoaderErrorsWitnesses.
#[local] Existing Instance Demo.demo_externals.

End LoaderErrorsWitnesses.

(** ** What a build-mode request registers with the host *)
Section Registrations.
Context `{Externals}.

Lemma filter_register_none (evs : list event) :
  (∀ e, e ∈ evs → is_register e = false) →
  filter (λ e, is_register e) evs = [].
Proof.
  induction evs as [|e evs IH]; intros Hall; [done|].
  rewrite filter_cons_False
    by (rewrite (Hall e) by apply list_elem_of_here; intros []).
  apply IH. intros e' He'. apply Hall. by apply list_elem_of_further.
Qed.

Lemma filter_register_all (evs : list event) :
  (∀ e, e ∈ evs → is_register e = true) →
  filter (λ e, is_register e) evs = evs.
Proof.
  induction evs as [|e evs IH]; intros Hall; [done|].
  rewrite filter_cons_True
    by by rewrite (Hall e) by apply list_elem_of_here.
  f_equal. apply IH. intros e' He'. apply Hall.
  by apply list_elem_of_further.
Qed.

Lemma registered_refl w : registered w w [].
Proof. by exists []. Qed.

Lemma registered_trans w1 w2 w3 r1 r2 :
  registered w1 w2 r1 → registered w2 w3 r2 → registered w1 w3 (r1 ++ r2).
Proof.
  intros (e1 & H1 & <-) (e2 & H2 & <-). exists (e2 ++ e1). split.
  - by rewrite H2, H1, app_assoc.
  - by rewrite reverse_app, filter_app.
Qed.

Lemma registered_quiet w w' evs :
  trace (node w') = evs ++ trace (node w) →
  (∀ e, e ∈ evs → is_register e = false) →
  registered w w' [].
Proof.
  intros Hn Hall. exists evs. split; [done|].
  apply filter_register_none. intros e He. apply Hall.
  by apply elem_of_reverse.
Qed.

Lemma registered_silent w w' :
  trace (node w') = trace (node w) → registered w w' [].
Proof. intros Hn. by exists []. Qed.

Lemma registered_calls w w' regs :
  trace (node w') = reverse regs ++ trace (node w) →
  (∀ e, e ∈ regs → is_register e = true) →
  registered w w' regs.
Proof.
  intros Hn Hall. exists (reverse regs). split; [done|].
  rewrite reverse_involutive. by apply filter_register_all.
Qed.

Lemma registered_nil_trans w1 w2 w3 :
  registered w1 w2 [] → registered w2 w3 [] → registered w1 w3 [].
Proof. apply (registered_trans _ _ _ [] []). Qed.

Lemma stats_not_registers (l : list string) e :
  e ∈ reverse (EvStat <$> l) → is_register e = false.
Proof.
  intros He. apply elem_of_reverse, list_elem_of_fmap in He.
  by destruct He as (? & -> & _).
Qed.

Lemma tracking_loader_registered (c : config_or_path) (w wa : world)
    (r : option config * option string * option string
         * option (list string)) :
  Tracking.getTailwindConfig c w = Ok r wa → registered w wa [].
Proof.
  intros Hrun.
  destruct (resolveConfigPath (files (node w)) c) as [p|] eqn:Hp.
  2: { rewrite (tracking_inline_run c w Hp) in Hrun.
       apply Ok_world in Hrun as <-. by apply registered_silent. }
  destruct (tracking_loader_inv c p w wa r Hp Hrun) as (Hall & _).
  rewrite (tracking_loader_run c p w Hp Hall) in Hrun.
  match type of Hrun with
  | context [Ok _ ?wB] => assert (HB : registered w wB [])
  end.
  { eapply registered_quiet; [reflexivity|]. apply stats_not_registers. }
  destruct (negb _).
  { by apply Ok_world in Hrun as <-. }
  rewrite (bind_Ok _ _ _ _ _ (uncache_for_of _ _)) in Hrun.
  apply bind_inv in Hrun as (u & w2 & H2 & Hrun).
  apply bind_inv in Hrun as (cfg & w3 & H3 & Hrun).
  apply Ok_world in H3.
  apply bind_inv in Hrun as ([] & w4 & H4 & Hrun).
  apply modify_world in H4. apply mret_world in Hrun.
  subst wa w4 w3.
  eapply registered_nil_trans; [exact HB|].
  unfold require in H2.
  destruct (require_cache _ !! p).
  - apply Ok_world in H2 as <-. by apply registered_silent.
  - destruct (load_module _ p); [|done]. apply Ok_world in H2 as <-.
    apply (registered_quiet _ _ [EvLoadModule p]); [done|].
    intros e He. apply list_elem_of_singleton in He. by subst.
Qed.

Lemma run_disposable_registered (old : nat) (d : disposable) (w w' : world) :
  run_disposable old d w = Ok tt w' → registered w w' [].
Proof.
  destruct d. unfold run_disposable. rewrite bind_get_world.
  destruct (watchers (watching w) !! old).
  - intros Hrun. apply modify_world in Hrun as ->.
    apply (registered_quiet _ _ [EvWatcherClose old]); [done|].
    intros e He. apply list_elem_of_singleton in He. by subst.
  - intros Hrun. apply mret_world in Hrun as <-. apply registered_refl.
Qed.

Lemma getContext_registered dirs result cfg path hash deps r w w' :
  getContext dirs result cfg path hash deps w = Ok r w' →
  registered w w' [].
Proof.
  unfold getContext. rewrite bind_get_world.
  destruct (cache_lookup _ _) as [ctx|].
  - intros Hrun. apply mret_world in Hrun as <-. apply registered_refl.
  - intros Hrun. apply bind_inv in Hrun as ([] & w1 & Hloop & Hrun).
    rewrite bind_get_world, bind_modify in Hrun.
    apply mret_world in Hrun as <-.
    apply (registered_nil_trans _ w1); [|by apply registered_silent].
    revert Hloop. apply (for_of_preserves (λ a b, registered a b [])).
    + apply registered_refl.
    + apply registered_nil_trans.
    + intros e w2 w3 Hb. apply bind_inv in Hb as (c & w4 & Hr & Hd).
      unfold read_context in Hr. rewrite bind_get_world in Hr.
      destruct (contexts (utils w2) !! e.2); [|done].
      apply Ok_inv in Hr as [<- <-]. revert Hd.
      apply (for_of_preserves (λ a b, registered a b [])).
      * apply registered_refl.
      * apply registered_nil_trans.
      * intros d. apply run_disposable_registered.
Qed.

Lemma register_candidates_run (candidateFiles : list string) (w : world) :
  for_of candidateFiles (λ maybeGlob,
    if isGlob maybeGlob then
      registerDependency
        (JStr (path_resolve [globParent maybeGlob]))
        (Some (if bool_decide (env_ROLLUP_WATCH = Some "true")
               then "dependency" else "dir-dependency"))
    else
      registerDependency (JStr (path_resolve [maybeGlob])) None) w =
  Ok tt (on_node (emits (reverse (registration <$> candidateFiles))) w).
Proof.
  rewrite <- (for_of_emit _ registration).
  apply for_of_ext. intros g w0. unfold registration.
  by destruct (isGlob g).
Qed.

Lemma registration_is_register (l : list string) e :
  e ∈ (registration <$> l) → is_register e = true.
Proof.
  intros He. apply list_elem_of_fmap in He as (g & -> & _).
  unfold registration. by destruct (isGlob g).
Qed.

Lemma tracking_block_registered (context : nat)
    (candidateFiles : list string) (w w' : world) :
  tracking_block context candidateFiles w = Ok tt w' →
  registered w w' (registration <$> candidateFiles).
Proof.
  intros Hrun.
  destruct (tracking_block_inv _ _ _ _ Hrun) as (cobj & cfg & Hco & Hcfg & _).
  unfold tracking_block in Hrun.
  destruct (getFileModifiedMap_run context w) as (w1 & Hmap & _ & Hf1).
  rewrite (bind_Ok _ _ _ _ _ Hmap) in Hrun.
  rewrite (bind_Ok _ _ _ _ _ (register_candidates_run _ _)) in Hrun.
  apply bind_inv in Hrun as (out & w3 & Hscan & Hpush).
  rewrite push_loop in Hpush. apply Ok_world in Hpush as <-.
  assert (Hall : ∀ f,
    f ∈ fastGlob_sync (files (node w1)) candidateFiles →
    is_Some (files (node w1) !! f)).
  { unfold Tracking.resolvedChangedContent in Hscan.
    apply bind_inv in Hscan as (c0 & w4 & Hread & Hscan).
    unfold read_context in Hread. rewrite bind_get_world in Hread.
    destruct (contexts _ !! context) as [c1|]; [|done].
    apply Ok_inv in Hread as [<- <-].
    destruct (tailwindConfig c1); [|done].
    cbn [defined] in Hscan. rewrite bind_mret in Hscan.
    apply bind_inv in Hscan as (ch & w5 & Hfiles & _).
    unfold Tracking.resolveChangedFiles in Hfiles.
    rewrite bind_get_world in Hfiles. cbv zeta in Hfiles.
    exact (scan_loop_inv _ _ _ _ _ _ Hfiles). }
  destruct Hf1 as (Hn1 & Hc1 & _).
  assert (Hco' : contexts (utils (on_node
            (emits (reverse (registration <$> candidateFiles))) w1))
            !! context = Some cobj) by (cbn; by rewrite Hc1).
  destruct (tracking_changed_content context context candidateFiles _
              cobj cfg Hco' Hcfg Hall) as (w3' & Hrun' & _ & Hfr).
  rewrite Hrun' in Hscan. apply Ok_world in Hscan as <-.
  destruct Hfr as (Hn3 & _).
  assert (Ha : registered w w1 [])
    by (apply registered_silent; by rewrite Hn1).
  assert (Hb : registered w1
            (on_node (emits (reverse (registration <$> candidateFiles))) w1)
            (registration <$> candidateFiles)).
  { apply registered_calls; [done|]. apply registration_is_register. }
  assert (Hc : registered
            (on_node (emits (reverse (registration <$> candidateFiles))) w1)
            w3' []).
  { eapply registered_quiet; [by rewrite Hn3|].
    intros e He. apply elem_of_app in He as [He|He].
    + apply elem_of_reverse, list_elem_of_fmap in He.
      by destruct He as (? & -> & _).
    + by apply stats_not_registers in He. }
  pose proof (registered_trans _ _ _ _ _
                (registered_trans _ _ _ _ _ Ha Hb) Hc) as Hfin.
  cbn [app] in Hfin. rewrite app_nil_r in Hfin.
  destruct Hfin as (evs & Htr & Hregs). by exists evs.
Qed.

(** X16.  What a build-mode request that returns has registered with
    the host, in order: for a source with directives one registration
    per candidate -- the resolved parent directory of a glob, as a
    [dir-dependency] or under [ROLLUP_WATCH=true] as a [dependency],
    and the resolved path of any other candidate as a plain dependency
    -- and then, with or without directives, each configuration
    dependency the loader returned.  Nothing else is registered. *)
Theorem build_request_registrations (c : config_or_path)
    (dirs : gset string) (result : postcss_result) (w w' : world)
    (context : nat) :
  Tracking.setupTrackingContext c dirs result w = Ok context w' →
  ∃ r wa candidateFiles configDependencies,
    Tracking.getTailwindConfig c w = Ok r wa ∧
    r.2 = Some configDependencies ∧
    t_candidateFilesCache (tracking w') !! context = Some candidateFiles ∧
    registered w w'
      ((if bool_decide (0 < size dirs)%nat
        then registration <$> candidateFiles else []) ++
       ((λ d, EvRegister (JStr d) None) <$> configDependencies)).
Proof.
  intros Hrun. unfold Tracking.setupTrackingContext in Hrun.
  apply bind_inv in Hrun as (r & wa & Hload & Hrun). cbv zeta in Hrun.
  apply bind_inv in Hrun as ([ctx b] & wb & Hctx & Hrun).
  cbn [fst snd] in Hrun.
  apply bind_inv in Hrun as (cands & wc & Hcand & Hrun).
  apply bind_inv in Hrun as ([] & wd & Hblock & Hrun).
  apply bind_inv in Hrun as (deps & wd' & Hdef & Hrun).
  apply bind_inv in Hrun as ([] & we & Hreg & Hrun).
  apply Ok_inv in Hrun as [<- <-].
  destruct r.2 as [deps'|] eqn:Hr2; [|done].
  apply Ok_inv in Hdef as [<- <-].
  rewrite register_files in Hreg. apply Ok_world in Hreg as <-.
  destruct (getCandidateFiles_inv _ _ _ _ _ _ Hcand)
    as (Hcc & _ & Hnc & _).
  exists r, wa, cands, deps'. split; [done|]. split; [done|].
  assert (Hd : t_candidateFilesCache (tracking wd) !! ctx = Some cands ∧
               registered wc wd
                 (if bool_decide (0 < size dirs)%nat
                  then registration <$> cands else [])).
  { destruct (bool_decide (0 < size dirs)%nat).
    - fold (tracking_block ctx cands) in Hblock. split.
      + destruct (tracking_block_inv _ _ _ _ Hblock)
          as (cobj & cfg & Hco & Hcfg & Hall).
        destruct (tracking_block_run ctx cands wc cobj cfg Hco Hcfg Hall)
          as (wd2 & Hb & _ & Ht & _).
        rewrite Hb in Hblock. apply Ok_world in Hblock as <-.
        by rewrite Ht.
      + exact (tracking_block_registered _ _ _ _ Hblock).
    - apply mret_world in Hblock as <-. split; [done|].
      apply registered_refl. }
  destruct Hd as [Hcd Hregd]. split; [exact Hcd|].
  assert (Hc : registered w wc []).
  { apply (registered_nil_trans _ wa);
      [by eapply tracking_loader_registered|].
    apply (registered_nil_trans _ wb);
      [by eapply getContext_registered|].
    apply registered_silent; by rewrite Hnc. }
  apply (registered_trans _ wd).
  - exact (registered_trans _ _ _ _ _ Hc Hregd).
  - apply registered_calls; [done|].
    intros e He. apply list_elem_of_fmap in He.
    by destruct He as (? & -> & _).
Qed.
End Registrations.

Section RegistrationsWitnesses.
#[local] Existing Instance Demo.demo_externals.

Lemma build_request_registrations_witness :
  let w' :=
    Demo.after (Tracking.setupTrackingContext Demo.demo_config
                  Demo.demo_directives Demo.demo_result) Demo.demo_world in
  ∃ r wa candidateFiles configDependencies,
    Tracking.getTailwindConfig Demo.demo_config Demo.demo_world = Ok r wa ∧
    r.2 = Some configDependencies ∧
    t_candidateFilesCache (tracking w') !! 1%nat = Some candidateFiles ∧
    registered Demo.demo_world w'
      ((if bool_decide (0 < size Demo.demo_directives)%nat
        then registration <$> candidateFiles else []) ++
       ((λ d, EvRegister (JStr d) None) <$> configDependencies)).
Proof.
  intros w'.
  apply (build_request_registrations (H := Demo.demo_externals)
           Demo.demo_config Demo.demo_directives Demo.demo_result
           Demo.demo_world w' 1%nat).
  vm_compute. reflexivity.
Defined.
End RegistrationsWitnesses.

(** ** What a watch-mode request registers with the host *)
Section WatchRegistrations.
Context `{Externals}.

Lemma reads_not_registers (l : list string) e :
  e ∈ reverse (EvReadFile <$> l) → is_register e = false.
Proof.
  intros He. apply elem_of_reverse, list_elem_of_fmap in He.
  by destruct He as (? & -> & _).
Qed.

Lemma watching_loader_registered (c : config_or_path) (w wa : world)
    (r : option config * option string * option string * list jsval) :
  Watching.getTailwindConfig c w = Ok r wa →
  registered w wa [] ∧
  r.2 = [path_val (resolveConfigPath (files (node w)) c)].
Proof.
  intros Hrun.
  destruct (resolveConfigPath (files (node w)) c) as [p|] eqn:Hp.
  2: { rewrite (watching_inline_run c w Hp) in Hrun.
       apply Ok_inv in Hrun as [<- <-]. split; [|done].
       by apply registered_silent. }
  destruct (watching_loader_inv c p w wa r Hp Hrun)
    as ([f Hf] & _ & _ & _ & _ & _ & _ & _ & Hr & _).
  split; [|by rewrite Hr].
  rewrite (watching_loader_run c p f w Hp Hf) in Hrun.
  match type of Hrun with
  | context [Ok _ ?wB] => assert (HB : registered w wB [])
  end.
  { apply (registered_quiet _ _ [EvStat p]); [done|].
    intros e He. apply list_elem_of_singleton in He. by subst. }
  destruct (num_le _ _).
  { by apply Ok_world in Hrun as <-. }
  apply bind_inv in Hrun as ([] & w1 & H1 & Hrun).
  apply modify_world in H1.
  apply bind_inv in Hrun as (u & w2 & H2 & Hrun).
  apply bind_inv in Hrun as (cfg & w3 & H3 & Hrun).
  apply Ok_world in H3.
  apply bind_inv in Hrun as ([] & w4 & H4 & Hrun).
  apply modify_world in H4. apply mret_world in Hrun.
  subst wa w4 w3.
  apply (registered_nil_trans _ _ _ HB).
  apply (registered_nil_trans _ w1);
    [apply registered_silent; by rewrite H1|].
  unfold require in H2.
  destruct (require_cache _ !! p).
  - apply Ok_world in H2 as <-. by apply registered_silent.
  - destruct (load_module _ p); [|done]. apply Ok_world in H2 as <-.
    apply (registered_quiet _ _ [EvLoadModule p]); [done|].
    intros e He. apply list_elem_of_singleton in He. by subst.
Qed.

Lemma module_dependencies_node (ref : nat) (configPath : string)
    (l : list module_dep) (w w' : world) :
  for_of l (λ dependency,
    if bool_decide (file dependency = configPath) then mret tt
    else Watching.config_dependencies_add ref (file dependency)) w =
    Ok tt w' →
  node w' = node w ∧ touchFiles (watching w') = touchFiles (watching w).
Proof.
  apply (for_of_preserves (λ a b,
    node b = node a ∧ touchFiles (watching b) = touchFiles (watching a))).
  - done.
  - intros w1 w2 w3 [? ?] [? ?]. split; congruence.
  - intros d w1 w2. case_bool_decide.
    + intros Hrun. by apply mret_world in Hrun as <-.
    + intros Hrun. by apply modify_world in Hrun as ->.
Qed.

Lemma reboot_registered context configPath ref candidateFiles w w' :
  Watching.rebootWatcher context configPath ref candidateFiles w = Ok tt w' →
  registered w w' [].
Proof.
  unfold Watching.rebootWatcher, Watching.getTouchFile.
  intros Hrun. apply bind_inv in Hrun as (found & w1 & Hg & Hrun).
  rewrite bind_get_world in Hg. apply Ok_inv in Hg as [<- <-].
  apply bind_inv in Hrun as (t & w2 & Ht & Hrun).
  assert (Hf2 : registered w w2 []).
  { destruct (touchFiles (watching w) !! context).
    - apply Ok_world in Ht as <-. apply registered_refl.
    - apply bind_inv in Ht as (t' & w3 & Hgen & Ht).
      apply generateTouchFileName_world in Hgen.
      apply bind_inv in Ht as ([] & w4 & Hset & Ht).
      apply modify_world in Hset.
      apply bind_inv in Ht as ([] & w5 & Htouch & Ht).
      apply mret_world in Ht.
      destruct (touch_effect t' w4)
        as (w6 & Hw6 & _ & _ & _ & (e & Htr & He) & _).
      rewrite Hw6 in Htouch. apply Ok_world in Htouch.
      subst w2 w5 w4 w3.
      apply (registered_quiet _ _ [e]); [by rewrite Htr|].
      intros e' He'. apply list_elem_of_singleton in He'. subst e'.
      by destruct He as [->| ->]. }
  apply (registered_nil_trans _ _ _ Hf2).
  destruct (bool_decide (env_TAILWIND_MODE = Some "build")).
  { apply mret_world in Hrun as <-. apply registered_refl. }
  destruct (_ || _).
  - unfold Watching.getWatcher in Hrun.
    apply bind_inv in Hrun as (wt & w3 & Hg & Hrun).
    rewrite bind_get_world in Hg. apply Ok_inv in Hg as [<- <-].
    apply bind_inv in Hrun as ([] & w4 & Hclose & Hrun).
    apply modify_world in Hrun as ->.
    destruct (watchers (watching w2) !! context).
    + apply modify_world in Hclose as ->.
      apply (registered_quiet _ _ [EvWatcherClose context]); [done|].
      intros e He. apply list_elem_of_singleton in He. by subst.
    + apply mret_world in Hclose as <-. by apply registered_silent.
  - apply mret_world in Hrun as <-. apply registered_refl.
Qed.

Lemma watching_block_registered (context : nat)
    (candidateFiles : list string) (w w' : world) :
  watching_block context candidateFiles w = Ok tt w' →
  registered w w' [] ∧
  touchFiles (watching w') = touchFiles (watching w).
Proof.
  unfold watching_block. intros Hrun.
  apply bind_inv in Hrun as (out & w1 & Hc & Hpush).
  rewrite push_loop in Hpush. apply Ok_world in Hpush as <-.
  unfold Watching.resolvedChangedContent in Hc.
  apply bind_inv in Hc as (cobj & w2 & Hread & Hc).
  unfold read_context in Hread. rewrite bind_get_world in Hread.
  destruct (contexts (utils w) !! context) as [cobj'|]; [|done].
  apply Ok_inv in Hread as [<- <-].
  destruct (tailwindConfig cobj') as [cfg|]; [|done].
  cbn [defined] in Hc. rewrite bind_mret in Hc.
  apply bind_inv in Hc as (ch & w3 & Hscan & Hc).
  unfold Watching.resolveChangedFiles in Hscan.
  rewrite bind_get_world in Hscan.
  destruct (bool_decide (context ∈ scannedContentCache (watching w))).
  - apply Ok_inv in Hscan as [<- <-]. apply Ok_world in Hc as <-.
    split; [|done]. by apply registered_silent.
  - rewrite bind_modify in Hscan. apply Ok_inv in Hscan as [<- <-].
    pose proof (read_loop_inv _ _ _ _ _ Hc) as Hall.
    rewrite read_loop in Hc by done. apply Ok_world in Hc as <-.
    split; [|done].
    eapply registered_quiet; [reflexivity|]. apply reads_not_registers.
Qed.

(** X17.  What a watch-mode request that returns has registered with
    the host, in order: the loader's one dependency, which is the
    configuration path, or [null] for an inline configuration; then the
    touch file of the context, when it has one with a non-empty name.
    Candidate files are not registered in watch mode, with or without
    directives. *)
Theorem watch_request_registrations (c : config_or_path)
    (dirs : gset string) (result : postcss_result) (w w' : world)
    (context : nat) :
  Watching.setupWatchingContext c dirs result w = Ok context w' →
  registered w w'
    (EvRegister (path_val (resolveConfigPath (files (node w)) c)) None ::
     match touchFiles (watching w') !! context with
     | Some t =>
         if bool_decide (t = "") then [] else [EvRegister (JStr t) None]
     | None => []
     end).
Proof.
  intros Hrun. unfold Watching.setupWatchingContext in Hrun.
  apply bind_inv in Hrun as (r & wa & Hload & Hrun). cbv zeta in Hrun.
  apply bind_inv in Hrun as ([ctx b] & wb & Hctx & Hrun).
  cbn [fst snd] in Hrun.
  apply bind_inv in Hrun as (cands & wc & Hcand & Hrun).
  apply bind_inv in Hrun as (ref & wd & Hdeps & Hrun).
  destruct (getConfigDependencies_inv _ _ _ _ Hdeps) as (-> & Hnd & _).
  rewrite (bind_Ok _ _ _ _ _ (register_files r.2 id wd)) in Hrun.
  unfold push_disposable at 1 in Hrun. rewrite bind_modify in Hrun.
  apply bind_inv in Hrun as (configPath & wg & Hpath & Hrun).
  apply bind_inv in Hrun as ([] & wh & Hmods & Hrun).
  apply bind_inv in Hrun as ([] & wi & Hboot & Hrun).
  apply bind_inv in Hrun as (touchFile & wj & Htf & Hrun).
  apply bind_inv in Hrun as ([] & wk & Hreg & Hrun).
  apply bind_inv in Hrun as ([] & wl & Hblock & Hrun).
  apply Ok_inv in Hrun as [<- <-].
  unfold Watching.getTouchFile in Htf. rewrite bind_get_world in Htf.
  apply Ok_inv in Htf as [<- <-].
  destruct (watching_loader_registered _ _ _ _ Hload) as [Ha Hr2].
  pose proof (getContext_registered _ _ _ _ _ _ _ _ _ Hctx) as Hb.
  assert (Hnc : node wc = node wb).
  { revert Hcand. unfold Watching.getCandidateFiles.
    rewrite bind_get_world.
    destruct (w_candidateFilesCache (watching wb) !! ctx).
    - intros Hc. by apply mret_world in Hc as <-.
    - destruct r.1.1.1; [|done]. cbn [defined].
      rewrite bind_mret, bind_modify. intros Hc.
      by apply mret_world in Hc as <-. }
  destruct (getConfigPath_inv _ _ _ _ _ Hpath) as (Hng & _).
  cbn in Hng.
  (* up to the registration of the loader's dependency *)
  assert (Hg : registered w wg
            [EvRegister (path_val (resolveConfigPath (files (node w)) c))
               None]).
  { assert (Hd : registered w wd []).
    { apply (registered_nil_trans _ _ _ Ha).
      apply (registered_nil_trans _ _ _ Hb).
      apply registered_silent. by rewrite Hnd, Hnc. }
    apply (registered_trans _ _ _ [] _ Hd).
    apply registered_calls.
    - rewrite Hng, Hr2. done.
    - intros e He. apply list_elem_of_singleton in He. by subst. }
  (* from there to the registration of the touch file *)
  assert (Hi : registered wg wi []).
  { apply (registered_nil_trans _ wh).
    - destruct configPath as [p|].
      + rewrite bind_get_world in Hmods.
        apply module_dependencies_node in Hmods as [Hn _].
        apply registered_silent. by rewrite Hn.
      + apply mret_world in Hmods as <-. apply registered_refl.
    - destruct b.
      + by apply reboot_registered in Hboot.
      + apply mret_world in Hboot as <-. apply registered_refl. }
  assert (Hl : registered wk wl [] ∧
               touchFiles (watching wl) = touchFiles (watching wk)).
  { destruct (bool_decide (0 < size dirs)%nat).
    - fold (watching_block ctx cands) in Hblock.
      by apply watching_block_registered in Hblock.
    - apply mret_world in Hblock as <-. split; [|done].
      apply registered_refl. }
  destruct Hl as [Hl Htl].
  assert (Hk : registered wi wk
            (match touchFiles (watching wi) !! ctx with
             | Some t =>
                 if bool_decide (t = "") then []
                 else [EvRegister (JStr t) None]
             | None => []
             end) ∧
          touchFiles (watching wk) = touchFiles (watching wi)).
  { destruct (touchFiles (watching wi) !! ctx) as [t|].
    - destruct (bool_decide (t = "")).
      + apply mret_world in Hreg as <-. split; [|done].
        apply registered_refl.
      + apply modify_world in Hreg as ->. split; [|done].
        apply registered_calls; [done|].
        intros e He. apply list_elem_of_singleton in He. by subst.
    - apply mret_world in Hreg as <-. split; [|done].
      apply registered_refl. }
  destruct Hk as [Hk Htk]. rewrite Htl, Htk.
  pose proof (registered_trans _ _ _ _ _
                (registered_trans _ _ _ _ _
                   (registered_trans _ _ _ _ _ Hg Hi) Hk) Hl) as Hfin.
  rewrite !app_nil_r in Hfin. exact Hfin.
Qed.
End WatchRegistrations.

Section WatchRegistrationsWitnesses.
#[local] Existing Instance Demo.demo_externals.

Lemma watch_request_registrations_witness :
  let w' :=
    Demo.after (Watching.setupWatchingContext Demo.demo_config
                  Demo.demo_directives Demo.demo_result) Demo.demo_world in
  registered Demo.demo_world w'
    (EvRegister
       (path_val (resolveConfigPath (files (node Demo.demo_world))
                    Demo.demo_config)) None ::
     match touchFiles (watching w') !! 1%nat with
     | Some t =>
         if bool_decide (t = "") then [] else [EvRegister (JStr t) None]
     | None => []
     end).
Proof.
  intros w'.
  apply (watch_request_registrations (H := Demo.demo_externals)
           Demo.demo_config Demo.demo_directives Demo.demo_result
           Demo.demo_world w' 1%nat).
  vm_compute. reflexivity.
Defined.
End WatchRegistrationsWitnesses.
